(** * Starlight agent: a shallow embedding of [starlight/agent.go]

    The agent keeps its durable state in a bolt database that is only read
    inside [db.View] and only written inside [db.Update]; an update whose
    body returns an error is rolled back.  The in-memory fields of the
    [Agent] struct (the seed, the Horizon client) are ordinary Go memory and
    are not rolled back.  The model keeps that split: [db.Root] is the
    durable store, [Mem] the in-memory part, and [db_Update] commits the
    store only when the body returns no error.

    Code of other packages (federation lookup, key derivation, bcrypt, the
    channel state machine, the Horizon client, the transaction builder) is
    gathered in the class [Externals]; the functions of [agent.go] are
    defined over an arbitrary instance of it. *)

From Stdlib Require Import ZArith String Ascii List Bool Lia DecimalString.
From stdpp Require Import base option gmap strings list fin_maps.

Local Open Scope string_scope.
Local Open Scope Z_scope.

(** ** Machine integers

    Go's fixed-width integers are integers of [Z] reduced after every
    operation: [uint32] and [uint64] modulo a power of two, [int64] in two's
    complement. *)

Definition wrap_unsigned (w x : Z) : Z := x mod 2 ^ w.
Definition wrap_signed (w x : Z) : Z := (x + 2 ^ (w - 1)) mod 2 ^ w - 2 ^ (w - 1).

Definition uint32 (x : Z) : Z := wrap_unsigned 32 x.
Definition uint64 (x : Z) : Z := wrap_unsigned 64 x.
Definition int64 (x : Z) : Z := wrap_signed 64 x.

Definition in_int32 (x : Z) : Prop := - 2 ^ 31 <= x < 2 ^ 31.
Definition in_int64 (x : Z) : Prop := - 2 ^ 63 <= x < 2 ^ 63.
Definition in_uint32 (x : Z) : Prop := 0 <= x < 2 ^ 32.

(** ** Errors

    The package-level error values are sentinels compared by identity;
    [errors.New] at a call site makes a fresh value, [errors.Wrap] keeps the
    wrapped error as its root, and errors of other packages are opaque. *)

Inductive sentinel :=
| errAcctsSame | errAlreadyConfigured | ErrExists | errInsufficientBalance
| errInvalidEdit | errInvalidHorizonURL | errInvalidPassword
| errInvalidUsername | errNotConfigured | errNotFunded
| errPasswordsDontMatch | errAccountNotFound | errEmptyAddress
| errEmptyAmount | errNoChannelSpecified
| fsm_ErrChannelExists.

Inductive error :=
| Sentinel (s : sentinel)
| New (msg : string)
| External (msg : string)
| Wrap (e : error) (msg : string).

(** [errors.Root]: the innermost wrapped error. *)
Fixpoint Root (e : error) : error :=
  match e with
  | Wrap e' _ => Root e'
  | _ => e
  end.

Definition sentinel_eqb (a b : sentinel) : bool :=
  match a, b with
  | errAcctsSame, errAcctsSame | errAlreadyConfigured, errAlreadyConfigured
  | ErrExists, ErrExists | errInsufficientBalance, errInsufficientBalance
  | errInvalidEdit, errInvalidEdit | errInvalidHorizonURL, errInvalidHorizonURL
  | errInvalidPassword, errInvalidPassword | errInvalidUsername, errInvalidUsername
  | errNotConfigured, errNotConfigured | errNotFunded, errNotFunded
  | errPasswordsDontMatch, errPasswordsDontMatch
  | errAccountNotFound, errAccountNotFound | errEmptyAddress, errEmptyAddress
  | errEmptyAmount, errEmptyAmount | errNoChannelSpecified, errNoChannelSpecified
  | fsm_ErrChannelExists, fsm_ErrChannelExists => true
  | _, _ => false
  end.

(** [is_sentinel s e]: [errors.Root(e) == s]. *)
Definition is_sentinel (s : sentinel) (e : error) : bool :=
  match Root e with
  | Sentinel s' => sentinel_eqb s s'
  | _ => false
  end.

(** ** Data model *)

Definition bytes := list Z.

(** [Config]: the user-facing options struct. *)
Record Config := mkConfig {
  Username : string;
  Password : string;
  HorizonURL : string;
  OldPassword : string;
  MaxRoundDurMin : Z;
  FinalityDelayMin : Z;
  ChannelFeerate : Z;
  HostFeerate : Z;
  KeepAlive : option bool
}.

Module fsm.

(** An account id is kept by its address; [valid_address] (a section
    variable below) says which strings [SetAddress] accepts. *)
Definition AccountId := string.

Record WalletAcct := mkWalletAcct {
  Balance : Z;
  Seqnum : Z;
  Cursor : string;
  Address : string
}.

Inductive State :=
| Start | SettingUp | ChannelProposed | AwaitingFunding | Open
| PaymentProposed | PaymentAccepted | AwaitingPaymentMerge | AwaitingClose
| AwaitingCleanup | AwaitingRatchet | AwaitingSettlementMintime
| AwaitingSettlement | Closed.

Definition State_eqb (a b : State) : bool :=
  match a, b with
  | Start, Start | SettingUp, SettingUp | ChannelProposed, ChannelProposed
  | AwaitingFunding, AwaitingFunding | Open, Open
  | PaymentProposed, PaymentProposed | PaymentAccepted, PaymentAccepted
  | AwaitingPaymentMerge, AwaitingPaymentMerge | AwaitingClose, AwaitingClose
  | AwaitingCleanup, AwaitingCleanup | AwaitingRatchet, AwaitingRatchet
  | AwaitingSettlementMintime, AwaitingSettlementMintime
  | AwaitingSettlement, AwaitingSettlement | Closed, Closed => true
  | _, _ => false
  end.

Inductive Role := Guest | Host.

Record Channel := mkChannel {
  ID : string;
  Role_ : Role;
  State_ : State;
  HostAmount : Z;
  CounterpartyAddress : string;
  RemoteURL : string;
  Passphrase : string;
  MaxRoundDuration : Z;
  FinalityDelay : Z;
  ChannelFeerate : Z;
  HostFeerate : Z;
  FundingTime : Z;
  PaymentTime : Z;
  KeyIndex : Z;
  HostAcct : AccountId;
  GuestAcct : AccountId;
  EscrowAcct : AccountId;
  HostRatchetAcct : AccountId;
  GuestRatchetAcct : AccountId;
  RoundNumber : Z;
  BaseSequenceNumber : Z;
  HostRatchetAcctSeqNum : Z;
  GuestRatchetAcctSeqNum : Z
}.

Inductive UserCommand := CreateChannel | Pay.

Record Command := mkCommand {
  UserCommand_ : UserCommand;
  Amount : Z;
  Recipient : string; Time : Z
}.

Record ChannelProposeMsg := mkChannelProposeMsg {
  pHostAcct : AccountId;
  pGuestAcct : AccountId;
  pHostRatchetAcct : AccountId;
  pGuestRatchetAcct : AccountId;
  pCounterpartyAddress : string
}.

(** A peer message: the channel id, and the propose payload when the
    message is a [ChannelPropose]; [OtherMsg] stands for the payload of
    the other kinds, which [handleMsg] does not look into. *)
Record Message := mkMessage {
  ChannelID : string;
  ChannelProposeMsg_ : option ChannelProposeMsg;
  OtherMsg : string
}.

End fsm.

(** ** Ledger transactions as the wallet watcher reads them *)

Module xdr.

Inductive TransactionResultCode := TxSuccess | TxFailed | TxOtherCode (c : Z).

Inductive AssetType := AssetTypeNative | AssetTypeCreditAlphanum4 | AssetTypeCreditAlphanum12.

(** The operation body: the three types the watcher looks at carry what it
    reads; every other operation type is [OtherOp] with its type code. *)
Inductive Operation :=
| CreateAccount (Destination : string) (StartingBalance : Z)
| Payment (Destination : string) (Asset : AssetType) (Amount : Z)
| AccountMerge (Destination : string)
| OtherOp (OperationType : Z).

(** One entry of the transaction result: the source account balance when
    the entry is an account-merge result. *)
Definition OperationResult := option Z.

End xdr.

(** [worizon.Tx]: what Horizon streams. *)
Record HTx := mkHTx {
  PT : string;
  Ledger : Z;
  EnvXdr : string;
  ResultXdr : string
}.

(** [fsm.Tx]: the decoded envelope and result. *)
Record Tx := mkTx {
  SourceAccount : string;
  Operations : list xdr.Operation;
  ResultCode : xdr.TransactionResultCode;
  Results : list xdr.OperationResult
}.

(** ** Update records *)

Module update.

Inductive UpdateType := InitType | ConfigType | AccountType | ChannelType
                      | TxSuccessType | WarningType.

Record Config := mkConfig {
  Username : string;
  Password : string;
  HorizonURL : string
}.

Record Account := mkAccount {
  ID : string;
  Balance : Z
}.

End update.

Record Update := mkUpdate {
  Type_ : update.UpdateType;
  UConfig : option update.Config;
  Account : option update.Account;
  InputCommand : option fsm.Command;
  InputMessage : option fsm.Message;
  InputTx : option Tx;
  OpIndex : Z;
  InputLedgerTime : Z;
  PendingSequence : string;
  Warning : string
}.

Definition Update0 (t : update.UpdateType) : Update :=
  mkUpdate t None None None None None 0 0 "" "".

(** ** Task basket entries *)

Record Envelope := mkEnvelope {
  eSource : string;
  eSequence : Z;
  eDestination : string;
  eAmount : Z;
  eSigned : bool
}.

Inductive Task :=
| TbTx (ChanID : string) (E : Envelope)
| TbMsg (RemoteURL : string) (Msg : fsm.Message).

Definition walletBucket : string := "wallet".

(** ** The durable store *)

Module db.

Record Config := mkConfig {
  Username : string;
  PwType : string;
  PwHash : bytes;
  HorizonURL : string;
  MaxRoundDurMin : Z;
  FinalityDelayMin : Z;
  ChannelFeerate : Z;
  HostFeerate : Z;
  KeepAlive : bool
}.

Record Agent := mkAgent {
  Config_ : Config;
  EncryptedSeed : bytes;
  NextKeypathIndex : Z;
  PrimaryAcct : fsm.AccountId;
  Wallet : fsm.WalletAcct;
  Channels : gmap string fsm.Channel
}.

(** The root bucket: the agent's bucket, the log of update records and
    the task basket's bucket. *)
Record Root := mkRoot {
  Agent_ : Agent;
  Updates : list Update;
  Tasks : list Task
}.

Definition PutUsername (v : string) (c : Config) : Config :=
  mkConfig v (PwType c) (PwHash c) (HorizonURL c) (MaxRoundDurMin c)
           (FinalityDelayMin c) (ChannelFeerate c) (HostFeerate c) (KeepAlive c).
Definition PutPwType (v : string) (c : Config) : Config :=
  mkConfig (Username c) v (PwHash c) (HorizonURL c) (MaxRoundDurMin c)
           (FinalityDelayMin c) (ChannelFeerate c) (HostFeerate c) (KeepAlive c).
Definition PutPwHash (v : bytes) (c : Config) : Config :=
  mkConfig (Username c) (PwType c) v (HorizonURL c) (MaxRoundDurMin c)
           (FinalityDelayMin c) (ChannelFeerate c) (HostFeerate c) (KeepAlive c).
Definition PutHorizonURL (v : string) (c : Config) : Config :=
  mkConfig (Username c) (PwType c) (PwHash c) v (MaxRoundDurMin c)
           (FinalityDelayMin c) (ChannelFeerate c) (HostFeerate c) (KeepAlive c).
Definition PutMaxRoundDurMin (v : Z) (c : Config) : Config :=
  mkConfig (Username c) (PwType c) (PwHash c) (HorizonURL c) v
           (FinalityDelayMin c) (ChannelFeerate c) (HostFeerate c) (KeepAlive c).
Definition PutFinalityDelayMin (v : Z) (c : Config) : Config :=
  mkConfig (Username c) (PwType c) (PwHash c) (HorizonURL c) (MaxRoundDurMin c)
           v (ChannelFeerate c) (HostFeerate c) (KeepAlive c).
Definition PutChannelFeerate (v : Z) (c : Config) : Config :=
  mkConfig (Username c) (PwType c) (PwHash c) (HorizonURL c) (MaxRoundDurMin c)
           (FinalityDelayMin c) v (HostFeerate c) (KeepAlive c).
Definition PutHostFeerate (v : Z) (c : Config) : Config :=
  mkConfig (Username c) (PwType c) (PwHash c) (HorizonURL c) (MaxRoundDurMin c)
           (FinalityDelayMin c) (ChannelFeerate c) v (KeepAlive c).
Definition PutKeepAlive (v : bool) (c : Config) : Config :=
  mkConfig (Username c) (PwType c) (PwHash c) (HorizonURL c) (MaxRoundDurMin c)
           (FinalityDelayMin c) (ChannelFeerate c) (HostFeerate c) v.

Definition PutConfig (v : Config) (a : Agent) : Agent :=
  mkAgent v (EncryptedSeed a) (NextKeypathIndex a) (PrimaryAcct a) (Wallet a) (Channels a).
Definition PutEncryptedSeed (v : bytes) (a : Agent) : Agent :=
  mkAgent (Config_ a) v (NextKeypathIndex a) (PrimaryAcct a) (Wallet a) (Channels a).
Definition PutNextKeypathIndex (v : Z) (a : Agent) : Agent :=
  mkAgent (Config_ a) (EncryptedSeed a) v (PrimaryAcct a) (Wallet a) (Channels a).
Definition PutPrimaryAcct (v : fsm.AccountId) (a : Agent) : Agent :=
  mkAgent (Config_ a) (EncryptedSeed a) (NextKeypathIndex a) v (Wallet a) (Channels a).
Definition PutWallet (v : fsm.WalletAcct) (a : Agent) : Agent :=
  mkAgent (Config_ a) (EncryptedSeed a) (NextKeypathIndex a) (PrimaryAcct a) v (Channels a).
Definition PutChannels (v : gmap string fsm.Channel) (a : Agent) : Agent :=
  mkAgent (Config_ a) (EncryptedSeed a) (NextKeypathIndex a) (PrimaryAcct a) (Wallet a) v.

Definition PutAgent (v : Agent) (r : Root) : Root := mkRoot v (Updates r) (Tasks r).
Definition PutUpdates (v : list Update) (r : Root) : Root := mkRoot (Agent_ r) v (Tasks r).
Definition PutTasks (v : list Task) (r : Root) : Root := mkRoot (Agent_ r) (Updates r) v.

(** Update one part of the agent bucket through the root. *)
Definition onAgent (f : Agent -> Agent) (r : Root) : Root := PutAgent (f (Agent_ r)) r.
Definition onConfig (f : Config -> Config) (r : Root) : Root :=
  onAgent (fun a => PutConfig (f (Config_ a)) a) r.

Definition Config0 : Config := mkConfig "" "" [] "" 0 0 0 0 false.
Definition Wallet0 : fsm.WalletAcct := fsm.mkWalletAcct 0 0 "" "".
Definition Root0 : Root := mkRoot (mkAgent Config0 [] 0 "" Wallet0 ∅) [] [].

End db.

(** The in-memory fields of the [Agent] struct that the modelled methods
    touch: the seed ([None] is Go's nil) and the Horizon client's URL. *)
Record Mem := mkMem {
  seed : option bytes;
  wclientURL : string
}.

(** The agent: in-memory fields and the database it holds. *)
Record AgentSt := mkAgentSt {
  mem : Mem;
  store : db.Root
}.

(** Modelled from the spec: package [db] is missing from the listed source.
    "An update accepts a function of the root handle; either all writes
    commit or none do": run the body on the store, commit when it returns
    nil, roll the store back when it returns an error.  What the body did
    to the in-memory fields of the agent stays either way. *)
Definition db_Update (body : Mem -> db.Root -> Mem * db.Root * option error)
    (g : AgentSt) : AgentSt * option error :=
  let '(m', r', err) := body (mem g) (store g) in
  match err with
  | None => (mkAgentSt m' r', None)
  | Some e => (mkAgentSt m' (store g), Some e)
  end.

(** Modelled from the spec: [putUpdate] is missing from the listed source;
    "every successful transaction may append one update describing what
    happened" to the observable log. *)
Definition putUpdate (u : Update) (root : db.Root) : db.Root :=
  db.PutUpdates (db.Updates root ++ [u]) root.

Definition isReadyConfigured (root : db.Root) : bool :=
  negb (String.eqb (db.HorizonURL (db.Config_ (db.Agent_ root))) "").

Definition isReadyFunded (root : db.Root) : bool :=
  0 <? fsm.Seqnum (db.Wallet (db.Agent_ root)).

(** ** The HTTP surface: requests and responses *)

Record Request := mkRequest {
  Query : list (string * string);
  Host : string;
  Body : string
}.

(** [url.Values.Get]: the first value of the key, or the empty string. *)
Fixpoint Query_Get (q : list (string * string)) (key : string) : string :=
  match q with
  | [] => ""
  | (k, v) :: q' => if String.eqb k key then v else Query_Get q' key
  end.

Inductive ResponseBody :=
| NoBody
| ErrorText (msg : string)
| JSONObject (fields : gmap string string).

Record Response := mkResponse {
  StatusCode : Z;
  RBody : ResponseBody
}.

Definition StatusOK : Z := 200.
Definition StatusResetContent : Z := 205.
Definition StatusBadRequest : Z := 400.
Definition StatusNotFound : Z := 404.
Definition StatusInternalServerError : Z := 500.
Definition StatusNotImplemented : Z := 501.

Definition http_Error (msg : string) (code : Z) : Response := mkResponse code (ErrorText msg).

(** A JSON object's field, when the response carries one. *)
Definition json_field (r : Response) (key : string) : option string :=
  match RBody r with
  | JSONObject fields => fields !! key
  | _ => None
  end.

(** [handleFed] (agent.go 938-960).  The two values read in [db.View] come
    from the store; writing the encoded map sends status 200. *)
Definition handleFed (g : AgentSt) (req : Request) : Response :=
  if negb (String.eqb (Query_Get (Query req) "type") "name") then
    http_Error "not implemented" StatusNotImplemented
  else
    let name := db.Username (db.Config_ (db.Agent_ (store g))) in
    let acct := db.PrimaryAcct (db.Agent_ (store g)) in
    let q := Query_Get (Query req) "q" in
    if negb (String.eqb q (name +:+ "*" +:+ Host req)) then
      http_Error "not found" StatusNotFound
    else
      mkResponse StatusOK
        (JSONObject (<["stellar_address" := q +:+ "*" +:+ Host req]>
                     (<["account_id" := acct]> ∅))).

(** [time.Minute], in nanoseconds. *)
Definition time_Minute : Z := 60 * 1000000000.

(** [network.TestNetworkPassphrase]. *)
Definition TestNetworkPassphrase : string := "Test SDF Network ; September 2015".

(** What [handleMsg] fetches before it dispatches a [ChannelPropose]. *)
Record ProposePrefetch := mkProposePrefetch {
  guestSeqNum : Z;
  hostSeqNum : Z;
  baseSeqNum : Z;
  starlightURL : string
}.

(** ** Code outside [agent.go]

    What the agent calls in other packages and in the files of its own
    package that hold the channel dispatch.  Each field is the call's
    result as a function of its arguments; a Go [error] result is an
    [option error] ([None] is nil) or the left side of a sum. *)
Class Externals := {
  (** the units [xlm.Stroop] and [xlm.Millilumen] *)
  xlm_Stroop : Z;
  xlm_Millilumen : Z;
  (** [xlm.Amount.String] *)
  Amount_String : Z -> string;
  (** [worizon.Client.ValidateTestnetURL] *)
  ValidateTestnetURL : string -> option error;
  (** [worizon.Client.Now] *)
  Now : Z;
  (** [worizon.Client.SequenceForAccount] *)
  SequenceForAccount : string -> Z * option error;
  (** [validateUsername] *)
  validateUsername : string -> bool;
  (** [bcrypt.GenerateFromPassword] at the default cost *)
  bcrypt_GenerateFromPassword : string -> error + bytes;
  (** [bcrypt.CompareHashAndPassword] *)
  bcrypt_CompareHashAndPassword : bytes -> string -> option error;
  (** [sealBox] *)
  sealBox : option bytes -> string -> bytes;
  (** the address of [key.DeriveAccountPrimary(seed)] *)
  DeriveAccountPrimary : option bytes -> fsm.AccountId;
  (** the address of [key.DeriveAccount(seed, index)] *)
  DeriveAccount : option bytes -> Z -> string;
  (** whether [AccountId.SetAddress] accepts the string *)
  valid_address : string -> bool;
  (** [Agent.FindAccount]: account id, Starlight URL, error *)
  FindAccount : string -> string * string * option error;
  (** [fsm.Channel.SetupAndFundingReserveAmount] *)
  SetupAndFundingReserveAmount : fsm.Channel -> Z;
  (** [Agent.doUpdateChannel] with a body that records the command and runs
      [updater.Cmd] on it *)
  doUpdateChannel_Cmd : db.Root -> string -> fsm.Command -> db.Root * option error;
  (** [Agent.updateChannel] with the body of [handleMsg]: the prefetched
      values are stored in the channel when the message is a propose, then
      [updater.Msg] runs *)
  updateChannel_Msg : AgentSt -> fsm.Message -> option ProposePrefetch -> AgentSt * option error;
  (** [Agent.startChannel] *)
  startChannel : db.Root -> string -> option error;
  (** [fsm.NewTx] *)
  NewTx : HTx -> error + Tx;
  (** [build.Transaction] for a one-payment transaction: passphrase,
      source, sequence number, destination, amount *)
  b_Transaction : string -> string -> Z -> string -> Z -> error + Envelope;
  (** [TransactionBuilder.Sign] with the primary key of the seed *)
  Sign : option bytes -> Envelope -> error + Envelope;
  (** [json.Decoder.Decode] into an [fsm.Message] *)
  json_Decode : string -> option fsm.Message;
  (** the [Error] method of an error value: the text [%s] prints *)
  error_Error : error -> string
}.

(** [strconv.FormatInt(n, 10)]. *)
Definition FormatInt (n : Z) : string := NilZero.string_of_int (Z.to_int n).

(** [ForEach]: call [f] on every entry in turn, stop at the first error. *)
Fixpoint ForEach {A} (f : A -> option error) (l : list A) : option error :=
  match l with
  | [] => None
  | x :: l' => match f x with
               | Some e => Some e
               | None => ForEach f l'
               end
  end.

(** The channels bucket is [db.Channels]; [getChannel] and [putChannel] sit
    in another file of the package. *)

(** Modelled from the spec: [getChannel] is missing from the listed source;
    the dispatcher "looks up (or creates) the channel", a created channel
    being in state [Start]. *)
Definition getChannel (root : db.Root) (chanID : string) : fsm.Channel :=
  match db.Channels (db.Agent_ root) !! chanID with
  | Some c => c
  | None => fsm.mkChannel chanID fsm.Guest fsm.Start 0 "" "" "" 0 0 0 0 0 0 0
                          "" "" "" "" "" 0 0 0 0
  end.

(** Modelled from the spec: [putChannel] is missing from the listed source;
    it stores the channel record under its id. *)
Definition putChannel (chanID : string) (c : fsm.Channel) (root : db.Root) : db.Root :=
  db.onAgent (fun a => db.PutChannels (<[chanID := c]> (db.Channels a)) a) root.

(** Modelled from the spec: the task basket's [AddTx] is missing from the
    listed source; "add(tx, task)" enrols the task inside the update. *)
Definition tb_AddTx (t : Task) (root : db.Root) : db.Root * option error :=
  (db.PutTasks (db.Tasks root ++ [t]) root, None).

Section AgentCode.

Context `{Ext : Externals}.

(** The defaults of agent.go 591-596. *)
Definition defaultMaxRoundDurMin : Z := 24 * 60.
Definition defaultFinalityDelayMin : Z := 4 * 60.
Definition defaultChannelFeerate : Z := 10 * xlm_Millilumen.
Definition defaultHostFeerate : Z := 100 * xlm_Stroop.

(** [start] (agent.go 164-197): the goroutine it launches is not part of
    the transaction's result. *)
Definition start (m : Mem) (root : db.Root) : Mem * db.Root * option error :=
  if negb (isReadyConfigured root) then (m, root, None)
  else
    let m' := mkMem (seed m) (db.HorizonURL (db.Config_ (db.Agent_ root))) in
    let chanIDs := (map_to_list (db.Channels (db.Agent_ root))).*1 in
    match ForEach (fun chanID => startChannel root chanID) chanIDs with
    | Some err => (m', root, Some err)
    | None => (m', root, None)
    end.

(** The body of the update in [ConfigInit] (agent.go 224-300); [rnd] is
    the 32 bytes [randRead] draws. *)
Definition ConfigInit_body (rnd : bytes) (c : Config)
    (m : Mem) (root : db.Root) : Mem * db.Root * option error :=
  if isReadyConfigured root then (m, root, Some (Sentinel errAlreadyConfigured))
  else
    let m := mkMem (Some rnd) (wclientURL m) in
    let primaryAcct := DeriveAccountPrimary (seed m) in
    if 72 <? Z.of_nat (String.length (Password c)) then
      (m, root, Some (Wrap (Sentinel errInvalidPassword) "too long (max 72 chars)"))
    else if String.eqb (Password c) "" then
      (m, root, Some (Wrap (Sentinel errInvalidPassword) "empty password"))
    else if negb (validateUsername (Username c)) then
      (m, root, Some (Sentinel errInvalidUsername))
    else
      match bcrypt_GenerateFromPassword (Password c) with
      | inl err => (m, root, Some err)
      | inr digest =>
        let root := db.onConfig (db.PutUsername (Username c)) root in
        let root := db.onConfig (db.PutPwType "bcrypt") root in
        let root := db.onConfig (db.PutPwHash digest) root in
        let root := db.onConfig (db.PutHorizonURL (HorizonURL c)) root in
        let root := db.onAgent (db.PutEncryptedSeed (sealBox (seed m) (Password c))) root in
        let root := db.onAgent (db.PutNextKeypathIndex 1) root in
        let root := db.onAgent (db.PutPrimaryAcct primaryAcct) root in
        let maxRoundDurMin :=
          if MaxRoundDurMin c =? 0 then defaultMaxRoundDurMin else MaxRoundDurMin c in
        let finalityDelayMin :=
          if FinalityDelayMin c =? 0 then defaultFinalityDelayMin else FinalityDelayMin c in
        let channelFeerate :=
          if ChannelFeerate c =? 0 then defaultChannelFeerate else ChannelFeerate c in
        let hostFeerate :=
          if HostFeerate c =? 0 then defaultHostFeerate else HostFeerate c in
        let keepAlive := match KeepAlive c with None => true | Some b => b end in
        let root := db.onConfig (db.PutMaxRoundDurMin maxRoundDurMin) root in
        let root := db.onConfig (db.PutFinalityDelayMin finalityDelayMin) root in
        let root := db.onConfig (db.PutChannelFeerate channelFeerate) root in
        let root := db.onConfig (db.PutHostFeerate hostFeerate) root in
        let root := db.onConfig (db.PutKeepAlive keepAlive) root in
        let w := fsm.mkWalletAcct 0 0 "" "" in
        let root := db.onAgent (db.PutWallet w) root in
        let m := mkMem (seed m) (HorizonURL c) in
        let root :=
          putUpdate (mkUpdate update.InitType
                       (Some (update.mkConfig (Username c) "[redacted]" (HorizonURL c)))
                       (Some (update.mkAccount primaryAcct 0))
                       None None None 0 0 "" "") root in
        start m root
      end.

(** [ConfigInit] (agent.go 218-301). *)
Definition ConfigInit (rnd : bytes) (g : AgentSt) (c : Config) : AgentSt * option error :=
  match ValidateTestnetURL (HorizonURL c) with
  | Some err => (g, Some err)
  | None => db_Update (ConfigInit_body rnd c) g
  end.

(** The body of the update in [ConfigEdit] (agent.go 325-363). *)
Definition ConfigEdit_body (c : Config)
    (m : Mem) (root : db.Root) : Mem * db.Root * option error :=
  if negb (isReadyConfigured root) then (m, root, Some (Sentinel errNotConfigured))
  else
    let edit_url (m : Mem) (root : db.Root) : Mem * db.Root * option error :=
      if negb (String.eqb (HorizonURL c) "") then
        let root := db.onConfig (db.PutHorizonURL (HorizonURL c)) root in
        let root :=
          putUpdate (mkUpdate update.ConfigType
                       (Some (update.mkConfig "" "" (HorizonURL c)))
                       None None None None 0 0 "" "") root in
        (mkMem (seed m) (HorizonURL c), root, None)
      else (m, root, None) in
    if negb (String.eqb (Password c) "") then
      if negb (String.eqb (db.PwType (db.Config_ (db.Agent_ root))) "bcrypt") then
        (m, root, None)
      else
        let digest := db.PwHash (db.Config_ (db.Agent_ root)) in
        match bcrypt_CompareHashAndPassword digest (OldPassword c) with
        | Some _ => (m, root, Some (Sentinel errPasswordsDontMatch))
        | None =>
          match bcrypt_GenerateFromPassword (Password c) with
          | inl err => (m, root, Some err)
          | inr digest =>
            let root := db.onConfig (db.PutPwType "bcrypt") root in
            let root := db.onConfig (db.PutPwHash digest) root in
            let root := db.onAgent (db.PutEncryptedSeed (sealBox (seed m) (Password c))) root in
            let root :=
              putUpdate (mkUpdate update.ConfigType
                           (Some (update.mkConfig "" "[redacted]" ""))
                           None None None None 0 0 "" "") root in
            edit_url m root
          end
        end
    else edit_url m root.

(** [ConfigEdit] (agent.go 306-364). *)
Definition ConfigEdit (g : AgentSt) (c : Config) : AgentSt * option error :=
  if negb (String.eqb (Username c) "") then (g, Some (Sentinel errInvalidEdit))
  else if 72 <? Z.of_nat (String.length (Password c)) then
    (g, Some (Wrap (Sentinel errInvalidPassword) "too long (max 72 chars)"))
  else if String.eqb (Password c) "" && String.eqb (HorizonURL c) "" then (g, None)
  else
    match (if negb (String.eqb (HorizonURL c) "")
           then ValidateTestnetURL (HorizonURL c) else None) with
    | Some err => (g, Some err)
    | None => db_Update (ConfigEdit_body c) g
    end.

(** ** The wallet watcher *)

(** [xdr.SequenceNumber(uint64(htx.Ledger) << 32)]: the ledger number is
    an [int32], converted to [uint64], shifted in [uint64] and converted
    to the [int64] sequence number. *)
Definition seqnum_of_ledger (ledger : Z) : Z :=
  int64 (uint64 (Z.shiftl (uint64 ledger) 32)).

(** The account update the watcher appends for operation [index]. *)
Definition account_update (acctID : string) (w : fsm.WalletAcct)
    (InputTx : Tx) (index : nat) : Update :=
  mkUpdate update.AccountType None
           (Some (update.mkAccount acctID (uint64 (fsm.Balance w))))
           None None (Some InputTx) (Z.of_nat index) 0 "" "".

(** One turn of the loop over the operations (agent.go 409-487).  [None]
    is a Go panic: the merge result the code dereferences is absent. *)
Definition process_op (acctID : string) (htx : HTx) (InputTx : Tx)
    (index : nat) (op : xdr.Operation) (root : db.Root) : option db.Root :=
  match op with
  | xdr.CreateAccount Destination StartingBalance =>
    if negb (String.eqb Destination acctID) then Some root
    else
      let seqnum := seqnum_of_ledger (Ledger htx) in
      let w := fsm.mkWalletAcct StartingBalance seqnum (PT htx) "" in
      let root := db.onAgent (db.PutWallet w) root in
      Some (putUpdate (account_update acctID w InputTx index) root)
  | xdr.Payment Destination Asset Amount =>
    if negb (String.eqb Destination acctID) then Some root
    else
      match Asset with
      | xdr.AssetTypeNative =>
        let w := db.Wallet (db.Agent_ root) in
        let w := fsm.mkWalletAcct (int64 (fsm.Balance w + Amount)) (fsm.Seqnum w)
                                  (PT htx) (fsm.Address w) in
        let root := db.onAgent (db.PutWallet w) root in
        Some (putUpdate (account_update acctID w InputTx index) root)
      | _ => Some root
      end
  | xdr.AccountMerge Destination =>
    if negb (String.eqb Destination acctID) then Some root
    else
      match Results InputTx !! index with
      | Some (Some mergeAmount) =>
        let w := db.Wallet (db.Agent_ root) in
        let w := fsm.mkWalletAcct (int64 (fsm.Balance w + mergeAmount)) (fsm.Seqnum w)
                                  (PT htx) (fsm.Address w) in
        let root := db.onAgent (db.PutWallet w) root in
        Some (putUpdate (account_update acctID w InputTx index) root)
      | _ => None
      end
  | xdr.OtherOp _ => Some root
  end.

(** [for index, op := range InputTx.Env.Tx.Operations], from [index] on. *)
Fixpoint process_ops (acctID : string) (htx : HTx) (InputTx : Tx)
    (index : nat) (ops : list xdr.Operation) (root : db.Root) : option db.Root :=
  match ops with
  | [] => Some root
  | op :: ops' =>
    match process_op acctID htx InputTx index op root with
    | Some root' => process_ops acctID htx InputTx (S index) ops' root'
    | None => None
    end
  end.

(** The log entry for a transaction the primary account sent
    (agent.go 400-408). *)
Definition log_sent (acctID : string) (htx : HTx) (InputTx : Tx)
    (root : db.Root) : db.Root :=
  if String.eqb (SourceAccount InputTx) acctID then
    let w := db.Wallet (db.Agent_ root) in
    let w := fsm.mkWalletAcct (fsm.Balance w) (fsm.Seqnum w) (PT htx) (fsm.Address w) in
    let root := db.onAgent (db.PutWallet w) root in
    putUpdate (mkUpdate update.TxSuccessType None None None None (Some InputTx)
                        0 0 "" "") root
  else root.

(** The body of the update in the watcher's callback (agent.go 398-489). *)
Definition watch_update (acctID : string) (htx : HTx) (InputTx : Tx)
    (root : db.Root) : option db.Root :=
  process_ops acctID htx InputTx 0 (Operations InputTx)
              (log_sent acctID htx InputTx root).

(** What one call of the stream callback does to the agent. *)
Inductive watch_result :=
| Watched (g : AgentSt)
| StreamError (e : error)
| Panicked.

(** The callback [watchWalletAcct] passes to [StreamTxs]
    (agent.go 389-491), run on one streamed transaction.  The update's
    body always returns nil, so the update commits whatever the body
    wrote. *)
Definition watchWalletAcct (acctID : string) (g : AgentSt) (htx : HTx) : watch_result :=
  match NewTx htx with
  | inl err => StreamError err
  | inr InputTx =>
    match ResultCode InputTx with
    | xdr.TxSuccess =>
      match watch_update acctID htx InputTx (store g) with
      | Some root' => Watched (mkAgentSt (mem g) root')
      | None => Panicked
      end
    | _ => Watched g
    end
  end.

(** ** Channel creation *)

(** The test [checkChannelUnique] makes on one channel: the accounts
    [a], [b] are its host and guest accounts, in either order. *)
Definition same_pair (a b : string) (c : fsm.Channel) : bool :=
  let p := fsm.HostAcct c in
  let q := fsm.GuestAcct c in
  (String.eqb a p && String.eqb b q) || (String.eqb a q && String.eqb b p).

(** [checkChannelUnique] (agent.go 598-610): a view over the channels
    bucket.  (The message of the wrapped error names the first channel
    met; the order of the walk does not change the error's root.) *)
Definition checkChannelUnique (g : AgentSt) (a b : string) : option error :=
  let chans := db.Channels (db.Agent_ (store g)) in
  ForEach (fun '(currChanID, c) =>
             if same_pair a b c then
               Some (Wrap (Sentinel ErrExists)
                          ("between host " +:+ fsm.HostAcct c +:+
                           " and guest " +:+ fsm.GuestAcct c))
             else None)
          (map_to_list chans).

(** [nextChannelKeyIndex] (agent.go 810-814): [bump] is added in
    [uint32]. *)
Definition nextChannelKeyIndex (agent : db.Agent) (bump : Z) : Z * db.Agent :=
  let i := db.NextKeypathIndex agent in
  (i, db.PutNextKeypathIndex (uint32 (i + bump)) agent).

Definition passphrase (root : db.Root) : string := TestNetworkPassphrase.

(** What the update of [DoCreateChannel] has in hand when it reaches the
    balance check: the channel it built, the wallet copy [w] it is
    editing, and the store (with the key index already bumped). *)
Record Prepared := mkPrepared {
  prep_ch : fsm.Channel;
  prep_w : fsm.WalletAcct;
  prep_root : db.Root
}.

(** The update of [DoCreateChannel] up to the building of the channel
    record (agent.go 642-712).  The second component is the value of the
    variable [ch] the caller gets back next to an error. *)
Definition DoCreateChannel_prepare (guestFedAddr : string) (hostAmount : Z)
    (hostURL hostAcctStr guestAcctStr starlightURL : string)
    (m : Mem) (root : db.Root) : (error * option fsm.Channel) + Prepared :=
  if negb (isReadyFunded root) then inl (Sentinel errNotFunded, None)
  else
    let w := db.Wallet (db.Agent_ root) in
    let w := fsm.mkWalletAcct (fsm.Balance w) (int64 (fsm.Seqnum w + 3)) (fsm.Cursor w)
               (db.Username (db.Config_ (db.Agent_ root)) +:+ "*" +:+ hostURL) in
    if negb (valid_address guestAcctStr) then
      inl (Wrap (External "invalid address") ("setting guest address " +:+ guestAcctStr), None)
    else
      let guestAcct : fsm.AccountId := guestAcctStr in
      let '(channelKeyIndex, agent) := nextChannelKeyIndex (db.Agent_ root) 3 in
      let root := db.PutAgent agent root in
      let channelKeyPair := DeriveAccount (seed m) channelKeyIndex in
      let channelID := channelKeyPair in
      if negb (valid_address channelKeyPair) then
        inl (Wrap (External "invalid address")
                  ("setting escrow address " +:+ channelKeyPair), None)
      else
        let escrowAcct : fsm.AccountId := channelKeyPair in
        let firstThrowawayKeyPair := DeriveAccount (seed m) (uint32 (channelKeyIndex + 1)) in
        if negb (valid_address firstThrowawayKeyPair) then
          inl (Wrap (External "invalid address")
                    ("setting host ratchet address " +:+ firstThrowawayKeyPair), None)
        else
          let hostRatchetAcct : fsm.AccountId := firstThrowawayKeyPair in
          let secondThrowawayKeyPair :=
            DeriveAccount (seed m) (uint32 (channelKeyIndex + 2)) in
          if negb (valid_address secondThrowawayKeyPair) then
            inl (Wrap (External "invalid address")
                      ("setting guest ratchet address " +:+ secondThrowawayKeyPair), None)
          else
            let guestRatchetAcct : fsm.AccountId := secondThrowawayKeyPair in
            let fundingTime := Now in
            let ch := getChannel root channelID in
            if negb (fsm.State_eqb (fsm.State_ ch) fsm.Start) then
              inl (Wrap (Sentinel ErrExists) channelID, Some ch)
            else
              let cfg := db.Config_ (db.Agent_ root) in
              let ch :=
                fsm.mkChannel channelID fsm.Host fsm.Start hostAmount guestFedAddr
                  starlightURL (passphrase root)
                  (int64 (db.MaxRoundDurMin cfg * time_Minute))
                  (int64 (db.FinalityDelayMin cfg * time_Minute))
                  (db.ChannelFeerate cfg) (db.HostFeerate cfg)
                  fundingTime fundingTime channelKeyIndex
                  "" guestAcct escrowAcct hostRatchetAcct guestRatchetAcct
                  1 0 0 0 in
              if negb (valid_address hostAcctStr) then
                inl (Wrap (External "invalid address") "setting host address", Some ch)
              else
                let ch :=
                  fsm.mkChannel (fsm.ID ch) (fsm.Role_ ch) (fsm.State_ ch) (fsm.HostAmount ch)
                    (fsm.CounterpartyAddress ch) (fsm.RemoteURL ch) (fsm.Passphrase ch)
                    (fsm.MaxRoundDuration ch) (fsm.FinalityDelay ch)
                    (fsm.ChannelFeerate ch) (fsm.HostFeerate ch)
                    (fsm.FundingTime ch) (fsm.PaymentTime ch) (fsm.KeyIndex ch)
                    hostAcctStr (fsm.GuestAcct ch) (fsm.EscrowAcct ch)
                    (fsm.HostRatchetAcct ch) (fsm.GuestRatchetAcct ch)
                    (fsm.RoundNumber ch) (fsm.BaseSequenceNumber ch)
                    (fsm.HostRatchetAcctSeqNum ch) (fsm.GuestRatchetAcctSeqNum ch) in
                inr (mkPrepared ch w root).

(** The funding step and the hand-over to the state machine
    (agent.go 713-729): the balance check, the two writes, and the
    [CreateChannel] command. *)
Definition DoCreateChannel_fund (guestFedAddr : string) (p : Prepared)
    : db.Root * option error :=
  let ch := prep_ch p in
  let w := prep_w p in
  let newBalance := int64 (fsm.Balance w - SetupAndFundingReserveAmount ch) in
  if newBalance <? 0 then
    (prep_root p,
     Some (Wrap (Sentinel errInsufficientBalance)
                (Amount_String (fsm.Balance w))))
  else
    let w := fsm.mkWalletAcct newBalance (fsm.Seqnum w) (fsm.Cursor w) (fsm.Address w) in
    let root := putChannel (fsm.ID ch) ch (prep_root p) in
    let root := db.onAgent (db.PutWallet w) root in
    doUpdateChannel_Cmd root (fsm.ID ch)
      (fsm.mkCommand fsm.CreateChannel (fsm.HostAmount ch) guestFedAddr 0).

(** The body of the update in [DoCreateChannel] (agent.go 641-730),
    with the value left in [ch]. *)
Definition DoCreateChannel_body (guestFedAddr : string) (hostAmount : Z)
    (hostURL hostAcctStr guestAcctStr starlightURL : string)
    (m : Mem) (root : db.Root) : (Mem * db.Root * option error) * option fsm.Channel :=
  match DoCreateChannel_prepare guestFedAddr hostAmount hostURL hostAcctStr
                                guestAcctStr starlightURL m root with
  | inl (err, ch) => ((m, root, Some err), ch)
  | inr p =>
    let '(root', err) := DoCreateChannel_fund guestFedAddr p in
    ((m, root', err), Some (prep_ch p))
  end.

(** [DoCreateChannel] (agent.go 614-732): the agent afterwards, the
    channel pointer and the error. *)
Definition DoCreateChannel (g : AgentSt) (guestFedAddr : string) (hostAmount : Z)
    (hostURL : string) : AgentSt * option fsm.Channel * option error :=
  if String.eqb guestFedAddr "" then (g, None, Some (Sentinel errEmptyAddress))
  else if hostAmount =? 0 then (g, None, Some (Sentinel errEmptyAmount))
  else
    let hostAcctStr := db.PrimaryAcct (db.Agent_ (store g)) in
    let '(guestAcctStr, starlightURL, err) := FindAccount guestFedAddr in
    match err with
    | Some err => (g, None, Some (Wrap err ("finding account " +:+ guestFedAddr)))
    | None =>
      if String.eqb guestAcctStr hostAcctStr then (g, None, Some (Sentinel errAcctsSame))
      else
        match checkChannelUnique g hostAcctStr guestAcctStr with
        | Some err => (g, None, Some err)
        | None =>
          let body := DoCreateChannel_body guestFedAddr hostAmount hostURL hostAcctStr
                                           guestAcctStr starlightURL in
          let '(g', err) := db_Update (fun m root => (body m root).1) g in
          (g', (body (mem g) (store g)).2, err)
        end
    end.

(** ** Wallet payment *)

(** The body of the update in [DoWalletPay] (agent.go 741-787). *)
Definition DoWalletPay_body (dest : string) (amount : Z)
    (m : Mem) (root : db.Root) : Mem * db.Root * option error :=
  let w := db.Wallet (db.Agent_ root) in
  let fee := db.HostFeerate (db.Config_ (db.Agent_ root)) in
  if fsm.Balance w <=? int64 (amount + fee) then
    (m, root, Some (New "insufficient funds"))
  else
    let w := fsm.mkWalletAcct (int64 (fsm.Balance w - amount)) (fsm.Seqnum w)
                              (fsm.Cursor w) (fsm.Address w) in
    let w := fsm.mkWalletAcct (int64 (fsm.Balance w - fee)) (fsm.Seqnum w)
                              (fsm.Cursor w) (fsm.Address w) in
    let w := fsm.mkWalletAcct (fsm.Balance w) (int64 (fsm.Seqnum w + 1))
                              (fsm.Cursor w) (fsm.Address w) in
    let root := db.onAgent (db.PutWallet w) root in
    let hostAcct := db.PrimaryAcct (db.Agent_ root) in
    match b_Transaction (passphrase root) hostAcct (uint64 (fsm.Seqnum w)) dest amount with
    | inl err => (m, root, Some err)
    | inr btx =>
      match Sign (seed m) btx with
      | inl err => (m, root, Some err)
      | inr env =>
        let time := Now in
        let root :=
          putUpdate (mkUpdate update.AccountType None
                       (Some (update.mkAccount hostAcct (uint64 (fsm.Balance w))))
                       (Some (fsm.mkCommand fsm.Pay amount dest time))
                       None None 0 time (FormatInt (fsm.Seqnum w)) "") root in
        let '(root, err) := tb_AddTx (TbTx walletBucket env) root in
        (m, root, err)
      end
    end.

(** [DoWalletPay] (agent.go 734-788). *)
Definition DoWalletPay (g : AgentSt) (dest : string) (amount : Z) : AgentSt * option error :=
  if String.eqb dest "" then (g, Some (Sentinel errEmptyAddress))
  else if amount =? 0 then (g, Some (Sentinel errEmptyAmount))
  else db_Update (DoWalletPay_body dest amount) g.

(** ** The peer message endpoint *)

(** [getSequenceNumbers] (agent.go 969-988): base, guest, host, error. *)
Definition getSequenceNumbers (chanID : string)
    (guestRatchetAcct hostRatchetAcct : fsm.AccountId) : Z * Z * Z * option error :=
  if negb (valid_address chanID) then (0, 0, 0, Some (External "invalid address"))
  else
    let escrowAcct : fsm.AccountId := chanID in
    match SequenceForAccount escrowAcct with
    | (_, Some err) => (0, 0, 0, Some err)
    | (base, None) =>
      match SequenceForAccount guestRatchetAcct with
      | (_, Some err) => (0, 0, 0, Some err)
      | (guest, None) =>
        match SequenceForAccount hostRatchetAcct with
        | (_, Some err) => (0, 0, 0, Some err)
        | (host, None) => (base, guest, host, None)
        end
      end
    end.

(** The end of [handleMsg] (agent.go 912-935): dispatch into the channel
    and turn the error's root into a status.  A handler that writes
    nothing answers 200. *)
Definition handleMsg_dispatch (g : AgentSt) (m : fsm.Message)
    (pre : option ProposePrefetch) : AgentSt * Response :=
  let '(g', err) := updateChannel_Msg g m pre in
  match err with
  | None => (g', mkResponse StatusOK NoBody)
  | Some e =>
    if is_sentinel ErrExists e || is_sentinel fsm_ErrChannelExists e then
      (g', http_Error "non-retriable error" StatusResetContent)
    else
      (g', http_Error "internal error" StatusInternalServerError)
  end.

(** [handleMsg] (agent.go 863-936). *)
Definition handleMsg (g : AgentSt) (req : Request) : AgentSt * Response :=
  match json_Decode (Body req) with
  | None => (g, http_Error "bad request" StatusBadRequest)
  | Some m =>
    if String.eqb (fsm.ChannelID m) "" then
      (g, http_Error "bad request" StatusBadRequest)
    else
      match fsm.ChannelProposeMsg_ m with
      | Some propose =>
        match checkChannelUnique g (fsm.pHostAcct propose) (fsm.pGuestAcct propose) with
        | Some _ => (g, http_Error "channel exists between parties" StatusResetContent)
        | None =>
          if negb (valid_address (fsm.ChannelID m)) then
            (g, http_Error "invalid channel ID" StatusBadRequest)
          else
            match getSequenceNumbers (fsm.ChannelID m) (fsm.pGuestRatchetAcct propose)
                                     (fsm.pHostRatchetAcct propose) with
            | (_, _, _, Some _) =>
              (g, http_Error "error fetching accounts" StatusBadRequest)
            | (baseSeqNum, guestSeqNum, hostSeqNum, None) =>
              let '(hostAccount, starlightURL, err) :=
                FindAccount (fsm.pCounterpartyAddress propose) in
              if String.eqb starlightURL "" then
                (g, http_Error "counterparty starlight URL not found" StatusBadRequest)
              else
                match err with
                | Some err =>
                  let errStr :=
                    "counterparty starlight URL not found, got err " +:+ error_Error err in
                  (g, http_Error errStr StatusBadRequest)
                | None =>
                  if negb (String.eqb hostAccount (fsm.pHostAcct propose)) then
                    (g, http_Error ("host acct " +:+ fsm.pHostAcct propose
                                    +:+ " doesn't match acct " +:+ hostAccount
                                    +:+ " retrieved from federation address "
                                    +:+ fsm.pCounterpartyAddress propose)
                                   StatusBadRequest)
                  else
                    handleMsg_dispatch g m
                      (Some (mkProposePrefetch guestSeqNum hostSeqNum baseSeqNum
                                               starlightURL))
                end
            end
        end
      | None => handleMsg_dispatch g m None
      end
  end.

End AgentCode.

(** ** Vocabulary of the properties *)

(** [{a, b}] and [{p, q}] are the same unordered pair. *)
Definition unordered_pair_eq (a b p q : string) : Prop :=
  (a = p /\ b = q) \/ (a = q /\ b = p).

(** Some stored channel is between the accounts [a] and [b]. *)
Definition channel_between (root : db.Root) (a b : string) : Prop :=
  exists chanID c,
    db.Channels (db.Agent_ root) !! chanID = Some c /\
    unordered_pair_eq a b (fsm.HostAcct c) (fsm.GuestAcct c).

(** An operation the watcher has nothing to do for: its destination is not
    the account, or it is a payment in another asset than the native one,
    or it is of another type than the three the watcher knows. *)
Definition ignored (acctID : string) (op : xdr.Operation) : Prop :=
  match op with
  | xdr.CreateAccount Destination _ => Destination <> acctID
  | xdr.Payment Destination Asset _ => Destination <> acctID \/ Asset <> xdr.AssetTypeNative
  | xdr.AccountMerge Destination => Destination <> acctID
  | xdr.OtherOp _ => True
  end.

(** A successful transaction's result has an account-merge entry at the
    index of each account-merge operation (the comment at agent.go
    468-469); stated for the merges into the account, from [index] on. *)
Definition merge_results_present (acctID : string) (InputTx : Tx)
    (index : nat) (ops : list xdr.Operation) : Prop :=
  forall (i : nat) Destination,
    ops !! i = Some (xdr.AccountMerge Destination) ->
    Destination = acctID ->
    exists mergeAmount, Results InputTx !! (index + i)%nat = Some (Some mergeAmount).

Section Reaching.

Context `{Ext : Externals}.

(** The call of [DoCreateChannel] gets as far as the balance check, with
    [p] in hand: the arguments are set, federation resolves the guest to
    an account other than the host's with no channel between the two,
    and the update builds the channel record. *)
Definition reaches_funding (g : AgentSt) (guestFedAddr : string) (hostAmount : Z)
    (hostURL : string) (p : Prepared) : Prop :=
  guestFedAddr <> "" /\ hostAmount <> 0 /\
  exists guestAcctStr starlightURL,
    FindAccount guestFedAddr = (guestAcctStr, starlightURL, None) /\
    guestAcctStr <> db.PrimaryAcct (db.Agent_ (store g)) /\
    checkChannelUnique g (db.PrimaryAcct (db.Agent_ (store g))) guestAcctStr = None /\
    DoCreateChannel_prepare guestFedAddr hostAmount hostURL
      (db.PrimaryAcct (db.Agent_ (store g))) guestAcctStr starlightURL
      (mem g) (store g) = inr p.

(** The store the funding step hands to the state machine: the channel
    record put, the wallet written with the new balance. *)
Definition funded_root (p : Prepared) (newBalance : Z) : db.Root :=
  let w := prep_w p in
  db.onAgent (db.PutWallet (fsm.mkWalletAcct newBalance (fsm.Seqnum w) (fsm.Cursor w)
                                             (fsm.Address w)))
             (putChannel (fsm.ID (prep_ch p)) (prep_ch p) (prep_root p)).

(** One of the checks [handleMsg] makes on a propose between the
    uniqueness check and the dispatch fails: the channel id is no account
    address, a sequence number cannot be fetched, federation gives no
    Starlight URL or an error, or the account it gives is not the
    message's host account. *)
Definition propose_precheck_fails (m : fsm.Message) (propose : fsm.ChannelProposeMsg)
    : Prop :=
  valid_address (fsm.ChannelID m) = false \/
  (getSequenceNumbers (fsm.ChannelID m) (fsm.pGuestRatchetAcct propose)
                      (fsm.pHostRatchetAcct propose)).2 <> None \/
  (FindAccount (fsm.pCounterpartyAddress propose)).1.2 = "" \/
  (FindAccount (fsm.pCounterpartyAddress propose)).2 <> None \/
  (FindAccount (fsm.pCounterpartyAddress propose)).1.1 <> fsm.pHostAcct propose.

(** All of them pass, with the sequence numbers and the URL fetched. *)
Definition propose_precheck_passes (m : fsm.Message) (propose : fsm.ChannelProposeMsg)
    (pre : ProposePrefetch) : Prop :=
  valid_address (fsm.ChannelID m) = true /\
  getSequenceNumbers (fsm.ChannelID m) (fsm.pGuestRatchetAcct propose)
                     (fsm.pHostRatchetAcct propose)
  = (baseSeqNum pre, guestSeqNum pre, hostSeqNum pre, None) /\
  FindAccount (fsm.pCounterpartyAddress propose)
  = (fsm.pHostAcct propose, starlightURL pre, None) /\
  starlightURL pre <> "".

End Reaching.

(** ** A concrete world

    One instance of the outside code and a few agents, on which the general
    statements below are run. *)

Definition ex_testnet : string := "https://horizon-testnet.stellar.org".

Definition ex_hash (pw : string) : bytes :=
  List.map (fun a => Z.of_N (N_of_ascii a)) (list_ascii_of_string pw).

Definition ex_propose (chanID : string) : fsm.Message :=
  fsm.mkMessage chanID
    (Some (fsm.mkChannelProposeMsg "GBOB" "GPRIMARY" "GHOSTRATCHET" "GGUESTRATCHET"
                                   "bob*bob.example"))
    "".

Definition ex_create_tx : Tx :=
  mkTx "GFRIENDBOT" [xdr.CreateAccount "GPRIMARY" 100000000000] xdr.TxSuccess [None].

(** A failed payment into the primary account. *)
Definition ex_failed_tx : Tx :=
  mkTx "GBOB" [xdr.Payment "GPRIMARY" xdr.AssetTypeNative 5] xdr.TxFailed [].

(** A successful transaction of GBOB with nothing in it for the primary
    account: a payment to it in another asset, and operations on others. *)
Definition ex_foreign_tx : Tx :=
  mkTx "GBOB"
       [xdr.Payment "GPRIMARY" xdr.AssetTypeCreditAlphanum4 5;
        xdr.Payment "GCAROL" xdr.AssetTypeNative 7;
        xdr.CreateAccount "GCAROL" 10;
        xdr.AccountMerge "GCAROL";
        xdr.OtherOp 5]
       xdr.TxSuccess [None; None; None; Some 3; None].

(** The text of an error in the concrete world: the message of the
    innermost error after the messages wrapped around it. *)
Fixpoint ex_error_text (e : error) : string :=
  match e with
  | Sentinel _ => "error"
  | New msg => msg
  | External msg => msg
  | Wrap e' msg => msg +:+ ": " +:+ ex_error_text e'
  end.

Definition ex_Ext : Externals := {|
  xlm_Stroop := 1;
  xlm_Millilumen := 10000;
  Amount_String a := FormatInt a;
  ValidateTestnetURL url :=
    if String.eqb url ex_testnet then None else Some (Sentinel errInvalidHorizonURL);
  Now := 1546300800;
  SequenceForAccount a :=
    if String.prefix "GNEW" a then (0, Some (External "account not found"))
    else (4294967296, None);
  validateUsername name := negb (String.eqb name "");
  bcrypt_GenerateFromPassword pw := inr (ex_hash pw);
  bcrypt_CompareHashAndPassword digest pw :=
    if bool_decide (digest = ex_hash pw) then None else Some (External "mismatch");
  sealBox s pw := (default [] s ++ ex_hash pw)%list;
  DeriveAccountPrimary s := "GPRIMARY";
  DeriveAccount s index := "GKEY" +:+ FormatInt index;
  valid_address a := String.prefix "G" a;
  FindAccount addr :=
    if String.eqb addr "bob*bob.example" then ("GBOB", "https://bob.example/", None)
    else if String.eqb addr "alice*alice.example" then
      ("GPRIMARY", "https://alice.example/", None)
    else ("", "", Some (Sentinel errAccountNotFound));
  SetupAndFundingReserveAmount ch := int64 (fsm.HostAmount ch + 50000000);
  doUpdateChannel_Cmd root chanID c :=
    (putUpdate (mkUpdate update.ChannelType None None (Some c) None None 0 0 "" "") root,
     None);
  updateChannel_Msg g m pre := (g, None);
  startChannel root chanID := None;
  NewTx htx :=
    if String.eqb (EnvXdr htx) "create" then inr ex_create_tx
    else if String.eqb (EnvXdr htx) "failed" then inr ex_failed_tx
    else if String.eqb (EnvXdr htx) "foreign" then inr ex_foreign_tx
    else inl (External "bad xdr");
  b_Transaction pass src seq dest amount := inr (mkEnvelope src seq dest amount false);
  Sign s e :=
    match s with
    | Some _ => inr (mkEnvelope (eSource e) (eSequence e) (eDestination e) (eAmount e) true)
    | None => inl (External "no seed")
    end;
  json_Decode body :=
    if String.eqb body "propose" then Some (ex_propose "GNEWESCROW")
    else if String.eqb body "complete" then Some (fsm.mkMessage "GESCROW" None "complete")
    else None;
  error_Error := ex_error_text
|}.

Definition ex_seed : bytes := [7; 7; 7].

(** A fresh agent: empty store, no seed. *)
Definition ex_fresh : AgentSt := mkAgentSt (mkMem None "") db.Root0.

(** A configured and funded agent with the given wallet balance, next key
    index and channels. *)
Definition ex_agent (balance index : Z) (chans : gmap string fsm.Channel) : AgentSt :=
  mkAgentSt (mkMem (Some ex_seed) ex_testnet)
    (db.mkRoot
       (db.mkAgent
          (db.mkConfig "alice" "bcrypt" (ex_hash "pw") ex_testnet
                       defaultMaxRoundDurMin defaultFinalityDelayMin
                       (defaultChannelFeerate (Ext := ex_Ext))
                       (defaultHostFeerate (Ext := ex_Ext)) true)
          (ex_seed ++ ex_hash "pw")%list index "GPRIMARY"
          (fsm.mkWalletAcct balance 21474836480 "" "") chans)
       [] []).

(** A channel between the primary account (guest) and GBOB (host). *)
Definition ex_channel : fsm.Channel :=
  fsm.mkChannel "GESCROW" fsm.Guest fsm.Open 1000 "bob*bob.example" "https://bob.example/"
                TestNetworkPassphrase 0 0 0 0 0 0 0
                "GBOB" "GPRIMARY" "GESCROW" "GHR" "GGR" 1 0 0 0.

(** * More of [agent.go]

    The functions the statements above did not need: authentication, the
    start of an agent on an existing database, the faucet request. *)

(** One answer of the faucet to [httpclient.Get]: the call fails, or a
    response comes back with its status code, its status line and what
    decoding its body gives (the decoder's error message, or the two
    fields [Detail] and [result_codes]). *)
Inductive FaucetReply :=
| GetFailed (err : string)
| Replied (StatusCode : Z) (Status : string) (body : string + string * string).

Section MoreAgentCode.

Context `{Ext : Externals}.

(** [openBox], in another file of the package; [None] is a nil slice. *)
Variable openBox : bytes -> string -> option bytes.

(** [taskbasket.New], in another package of the repository, taken by the
    error it returns: what it may set up inside the database for its own
    bucket is not modelled. *)
Variable taskbasket_New : db.Root -> option error.

(** The faucet's answer to the [n]-th call of [httpclient.Get] on a URL. *)
Variable httpclient_Get : string -> nat -> FaucetReply.

(** [Configured] (agent.go 367-374). *)
Definition Configured (g : AgentSt) : bool := isReadyConfigured (store g).

(** The view of [Authenticate] (agent.go 559-574): the values it leaves
    in [ok] and [seed]. *)
Definition Authenticate_view (g : AgentSt) (name password : string) : bool * option bytes :=
  let root := store g in
  if negb (isReadyConfigured root) then (false, None)
  else if negb (String.eqb name (db.Username (db.Config_ (db.Agent_ root)))) then (false, None)
  else if negb (String.eqb (db.PwType (db.Config_ (db.Agent_ root))) "bcrypt") then
    (false, None)
  else
    let digest := db.PwHash (db.Config_ (db.Agent_ root)) in
    let err := bcrypt_CompareHashAndPassword digest password in
    (match err with None => true | Some _ => false end, seed (mem g)).

(** The update of [Authenticate] (agent.go 576-583); it always returns
    nil, so the panic that follows it cannot happen. *)
Definition Authenticate_body (password : string)
    (m : Mem) (root : db.Root) : Mem * db.Root * option error :=
  match seed m with
  | Some _ => (m, root, None)
  | None =>
    let encseed := db.EncryptedSeed (db.Agent_ root) in
    (mkMem (openBox encseed password) (wclientURL m), root, None)
  end.

(** [Authenticate] (agent.go 553-589). *)
Definition Authenticate (g : AgentSt) (name password : string) : AgentSt * bool :=
  if negb (validateUsername name) then (g, false)
  else
    let '(ok, seed) := Authenticate_view g name password in
    if ok && match seed with None => true | Some _ => false end then
      ((db_Update (Authenticate_body password) g).1, ok)
    else (g, ok).

(** [StartAgent] (agent.go 139-161): the agent on the database, or the
    error of [start] or of the task basket.  The goroutine of the basket
    is not part of the result. *)
Definition StartAgent (boltDB : db.Root) : error + AgentSt :=
  let g := mkAgentSt (mkMem None "") boltDB in
  match db_Update start g with
  | (_, Some err) => inl err
  | (g, None) =>
    match taskbasket_New (store g) with
    | Some err => inl err
    | None => inr g
    end
  end.

(** An update that only appends a warning (agent.go 525-531, 539-545). *)
Definition put_warning (warning : string) (g : AgentSt) : AgentSt :=
  (db_Update (fun m root =>
                (m, putUpdate (mkUpdate update.WarningType None None None None None
                                        0 0 "" warning) root, None)) g).1.

(** The warning for a response that is not a 2xx (agent.go 513-524). *)
Definition faucet_warning (Status : string) (body : string + string * string) : string :=
  match body with
  | inl err => "bad http status from faucet: " +:+ Status +:+
               "cannot read faucet response: " +:+ err
  | inr (Detail, ResultCodes) => "faucet: " +:+ Detail +:+ " (" +:+ ResultCodes +:+ ")"
  end.

(** The loop of [getTestnetFaucetFunds] (agent.go 504-538) from attempt
    [i], with [left] attempts to go; [true] when it returned from inside
    the loop.  The sleeps between the attempts leave no trace. *)
Fixpoint faucet_loop (url : string) (i left : nat) (g : AgentSt) : AgentSt * bool :=
  match left with
  | O => (g, false)
  | S left' =>
    match httpclient_Get url i with
    | GetFailed _ => faucet_loop url (S i) left' g
    | Replied StatusCode Status body =>
      if negb (Z.quot StatusCode 100 =? 2) then
        faucet_loop url (S i) left' (put_warning (faucet_warning Status body) g)
      else (g, true)
    end
  end.

(** [getTestnetFaucetFunds] (agent.go 497-546). *)
Definition getTestnetFaucetFunds (acctID : fsm.AccountId) (g : AgentSt) : AgentSt :=
  let '(g', returned) :=
    faucet_loop ("https://friendbot.stellar.org/?addr=" +:+ acctID) 0 5 g in
  if returned then g' else put_warning "could not retrieve testnet faucet funds" g'.

End MoreAgentCode.

(** ** More vocabulary *)

(** No two stored channels are between the same two accounts. *)
Definition unique_pairs (root : db.Root) : Prop :=
  forall id1 id2 c1 c2,
    db.Channels (db.Agent_ root) !! id1 = Some c1 ->
    db.Channels (db.Agent_ root) !! id2 = Some c2 ->
    unordered_pair_eq (fsm.HostAcct c1) (fsm.GuestAcct c1)
                      (fsm.HostAcct c2) (fsm.GuestAcct c2) ->
    id1 = id2.

(** What operation [index] of a transaction adds to the wallet of the
    account: the amount of a native payment to it, the merged balance of an
    account merge into it, nothing otherwise. *)
Definition credit (acctID : string) (InputTx : Tx) (index : nat) (op : xdr.Operation)
    : option Z :=
  match op with
  | xdr.Payment Destination xdr.AssetTypeNative Amount =>
    if String.eqb Destination acctID then Some Amount else None
  | xdr.AccountMerge Destination =>
    if String.eqb Destination acctID then
      match Results InputTx !! index with
      | Some (Some mergeAmount) => Some mergeAmount
      | _ => None
      end
    else None
  | _ => None
  end.

(** The credits of the operations [ops], the first of which has index
    [index], in order. *)
Fixpoint credits (acctID : string) (InputTx : Tx) (index : nat) (ops : list xdr.Operation)
    : list Z :=
  match ops with
  | [] => []
  | op :: ops' =>
    match credit acctID InputTx index op with
    | Some amount => amount :: credits acctID InputTx (S index) ops'
    | None => credits acctID InputTx (S index) ops'
    end
  end.

(** The sum of a list of amounts. *)
Definition sum_amounts (l : list Z) : Z := fold_right Z.add 0 l.

(** The crediting operations of [ops] with their indices: operation index
    and amount, in order. *)
Fixpoint credited (acctID : string) (InputTx : Tx) (index : nat) (ops : list xdr.Operation)
    : list (nat * Z) :=
  match ops with
  | [] => []
  | op :: ops' =>
    match credit acctID InputTx index op with
    | Some amount => (index, amount) :: credited acctID InputTx (S index) ops'
    | None => credited acctID InputTx (S index) ops'
    end
  end.

(** The balance after each credit, starting from [balance], next to the
    index of the operation that gave it. *)
Fixpoint running (balance : Z) (l : list (nat * Z)) : list (nat * Z) :=
  match l with
  | [] => []
  | (index, amount) :: l' =>
    let balance' := int64 (balance + amount) in
    (index, balance') :: running balance' l'
  end.

(** The log entry that reports the balance [balance] of the account after
    operation [index] of the transaction. *)
Definition account_entry (acctID : string) (InputTx : Tx) (p : nat * Z) : Update :=
  mkUpdate update.AccountType None
           (Some (update.mkAccount acctID (uint64 p.2)))
           None None (Some InputTx) (Z.of_nat p.1) 0 "" "".

(** The log entry for a transaction of the account itself. *)
Definition tx_success_entry (InputTx : Tx) : Update :=
  mkUpdate update.TxSuccessType None None None None (Some InputTx) 0 0 "" "".

(** No operation creates the account. *)
Definition no_create (acctID : string) (ops : list xdr.Operation) : Prop :=
  forall Destination StartingBalance,
    xdr.CreateAccount Destination StartingBalance ∈ ops -> Destination <> acctID.

(** Two stores differ at most in the wallet and in the update log, which
    has only grown. *)
Definition only_wallet_and_log (root root' : db.Root) : Prop :=
  db.Config_ (db.Agent_ root') = db.Config_ (db.Agent_ root) /\
  db.EncryptedSeed (db.Agent_ root') = db.EncryptedSeed (db.Agent_ root) /\
  db.NextKeypathIndex (db.Agent_ root') = db.NextKeypathIndex (db.Agent_ root) /\
  db.PrimaryAcct (db.Agent_ root') = db.PrimaryAcct (db.Agent_ root) /\
  db.Channels (db.Agent_ root') = db.Channels (db.Agent_ root) /\
  db.Tasks root' = db.Tasks root /\
  exists us, db.Updates root' = (db.Updates root ++ us)%list.

(** ** More of the concrete world *)

(** The inverse of the concrete [sealBox]: the box opens when it ends in
    the password's hash. *)
Definition ex_openBox (box : bytes) (password : string) : option bytes :=
  let n := (length box - length (ex_hash password))%nat in
  if bool_decide (drop n box = ex_hash password) then Some (take n box) else None.

Definition ex_taskbasket_New (root : db.Root) : option error := None.

(** A faucet that times out twice and then answers. *)
Definition ex_faucet (url : string) (n : nat) : FaucetReply :=
  match n with
  | 0%nat | 1%nat => GetFailed "timeout"
  | _ => Replied 200 "200 OK" (inl "")
  end.

(** An agent whose stored password type is not bcrypt. *)
Definition ex_agent_scrypt : AgentSt :=
  mkAgentSt (mkMem None ex_testnet)
    (db.mkRoot
       (db.mkAgent (db.mkConfig "alice" "scrypt" [] ex_testnet 1440 240 100000 100 true)
                   [] 1 "GPRIMARY" db.Wallet0 ∅)
       [] []).

(** A faucet that never answers with a 2xx. *)
Definition ex_faucet_down (url : string) (n : nat) : FaucetReply :=
  match n with
  | 0%nat => GetFailed "timeout"
  | _ => Replied 503 "503 Service Unavailable" (inl "EOF")
  end.

(** A transaction of GBOB that pays the primary account twice and merges
    an account into it. *)
Definition ex_credit_tx : Tx :=
  mkTx "GBOB"
       [xdr.Payment "GPRIMARY" xdr.AssetTypeNative 5;
        xdr.Payment "GCAROL" xdr.AssetTypeNative 7;
        xdr.AccountMerge "GPRIMARY";
        xdr.Payment "GPRIMARY" xdr.AssetTypeNative 11]
       xdr.TxSuccess [None; None; Some 30; None].

(** The same with the merge result missing. *)
Definition ex_broken_merge_tx : Tx :=
  mkTx "GBOB"
       [xdr.Payment "GPRIMARY" xdr.AssetTypeNative 5;
        xdr.AccountMerge "GPRIMARY"]
       xdr.TxSuccess [None].

(** The configuration alice gives to [ConfigInit]. *)
Definition ex_config : Config := mkConfig "alice" "pw" ex_testnet "" 0 0 0 0 None.

(** * Properties *)

(** ** Machine integers *)

Lemma int64_id (x : Z) : in_int64 x -> int64 x = x.
Proof.
  unfold in_int64, int64, wrap_signed. intros H.
  change (2 ^ (64 - 1)) with 9223372036854775808 in *.
  change (2 ^ 63) with 9223372036854775808 in *.
  change (2 ^ 64) with 18446744073709551616.
  rewrite Z.mod_small; lia.
Qed.

Lemma uint32_id (x : Z) : in_uint32 x -> uint32 x = x.
Proof.
  unfold in_uint32, uint32, wrap_unsigned. intros H.
  apply Z.mod_small. exact H.
Qed.

Lemma int64_range (x : Z) : in_int64 (int64 x).
Proof.
  unfold in_int64, int64, wrap_signed.
  change (2 ^ (64 - 1)) with 9223372036854775808.
  change (2 ^ 63) with 9223372036854775808.
  change (2 ^ 64) with 18446744073709551616.
  pose proof (Z.mod_pos_bound (x + 9223372036854775808) 18446744073709551616).
  lia.
Qed.

(** The watcher's sequence number is the ledger number times [2^32], for
    every [int32] ledger number. *)
Lemma seqnum_of_ledger_shiftl (ledger : Z) :
  in_int32 ledger -> seqnum_of_ledger ledger = Z.shiftl ledger 32.
Proof.
  unfold in_int32, seqnum_of_ledger, int64, uint64, wrap_signed, wrap_unsigned.
  change (2 ^ 31) with 2147483648.
  change (2 ^ (64 - 1)) with 9223372036854775808.
  change (2 ^ 64) with 18446744073709551616.
  intros H. rewrite !Z.shiftl_mul_pow2 by lia.
  change (2 ^ 32) with 4294967296.
  destruct (Z_lt_le_dec ledger 0) as [Hneg | Hpos].
  - replace (ledger mod 18446744073709551616) with (ledger + 18446744073709551616)
      by (apply Z.mod_unique with (q := -1); lia).
    replace (((ledger + 18446744073709551616) * 4294967296) mod 18446744073709551616)
      with (ledger * 4294967296 + 18446744073709551616)
      by (apply Z.mod_unique with (q := 4294967295); lia).
    replace ((ledger * 4294967296 + 18446744073709551616 + 9223372036854775808)
               mod 18446744073709551616)
      with (ledger * 4294967296 + 9223372036854775808)
      by (apply Z.mod_unique with (q := 1); lia).
    lia.
  - rewrite (Z.mod_small ledger) by lia.
    rewrite (Z.mod_small (ledger * 4294967296)) by lia.
    rewrite Z.mod_small by lia.
    lia.
Qed.

(** ** Strings *)

Lemma String_length_append (s t : string) :
  String.length (s +:+ t) = (String.length s + String.length t)%nat.
Proof. induction s as [| a s IH]; simpl; [reflexivity | rewrite IH; reflexivity]. Qed.

(** Appending a star and a host never gives the string back. *)
Lemma append_star_neq (q host : string) : q +:+ "*" +:+ host <> q.
Proof.
  intros H. apply (f_equal String.length) in H.
  rewrite !String_length_append in H. simpl in H. lia.
Qed.

Lemma String_eqb_false (s t : string) : s <> t -> String.eqb s t = false.
Proof. apply String.eqb_neq. Qed.

(** ** Federation *)

(** What [handleFed] answers to a name query: 404 unless [q] is the
    configured name, a star and the request's host; otherwise 200 with the
    primary account and, as address, [q] with a star and the host appended. *)
Lemma handleFed_name_query (g : AgentSt) (req : Request) :
  Query_Get (Query req) "type" = "name" ->
  let name := db.Username (db.Config_ (db.Agent_ (store g))) in
  let q := Query_Get (Query req) "q" in
  (q <> name +:+ "*" +:+ Host req ->
   handleFed g req = http_Error "not found" StatusNotFound) /\
  (q = name +:+ "*" +:+ Host req ->
   StatusCode (handleFed g req) = StatusOK /\
   json_field (handleFed g req) "account_id" = Some (db.PrimaryAcct (db.Agent_ (store g))) /\
   json_field (handleFed g req) "stellar_address" = Some (q +:+ "*" +:+ Host req)).
Proof.
  intros Htype name q. unfold handleFed. rewrite Htype. simpl negb.
  fold name. fold q. split.
  - intros Hne. rewrite (String_eqb_false _ _ Hne). reflexivity.
  - intros Heq. rewrite (proj2 (String.eqb_eq _ _) Heq). simpl negb. cbv iota.
    unfold json_field. simpl RBody. split; [reflexivity | split].
    + rewrite lookup_insert_ne by discriminate. apply lookup_insert_eq.
    + apply lookup_insert_eq.
Qed.

(** C1: for a request with type=name, every q other than the configured
    username joined by a star with the Host header gets 404; when q is
    that address, [handleFed] answers 200 with the primary account as
    account_id, but its stellar_address is q with the star and the host
    appended once more, which is never the queried address q. *)
Theorem handleFed_stellar_address_not_q (g : AgentSt) (req : Request) :
  Query_Get (Query req) "type" = "name" ->
  let name := db.Username (db.Config_ (db.Agent_ (store g))) in
  let q := Query_Get (Query req) "q" in
  (q <> name +:+ "*" +:+ Host req ->
   StatusCode (handleFed g req) = StatusNotFound) /\
  (q = name +:+ "*" +:+ Host req ->
   StatusCode (handleFed g req) = StatusOK /\
   json_field (handleFed g req) "account_id" = Some (db.PrimaryAcct (db.Agent_ (store g))) /\
   json_field (handleFed g req) "stellar_address" = Some (q +:+ "*" +:+ Host req) /\
   json_field (handleFed g req) "stellar_address" <> Some q).
Proof.
  intros Htype name q.
  destruct (handleFed_name_query g req Htype) as [Hnot Hok].
  fold name q in Hnot, Hok. split.
  - intros Hne. rewrite (Hnot Hne). reflexivity.
  - intros Hq. destruct (Hok Hq) as (Hst & Hacct & Haddr).
    repeat split; try assumption.
    rewrite Haddr. intros Heq. injection Heq as Heq.
    exact (append_star_neq _ _ Heq).
Qed.

(** The request GET /federation?type=name&q=alice*alice.example sent to the
    host alice.example of the agent of alice: the answer's stellar_address
    is alice*alice.example*alice.example. *)
Lemma handleFed_stellar_address_not_q_witness :
  let req := mkRequest [("type", "name"); ("q", "alice*alice.example")] "alice.example" "" in
  let g := ex_agent 100000000000 1 ∅ in
  StatusCode (handleFed g req) = StatusOK /\
  json_field (handleFed g req) "account_id" = Some "GPRIMARY" /\
  json_field (handleFed g req) "stellar_address" = Some "alice*alice.example*alice.example" /\
  json_field (handleFed g req) "stellar_address" <> Some "alice*alice.example".
Proof.
  exact (proj2 (handleFed_stellar_address_not_q
                  (ex_agent 100000000000 1 ∅)
                  (mkRequest [("type", "name"); ("q", "alice*alice.example")]
                             "alice.example" "")
                  eq_refl)
               eq_refl).
Defined.

(** ** Configuration *)

Section ConfigProps.

Context `{Ext : Externals}.

(** An update whose body fails leaves the store as it was. *)
Lemma db_Update_error body (g g' : AgentSt) (e : error) :
  db_Update body g = (g', Some e) -> store g' = store g.
Proof.
  unfold db_Update. destruct (body (mem g) (store g)) as [[m' r'] [e' |]];
    intros H; inversion H; reflexivity.
Qed.

(** An update whose body succeeds commits the body's store. *)
Lemma db_Update_commit body (g g' : AgentSt) :
  db_Update body g = (g', None) ->
  exists m', body (mem g) (store g) = (m', store g', None) /\ mem g' = m'.
Proof.
  unfold db_Update. destruct (body (mem g) (store g)) as [[m' r'] [e' |]];
    intros H; inversion H; subst. exists m'. split; reflexivity.
Qed.

(** C3: [ConfigEdit] refuses a non-empty Username with the invalid-edit
    error and leaves the agent as it was; but when Username, Password
    and HorizonURL are empty it returns nil and changes nothing, whatever
    MaxRoundDurMin, FinalityDelayMin, ChannelFeerate, HostFeerate and
    KeepAlive hold: those fields are never looked at. *)
Theorem ConfigEdit_checks_only_username (g : AgentSt) (c : Config) :
  (Username c <> "" -> ConfigEdit g c = (g, Some (Sentinel errInvalidEdit))) /\
  (Username c = "" -> Password c = "" -> HorizonURL c = "" -> ConfigEdit g c = (g, None)).
Proof.
  unfold ConfigEdit. split.
  - intros Hne. rewrite (String_eqb_false _ _ Hne). reflexivity.
  - intros -> -> ->. reflexivity.
Qed.

(** C8, as far as the code goes: with a Horizon URL that passes the
    testnet validation and an agent not yet configured, [ConfigInit]
    returns an invalid-password error whenever the password is empty or
    longer than 72 bytes, and the store is then as it was before. *)
Theorem ConfigInit_invalid_password (rnd : bytes) (g : AgentSt) (c : Config) :
  ValidateTestnetURL (HorizonURL c) = None ->
  isReadyConfigured (store g) = false ->
  Password c = "" \/ (72 < String.length (Password c))%nat ->
  exists g' e,
    ConfigInit rnd g c = (g', Some e) /\
    Root e = Sentinel errInvalidPassword /\
    store g' = store g.
Proof.
  intros Hurl Hconf Hpw. unfold ConfigInit. rewrite Hurl.
  unfold db_Update, ConfigInit_body. rewrite Hconf.
  destruct (72 <? Z.of_nat (String.length (Password c))) eqn:Hlong.
  - eexists _, _. split; [reflexivity | split; reflexivity].
  - destruct Hpw as [Hempty | Hlen].
    + rewrite Hempty. simpl.
      eexists _, _. split; [reflexivity | split; reflexivity].
    + apply Z.ltb_ge in Hlong. lia.
Qed.

End ConfigProps.

(** [ConfigEdit] on a config that sets the five other fields and nothing
    else: nil, and the agent is unchanged. *)
Lemma ConfigEdit_checks_only_username_witness :
  let g := ex_agent 100000000000 1 ∅ in
  let c := mkConfig "" "" "" "" 5 7 3 4 (Some false) in
  ConfigEdit (Ext := ex_Ext) g c = (g, None).
Proof.
  exact (proj2 (ConfigEdit_checks_only_username (Ext := ex_Ext)
                  (ex_agent 100000000000 1 ∅)
                  (mkConfig "" "" "" "" 5 7 3 4 (Some false)))
               eq_refl eq_refl eq_refl).
Defined.

(** C8 fails as stated, twice over.  On an agent that is already
    configured an empty password gets the already-configured error, not an
    invalid-password error; and on a fresh agent the call that fails on
    the empty password leaves the drawn seed in the agent's memory. *)
Lemma ConfigInit_invalid_password_counterexample :
  let c := mkConfig "alice" "" ex_testnet "" 0 0 0 0 None in
  (ConfigInit (Ext := ex_Ext) [1; 2; 3] (ex_agent 100000000000 1 ∅) c
     = (ex_agent 100000000000 1 ∅, Some (Sentinel errAlreadyConfigured)) /\
   is_sentinel errInvalidPassword (Sentinel errAlreadyConfigured) = false) /\
  (seed (mem ex_fresh) = None /\
   exists g' e,
     ConfigInit (Ext := ex_Ext) [1; 2; 3] ex_fresh c = (g', Some e) /\
     is_sentinel errInvalidPassword e = true /\
     seed (mem g') = Some [1; 2; 3]).
Proof.
  cbv zeta. split; [split; reflexivity | split; [reflexivity |]].
  eexists _, _. split; [reflexivity | split; reflexivity].
Qed.

(** An empty password and a 73-byte password on the fresh agent. *)
Lemma ConfigInit_invalid_password_witness :
  exists g' e,
    ConfigInit (Ext := ex_Ext) [1; 2; 3] ex_fresh
               (mkConfig "alice" "" ex_testnet "" 0 0 0 0 None) = (g', Some e) /\
    Root e = Sentinel errInvalidPassword /\
    store g' = store ex_fresh.
Proof.
  exact (ConfigInit_invalid_password (Ext := ex_Ext) [1; 2; 3] ex_fresh
           (mkConfig "alice" "" ex_testnet "" 0 0 0 0 None)
           eq_refl eq_refl (or_introl eq_refl)).
Defined.

(** ** The wallet watcher *)

Section WatcherProps.

Context `{Ext : Externals}.

Variables (acctID : string) (htx : HTx) (InputTx : Tx).

(** The loop body does nothing for an ignored operation. *)
Lemma process_op_ignored (index : nat) (op : xdr.Operation) (root : db.Root) :
  ignored acctID op -> process_op acctID htx InputTx index op root = Some root.
Proof.
  destruct op as [d sb | d a amt | d | t]; simpl; intros H.
  - rewrite (String_eqb_false _ _ H). reflexivity.
  - destruct (String.eqb_spec d acctID) as [Heq | Hne]; [| reflexivity].
    destruct H as [H | H]; [contradiction |].
    destruct a; [contradiction | reflexivity | reflexivity].
  - rewrite (String_eqb_false _ _ H). reflexivity.
  - reflexivity.
Qed.

Lemma process_ops_ignored (ops : list xdr.Operation) :
  forall (index : nat) (root : db.Root),
    Forall (ignored acctID) ops ->
    process_ops acctID htx InputTx index ops root = Some root.
Proof.
  induction ops as [| op ops IH]; intros index root Hall; simpl.
  - reflexivity.
  - inversion Hall as [| ? ? Hop Hops]; subst.
    rewrite (process_op_ignored index op root Hop). apply IH. exact Hops.
Qed.

(** The loop over a concatenation is the loop over the first part, then
    over the second from where the first stopped. *)
Lemma process_ops_app (pre post : list xdr.Operation) :
  forall (index : nat) (root : db.Root),
    process_ops acctID htx InputTx index (pre ++ post) root =
    match process_ops acctID htx InputTx index pre root with
    | Some root1 => process_ops acctID htx InputTx (index + length pre) post root1
    | None => None
    end.
Proof.
  induction pre as [| op pre IH]; intros index root; simpl.
  - rewrite Nat.add_0_r. reflexivity.
  - destruct (process_op acctID htx InputTx index op root) as [root' |]; [| reflexivity].
    rewrite IH. rewrite Nat.add_succ_r. reflexivity.
Qed.

Lemma merge_results_present_tail (index : nat) (op : xdr.Operation)
    (ops : list xdr.Operation) :
  merge_results_present acctID InputTx index (op :: ops) ->
  merge_results_present acctID InputTx (S index) ops.
Proof.
  intros H i d Hi Hd. destruct (H (S i) d Hi Hd) as [amt Hamt].
  exists amt. rewrite <- Hamt. f_equal. lia.
Qed.

Lemma merge_results_present_app (index : nat) (pre post : list xdr.Operation) :
  merge_results_present acctID InputTx index (pre ++ post) ->
  merge_results_present acctID InputTx index pre /\
  merge_results_present acctID InputTx (index + length pre) post.
Proof.
  intros H. split.
  - intros i d Hi Hd. apply (H i d); [| exact Hd].
    rewrite lookup_app_l; [exact Hi |]. eapply lookup_lt_Some; exact Hi.
  - intros i d Hi Hd. destruct (H (length pre + i)%nat d) as [amt Hamt]; [| exact Hd |].
    + rewrite lookup_app_r by lia.
      replace (length pre + i - length pre)%nat with i by lia. exact Hi.
    + exists amt. rewrite <- Hamt. f_equal. lia.
Qed.

(** With the merge results in place the loop does not panic. *)
Lemma process_ops_total (ops : list xdr.Operation) :
  forall (index : nat) (root : db.Root),
    merge_results_present acctID InputTx index ops ->
    exists root', process_ops acctID htx InputTx index ops root = Some root'.
Proof.
  induction ops as [| op ops IH]; intros index root Hres; simpl.
  - exists root. reflexivity.
  - assert (Hop : exists root1, process_op acctID htx InputTx index op root = Some root1).
    { destruct op as [d sb | d a amt | d | t]; simpl.
      - destruct (negb (String.eqb d acctID)); eexists; reflexivity.
      - destruct (negb (String.eqb d acctID)); [eexists; reflexivity |].
        destruct a; eexists; reflexivity.
      - destruct (String.eqb_spec d acctID) as [Heq | Hne]; simpl.
        + destruct (Hres 0%nat d eq_refl Heq) as [amt Hamt].
          rewrite Nat.add_0_r in Hamt. rewrite Hamt. eexists; reflexivity.
        + eexists; reflexivity.
      - eexists; reflexivity. }
    destruct Hop as [root1 Hroot1]. rewrite Hroot1.
    apply IH. eapply merge_results_present_tail. exact Hres.
Qed.

(** A transaction another account sent leaves no log entry. *)
Lemma log_sent_other (root : db.Root) :
  SourceAccount InputTx <> acctID -> log_sent acctID htx InputTx root = root.
Proof. intros H. unfold log_sent. rewrite (String_eqb_false _ _ H). reflexivity. Qed.

(** C6: a successful transaction with a create-account operation for the
    primary account.  When the loop of the single update reaches that
    operation it writes the wallet record with the starting balance, the
    ledger number shifted left by 32 bits and the paging token, and
    appends an account update; the update then goes on with the
    operations that follow and commits.  When none of the following
    operations concerns the account, the committed wallet is that
    record. *)
Theorem watch_create_account (g : AgentSt) (pre post : list xdr.Operation)
    (StartingBalance : Z) :
  NewTx htx = inr InputTx ->
  ResultCode InputTx = xdr.TxSuccess ->
  Operations InputTx = (pre ++ xdr.CreateAccount acctID StartingBalance :: post)%list ->
  in_int32 (Ledger htx) ->
  merge_results_present acctID InputTx 0 (Operations InputTx) ->
  let w := fsm.mkWalletAcct StartingBalance (Z.shiftl (Ledger htx) 32) (PT htx) "" in
  let u := account_update acctID w InputTx (length pre) in
  exists root1 final,
    process_ops acctID htx InputTx 0 pre (log_sent acctID htx InputTx (store g))
      = Some root1 /\
    process_ops acctID htx InputTx (S (length pre)) post
                (putUpdate u (db.onAgent (db.PutWallet w) root1)) = Some final /\
    watchWalletAcct acctID g htx = Watched (mkAgentSt (mem g) final) /\
    Type_ u = update.AccountType /\
    (Forall (ignored acctID) post ->
     db.Wallet (db.Agent_ final) = w /\
     db.Updates final = (db.Updates root1 ++ [u])%list).
Proof.
  intros Hnew Hcode Hops Hledger Hres w u.
  rewrite Hops in Hres.
  destruct (merge_results_present_app _ _ _ Hres) as [Hpre Hrest].
  apply merge_results_present_tail in Hrest. simpl in Hrest.
  destruct (process_ops_total pre 0 (log_sent acctID htx InputTx (store g)) Hpre)
    as [root1 Hroot1].
  destruct (process_ops_total post (S (length pre))
              (putUpdate u (db.onAgent (db.PutWallet w) root1)) Hrest)
    as [final Hfinal].
  exists root1, final.
  assert (Hstep : process_op acctID htx InputTx (length pre)
                    (xdr.CreateAccount acctID StartingBalance) root1
                  = Some (putUpdate u (db.onAgent (db.PutWallet w) root1))).
  { simpl. rewrite String.eqb_refl. simpl.
    rewrite (seqnum_of_ledger_shiftl _ Hledger). reflexivity. }
  split; [exact Hroot1 | split; [exact Hfinal | split; [| split; [reflexivity |]]]].
  - unfold watchWalletAcct. rewrite Hnew, Hcode. unfold watch_update.
    rewrite Hops, process_ops_app, Hroot1.
    change (0 + length pre)%nat with (length pre).
    cbn [process_ops]. rewrite Hstep, Hfinal. reflexivity.
  - intros Hign. rewrite (process_ops_ignored post _ _ Hign) in Hfinal.
    inversion Hfinal; subst final. split; reflexivity.
Qed.

(** C7: the watcher does nothing at all for a transaction whose result
    code is not success, and the turn of its loop on an ignored operation
    (destination not the primary account, payment not in the native
    asset, or another operation type) leaves the store, and so the
    wallet record and the update log, as they are.  A successful
    transaction made only of ignored operations commits nothing but the
    log entry of a transaction the primary account sent itself, which is
    no account update; sent by another account, it changes nothing. *)
Theorem watch_ignores (g : AgentSt) :
  NewTx htx = inr InputTx ->
  (ResultCode InputTx <> xdr.TxSuccess -> watchWalletAcct acctID g htx = Watched g) /\
  (forall index op root,
      ignored acctID op -> process_op acctID htx InputTx index op root = Some root) /\
  (ResultCode InputTx = xdr.TxSuccess ->
   Forall (ignored acctID) (Operations InputTx) ->
   watchWalletAcct acctID g htx
     = Watched (mkAgentSt (mem g) (log_sent acctID htx InputTx (store g))) /\
   (SourceAccount InputTx <> acctID -> watchWalletAcct acctID g htx = Watched g)).
Proof.
  intros Hnew. split; [| split].
  - intros Hcode. unfold watchWalletAcct. rewrite Hnew.
    destruct (ResultCode InputTx); [contradiction | reflexivity | reflexivity].
  - intros index op root. apply process_op_ignored.
  - intros Hcode Hign.
    assert (Hw : watchWalletAcct acctID g htx
                 = Watched (mkAgentSt (mem g) (log_sent acctID htx InputTx (store g)))).
    { unfold watchWalletAcct. rewrite Hnew, Hcode. unfold watch_update.
      rewrite (process_ops_ignored _ _ _ Hign). reflexivity. }
    split; [exact Hw |].
    intros Hsrc. rewrite Hw, (log_sent_other _ Hsrc). destruct g; reflexivity.
Qed.

End WatcherProps.

(** The transaction that creates the primary account, at ledger 5. *)
Lemma watch_create_account_witness :
  let g := ex_agent 0 1 ∅ in
  exists final,
    watchWalletAcct (Ext := ex_Ext) "GPRIMARY" g (mkHTx "pt-1" 5 "create" "")
      = Watched (mkAgentSt (mem g) final) /\
    db.Wallet (db.Agent_ final) = fsm.mkWalletAcct 100000000000 21474836480 "pt-1" "".
Proof.
  cbv zeta.
  assert (Hledger : in_int32 5) by (unfold in_int32; lia).
  assert (Hres : merge_results_present "GPRIMARY" ex_create_tx 0 (Operations ex_create_tx)).
  { intros [| i] d Hi; simpl in Hi; discriminate Hi. }
  destruct (watch_create_account (Ext := ex_Ext) "GPRIMARY" (mkHTx "pt-1" 5 "create" "")
              ex_create_tx (ex_agent 0 1 ∅) [] [] 100000000000
              eq_refl eq_refl eq_refl Hledger Hres)
    as (root1 & final & _ & _ & Hwatch & _ & Hfinal).
  exists final. split; [exact Hwatch |].
  exact (proj1 (Hfinal (List.Forall_nil _))).
Defined.

(** A failed transaction, and a successful one of another account with
    nothing in it for the primary account: the agent stays as it is. *)
Lemma watch_ignores_witness :
  let g := ex_agent 100000000000 1 ∅ in
  watchWalletAcct (Ext := ex_Ext) "GPRIMARY" g (mkHTx "pt-2" 6 "failed" "") = Watched g /\
  watchWalletAcct (Ext := ex_Ext) "GPRIMARY" g (mkHTx "pt-3" 7 "foreign" "") = Watched g.
Proof.
  cbv zeta. split.
  - apply (proj1 (watch_ignores (Ext := ex_Ext) "GPRIMARY" (mkHTx "pt-2" 6 "failed" "")
                    ex_failed_tx (ex_agent 100000000000 1 ∅) eq_refl)).
    discriminate.
  - apply (proj2 (proj2 (watch_ignores (Ext := ex_Ext) "GPRIMARY"
                           (mkHTx "pt-3" 7 "foreign" "") ex_foreign_tx
                           (ex_agent 100000000000 1 ∅) eq_refl))).
    + reflexivity.
    + unfold ex_foreign_tx, Operations.
      repeat (apply List.Forall_cons || apply List.Forall_nil); simpl.
      * right. discriminate.
      * left. discriminate.
      * discriminate.
      * discriminate.
      * exact I.
    + discriminate.
Defined.

(** ** Channel creation *)

Lemma same_pair_spec (a b : string) (c : fsm.Channel) :
  same_pair a b c = true <-> unordered_pair_eq a b (fsm.HostAcct c) (fsm.GuestAcct c).
Proof.
  unfold same_pair, unordered_pair_eq.
  rewrite orb_true_iff, !andb_true_iff, !String.eqb_eq. reflexivity.
Qed.

(** [ForEach] stops with an error exactly when some entry gives one. *)
Lemma ForEach_Some {A} (f : A -> option error) (l : list A) :
  (exists x, x ∈ l /\ f x <> None) ->
  exists x e, x ∈ l /\ f x = Some e /\ ForEach f l = Some e.
Proof.
  induction l as [| y l IH]; intros (x & Hin & Hfx).
  - inversion Hin.
  - simpl. destruct (f y) as [e |] eqn:Hfy.
    + exists y, e. split; [left | split; [exact Hfy | reflexivity]].
    + destruct IH as (x' & e & Hin' & Hfx' & Hfe).
      * exists x. split; [| exact Hfx].
        inversion Hin; subst; [congruence | assumption].
      * exists x', e. split; [right; exact Hin' | split; assumption].
Qed.

Lemma ForEach_None {A} (f : A -> option error) (l : list A) :
  (forall x, x ∈ l -> f x = None) -> ForEach f l = None.
Proof.
  induction l as [| y l IH]; intros Hall; simpl; [reflexivity |].
  rewrite (Hall y) by left. apply IH. intros x Hx. apply Hall. right. exact Hx.
Qed.

(** [checkChannelUnique] reports a channel-exists error when a stored
    channel is between the two accounts, and nil when none is. *)
Lemma checkChannelUnique_exists (g : AgentSt) (a b : string) :
  channel_between (store g) a b ->
  exists e, checkChannelUnique g a b = Some e /\ Root e = Sentinel ErrExists.
Proof.
  intros (chanID & c & Hlook & Hpair).
  unfold checkChannelUnique.
  destruct (ForEach_Some
              (fun '(currChanID, c) =>
                 if same_pair a b c then
                   Some (Wrap (Sentinel ErrExists)
                              ("between host " +:+ fsm.HostAcct c +:+
                               " and guest " +:+ fsm.GuestAcct c))
                 else None)
              (map_to_list (db.Channels (db.Agent_ (store g)))))
    as ([id' c'] & e & _ & Hf & Hfe).
  - exists (chanID, c). split.
    + apply elem_of_map_to_list. exact Hlook.
    + rewrite (proj2 (same_pair_spec a b c) Hpair). discriminate.
  - exists e. split; [exact Hfe |].
    destruct (same_pair a b c'); inversion Hf. reflexivity.
Qed.

Lemma checkChannelUnique_unique (g : AgentSt) (a b : string) :
  ~ channel_between (store g) a b -> checkChannelUnique g a b = None.
Proof.
  intros Hno. unfold checkChannelUnique. apply ForEach_None.
  intros [chanID c] Hin. apply elem_of_map_to_list in Hin.
  destruct (same_pair a b c) eqn:Hpair; [| reflexivity].
  exfalso. apply Hno. exists chanID, c. split; [exact Hin |].
  apply same_pair_spec. exact Hpair.
Qed.

Section ChannelProps.

Context `{Ext : Externals}.

(** C4: once federation has resolved the guest address, [DoCreateChannel]
    fails with the same-accounts error when the guest account is the
    host's primary account, and with a channel-exists error when a
    stored channel is between the two accounts (in either order); the
    agent, and with it the channels bucket, is the one before the call
    and no channel is returned. *)
Theorem DoCreateChannel_same_or_existing (g : AgentSt) (guestFedAddr : string)
    (hostAmount : Z) (hostURL guestAcctStr starlightURL : string) :
  guestFedAddr <> "" ->
  hostAmount <> 0 ->
  FindAccount guestFedAddr = (guestAcctStr, starlightURL, None) ->
  let hostAcctStr := db.PrimaryAcct (db.Agent_ (store g)) in
  (guestAcctStr = hostAcctStr ->
   DoCreateChannel g guestFedAddr hostAmount hostURL
     = (g, None, Some (Sentinel errAcctsSame))) /\
  (guestAcctStr <> hostAcctStr ->
   channel_between (store g) hostAcctStr guestAcctStr ->
   exists e,
     DoCreateChannel g guestFedAddr hostAmount hostURL = (g, None, Some e) /\
     Root e = Sentinel ErrExists).
Proof.
  intros Haddr Hamt Hfind hostAcctStr. unfold DoCreateChannel.
  rewrite (String_eqb_false _ _ Haddr).
  rewrite (proj2 (Z.eqb_neq _ _) Hamt). rewrite Hfind. fold hostAcctStr.
  split.
  - intros Hsame. rewrite (proj2 (String.eqb_eq _ _) Hsame). reflexivity.
  - intros Hdiff Hbetween. rewrite (String_eqb_false _ _ Hdiff).
    destruct (checkChannelUnique_exists g hostAcctStr guestAcctStr Hbetween)
      as (e & Hcheck & Hroot).
    rewrite Hcheck. exists e. split; [reflexivity | exact Hroot].
Qed.

(** What the update has built when it reaches the balance check. *)
Lemma DoCreateChannel_prepare_inr (guestFedAddr : string) (hostAmount : Z)
    (hostURL hostAcctStr guestAcctStr starlightURL : string)
    (m : Mem) (root : db.Root) (p : Prepared) :
  DoCreateChannel_prepare guestFedAddr hostAmount hostURL hostAcctStr guestAcctStr
                          starlightURL m root = inr p ->
  let i := db.NextKeypathIndex (db.Agent_ root) in
  fsm.Balance (prep_w p) = fsm.Balance (db.Wallet (db.Agent_ root)) /\
  db.NextKeypathIndex (db.Agent_ (prep_root p)) = uint32 (i + 3) /\
  fsm.KeyIndex (prep_ch p) = i /\
  fsm.ID (prep_ch p) = DeriveAccount (seed m) i /\
  fsm.EscrowAcct (prep_ch p) = DeriveAccount (seed m) i /\
  fsm.HostRatchetAcct (prep_ch p) = DeriveAccount (seed m) (uint32 (i + 1)) /\
  fsm.GuestRatchetAcct (prep_ch p) = DeriveAccount (seed m) (uint32 (i + 2)).
Proof.
  unfold DoCreateChannel_prepare, nextChannelKeyIndex.
  repeat match goal with
         | |- context [if ?b then _ else _] => destruct b
         end;
    intros H; inversion H; subst; simpl; repeat split; reflexivity.
Qed.

Lemma funded_root_index (p : Prepared) (newBalance : Z) :
  db.NextKeypathIndex (db.Agent_ (funded_root p newBalance))
  = db.NextKeypathIndex (db.Agent_ (prep_root p)).
Proof. reflexivity. Qed.

(** The funding step, by the sign of the new balance. *)
Lemma DoCreateChannel_fund_cases (guestFedAddr : string) (p : Prepared) :
  let newBalance :=
    int64 (fsm.Balance (prep_w p) - SetupAndFundingReserveAmount (prep_ch p)) in
  (newBalance < 0 ->
   exists e, DoCreateChannel_fund guestFedAddr p = (prep_root p, Some e) /\
             Root e = Sentinel errInsufficientBalance) /\
  (0 <= newBalance ->
   DoCreateChannel_fund guestFedAddr p
   = doUpdateChannel_Cmd (funded_root p newBalance) (fsm.ID (prep_ch p))
       (fsm.mkCommand fsm.CreateChannel (fsm.HostAmount (prep_ch p)) guestFedAddr 0)).
Proof.
  intros newBalance. unfold DoCreateChannel_fund. fold newBalance. split; intros H.
  - rewrite (proj2 (Z.ltb_lt _ _) H). eexists. split; reflexivity.
  - rewrite (proj2 (Z.ltb_ge _ _) H). reflexivity.
Qed.

(** A call that reaches the balance check returns what the funding step
    decides: its store on success, the old agent on an error. *)
Lemma DoCreateChannel_reaches (g : AgentSt) (guestFedAddr : string) (hostAmount : Z)
    (hostURL : string) (p : Prepared) :
  reaches_funding g guestFedAddr hostAmount hostURL p ->
  DoCreateChannel g guestFedAddr hostAmount hostURL
  = match DoCreateChannel_fund guestFedAddr p with
    | (root', None) => (mkAgentSt (mem g) root', Some (prep_ch p), None)
    | (_, Some e) => (g, Some (prep_ch p), Some e)
    end.
Proof.
  intros (Haddr & Hamt & guestAcctStr & starlightURL & Hfind & Hdiff & Huniq & Hprep).
  unfold DoCreateChannel.
  rewrite (String_eqb_false _ _ Haddr), (proj2 (Z.eqb_neq _ _) Hamt), Hfind.
  rewrite (String_eqb_false _ _ Hdiff), Huniq.
  unfold db_Update, DoCreateChannel_body. rewrite Hprep.
  destruct (DoCreateChannel_fund guestFedAddr p) as [root' [e |]]; simpl.
  - destruct g; reflexivity.
  - reflexivity.
Qed.

(** A call that returns no error did reach the balance check and passed
    the funding step. *)
Lemma DoCreateChannel_success_inv (g g' : AgentSt) (guestFedAddr : string)
    (hostAmount : Z) (hostURL : string) (ch : option fsm.Channel) :
  DoCreateChannel g guestFedAddr hostAmount hostURL = (g', ch, None) ->
  exists p root',
    reaches_funding g guestFedAddr hostAmount hostURL p /\
    DoCreateChannel_fund guestFedAddr p = (root', None) /\
    g' = mkAgentSt (mem g) root' /\ ch = Some (prep_ch p).
Proof.
  unfold DoCreateChannel.
  destruct (String.eqb_spec guestFedAddr "") as [| Haddr]; [discriminate |].
  destruct (Z.eqb_spec hostAmount 0) as [| Hamt]; [discriminate |].
  destruct (FindAccount guestFedAddr) as [[guestAcctStr starlightURL] [err |]] eqn:Hfind;
    [discriminate |].
  destruct (String.eqb_spec guestAcctStr (db.PrimaryAcct (db.Agent_ (store g))))
    as [| Hdiff]; [discriminate |].
  destruct (checkChannelUnique g (db.PrimaryAcct (db.Agent_ (store g))) guestAcctStr)
    eqn:Huniq; [discriminate |].
  unfold db_Update, DoCreateChannel_body.
  destruct (DoCreateChannel_prepare guestFedAddr hostAmount hostURL
              (db.PrimaryAcct (db.Agent_ (store g))) guestAcctStr starlightURL
              (mem g) (store g)) as [[err c] | p] eqn:Hprep; simpl.
  - discriminate.
  - destruct (DoCreateChannel_fund guestFedAddr p) as [root' [e |]] eqn:Hfund; simpl;
      [discriminate |].
    intros H. inversion H; subst.
    exists p, root'. split; [| split; [exact Hfund | split; reflexivity]].
    split; [exact Haddr | split; [exact Hamt |]].
    exists guestAcctStr, starlightURL. repeat split; assumption.
Qed.

(** C5, where the difference does not wrap: a call that reaches the
    funding step with a balance, of either sign, that is below the
    channel's reserve amount by no more than [2^63] returns the
    insufficient-balance error and the agent of before the call: wallet,
    channels and next key index are untouched.  With a balance equal to
    the reserve the step goes on with a new balance of zero: the call is
    what the state machine makes of the [CreateChannel] command, and
    succeeds when that does. *)
Theorem DoCreateChannel_insufficient_balance (g : AgentSt) (guestFedAddr : string)
    (hostAmount : Z) (hostURL : string) (p : Prepared) :
  reaches_funding g guestFedAddr hostAmount hostURL p ->
  let balance := fsm.Balance (db.Wallet (db.Agent_ (store g))) in
  let reserve := SetupAndFundingReserveAmount (prep_ch p) in
  (balance < reserve -> - 2 ^ 63 <= balance - reserve ->
   exists e,
     DoCreateChannel g guestFedAddr hostAmount hostURL = (g, Some (prep_ch p), Some e) /\
     Root e = Sentinel errInsufficientBalance) /\
  (balance = reserve ->
   forall root' err,
     doUpdateChannel_Cmd (funded_root p 0) (fsm.ID (prep_ch p))
       (fsm.mkCommand fsm.CreateChannel (fsm.HostAmount (prep_ch p)) guestFedAddr 0)
     = (root', err) ->
     DoCreateChannel g guestFedAddr hostAmount hostURL
     = match err with
       | None => (mkAgentSt (mem g) root', Some (prep_ch p), None)
       | Some e => (g, Some (prep_ch p), Some e)
       end).
Proof.
  intros Hreach balance reserve.
  pose proof Hreach as (_ & _ & guestAcctStr & starlightURL & _ & _ & _ & Hprep).
  destruct (DoCreateChannel_prepare_inr _ _ _ _ _ _ _ _ _ Hprep) as (Hbal & _).
  rewrite (DoCreateChannel_reaches _ _ _ _ _ Hreach).
  destruct (DoCreateChannel_fund_cases guestFedAddr p) as [Hlow Hok].
  rewrite Hbal in Hlow, Hok. fold balance reserve in Hlow, Hok.
  split.
  - intros Hlt Hdiff.
    destruct Hlow as (e & Hfund & Hroot).
    + rewrite int64_id; [lia |]. unfold in_int64. lia.
    + rewrite Hfund. exists e. split; [reflexivity | exact Hroot].
  - intros Heq root' err Hcmd.
    assert (Hzero : int64 (balance - reserve) = 0).
    { rewrite Heq, Z.sub_diag. reflexivity. }
    rewrite Hzero in Hok. rewrite Hok by lia. rewrite Hcmd.
    destruct err; reflexivity.
Qed.

(** C9, within the range of the counter: a successful call reads the
    stored next key index [i], derives the escrow, host-ratchet and
    guest-ratchet accounts at [i], [i+1] and [i+2] and, the state
    machine's step leaving the counter alone, stores [i+3], as long as
    [i+3] still fits in 32 bits. *)
Theorem DoCreateChannel_key_indices (g g' : AgentSt) (guestFedAddr : string)
    (hostAmount : Z) (hostURL : string) (ch : option fsm.Channel) :
  (forall root chanID c root',
      doUpdateChannel_Cmd root chanID c = (root', None) ->
      db.NextKeypathIndex (db.Agent_ root') = db.NextKeypathIndex (db.Agent_ root)) ->
  DoCreateChannel g guestFedAddr hostAmount hostURL = (g', ch, None) ->
  let i := db.NextKeypathIndex (db.Agent_ (store g)) in
  0 <= i ->
  i + 3 < 2 ^ 32 ->
  exists c,
    ch = Some c /\
    fsm.KeyIndex c = i /\
    fsm.EscrowAcct c = DeriveAccount (seed (mem g)) i /\
    fsm.HostRatchetAcct c = DeriveAccount (seed (mem g)) (i + 1) /\
    fsm.GuestRatchetAcct c = DeriveAccount (seed (mem g)) (i + 2) /\
    db.NextKeypathIndex (db.Agent_ (store g')) = i + 3 /\
    i <= db.NextKeypathIndex (db.Agent_ (store g')).
Proof.
  intros Hframe Hcall i Hlo Hhi.
  destruct (DoCreateChannel_success_inv _ _ _ _ _ _ Hcall)
    as (p & root' & Hreach & Hfund & -> & ->).
  destruct Hreach as (_ & _ & guestAcctStr & starlightURL & _ & _ & _ & Hprep).
  destruct (DoCreateChannel_prepare_inr _ _ _ _ _ _ _ _ _ Hprep)
    as (_ & Hidx & Hkey & _ & Hesc & Hhr & Hgr).
  fold i in Hidx, Hkey, Hesc, Hhr, Hgr.
  rewrite (uint32_id (i + 1)) in Hhr by (unfold in_uint32; lia).
  rewrite (uint32_id (i + 2)) in Hgr by (unfold in_uint32; lia).
  rewrite (uint32_id (i + 3)) in Hidx by (unfold in_uint32; lia).
  assert (Hnew : db.NextKeypathIndex (db.Agent_ root') = i + 3).
  { destruct (DoCreateChannel_fund_cases guestFedAddr p) as [Hlow Hok].
    destruct (Z_lt_le_dec
                (int64 (fsm.Balance (prep_w p) - SetupAndFundingReserveAmount (prep_ch p)))
                0) as [Hneg | Hnonneg].
    - destruct (Hlow Hneg) as (e & He & _). rewrite He in Hfund. discriminate.
    - rewrite (Hok Hnonneg) in Hfund.
      rewrite (Hframe _ _ _ _ Hfund), funded_root_index. exact Hidx. }
  exists (prep_ch p). simpl. rewrite Hnew.
  repeat split; try assumption; lia.
Qed.

End ChannelProps.

(** The concrete state machine step leaves the key counter alone. *)
Lemma ex_doUpdateChannel_frame (root : db.Root) (chanID : string) (c : fsm.Command)
    (root' : db.Root) :
  doUpdateChannel_Cmd (Externals := ex_Ext) root chanID c = (root', None) ->
  db.NextKeypathIndex (db.Agent_ root') = db.NextKeypathIndex (db.Agent_ root).
Proof. intros H. inversion H. reflexivity. Qed.

(** The agent of alice, with a channel to GBOB: a channel to herself and a
    second channel to GBOB are both refused. *)
Lemma DoCreateChannel_same_or_existing_witness :
  let g := ex_agent 100000000000 1 {[ "GESCROW" := ex_channel ]} in
  DoCreateChannel (Ext := ex_Ext) g "alice*alice.example" 1000 "alice.example"
    = (g, None, Some (Sentinel errAcctsSame)) /\
  exists e,
    DoCreateChannel (Ext := ex_Ext) g "bob*bob.example" 1000 "alice.example"
      = (g, None, Some e) /\
    Root e = Sentinel ErrExists.
Proof.
  cbv zeta. split.
  - apply (proj1 (DoCreateChannel_same_or_existing (Ext := ex_Ext)
                    (ex_agent 100000000000 1 {[ "GESCROW" := ex_channel ]})
                    "alice*alice.example" 1000 "alice.example"
                    "GPRIMARY" "https://alice.example/"
                    ltac:(discriminate) ltac:(discriminate) eq_refl)).
    reflexivity.
  - apply (proj2 (DoCreateChannel_same_or_existing (Ext := ex_Ext)
                    (ex_agent 100000000000 1 {[ "GESCROW" := ex_channel ]})
                    "bob*bob.example" 1000 "alice.example"
                    "GBOB" "https://bob.example/"
                    ltac:(discriminate) ltac:(discriminate) eq_refl)).
    + discriminate.
    + exists "GESCROW", ex_channel. split.
      * vm_compute. reflexivity.
      * right. split; reflexivity.
Defined.

(** With 1000 stroops in the wallet the call for a channel of 1000 stroops
    (reserve 50001000) is refused and the agent is unchanged, and so it is
    with a wallet that is 5000 stroops in the red; with exactly 50001000
    stroops it goes through and leaves a balance of zero. *)
Lemma DoCreateChannel_insufficient_balance_witness :
  (let g := ex_agent 1000 1 ∅ in
   exists c e,
     DoCreateChannel (Ext := ex_Ext) g "bob*bob.example" 1000 "alice.example"
       = (g, Some c, Some e) /\
     Root e = Sentinel errInsufficientBalance) /\
  (let g := ex_agent (-5000) 1 ∅ in
   exists c e,
     DoCreateChannel (Ext := ex_Ext) g "bob*bob.example" 1000 "alice.example"
       = (g, Some c, Some e) /\
     Root e = Sentinel errInsufficientBalance) /\
  (let g := ex_agent 50001000 1 ∅ in
   exists g' c,
     DoCreateChannel (Ext := ex_Ext) g "bob*bob.example" 1000 "alice.example"
       = (g', Some c, None) /\
     fsm.Balance (db.Wallet (db.Agent_ (store g'))) = 0).
Proof.
  cbv zeta. split; [| split].
  - set (g := ex_agent 1000 1 ∅).
    let r := eval vm_compute in
               (DoCreateChannel_prepare (Ext := ex_Ext) "bob*bob.example" 1000
                  "alice.example" "GPRIMARY" "GBOB" "https://bob.example/"
                  (mem g) (store g)) in
    match r with inr ?p0 => pose (p := p0) end.
    assert (Hreach : reaches_funding (Ext := ex_Ext) g "bob*bob.example" 1000
                       "alice.example" p).
    { split; [discriminate | split; [discriminate |]].
      exists "GBOB", "https://bob.example/".
      split; [reflexivity | split; [discriminate | split]]; vm_compute; reflexivity. }
    destruct (DoCreateChannel_insufficient_balance (Ext := ex_Ext) g "bob*bob.example"
                1000 "alice.example" p Hreach) as [Hlow _].
    destruct Hlow as (e & Hcall & Hroot);
      [vm_compute; reflexivity | vm_compute; discriminate |].
    exists (prep_ch p), e. split; [exact Hcall | exact Hroot].
  - set (g := ex_agent (-5000) 1 ∅).
    let r := eval vm_compute in
               (DoCreateChannel_prepare (Ext := ex_Ext) "bob*bob.example" 1000
                  "alice.example" "GPRIMARY" "GBOB" "https://bob.example/"
                  (mem g) (store g)) in
    match r with inr ?p0 => pose (p := p0) end.
    assert (Hreach : reaches_funding (Ext := ex_Ext) g "bob*bob.example" 1000
                       "alice.example" p).
    { split; [discriminate | split; [discriminate |]].
      exists "GBOB", "https://bob.example/".
      split; [reflexivity | split; [discriminate | split]]; vm_compute; reflexivity. }
    destruct (DoCreateChannel_insufficient_balance (Ext := ex_Ext) g "bob*bob.example"
                1000 "alice.example" p Hreach) as [Hlow _].
    destruct Hlow as (e & Hcall & Hroot);
      [vm_compute; reflexivity | vm_compute; discriminate |].
    exists (prep_ch p), e. split; [exact Hcall | exact Hroot].
  - set (g := ex_agent 50001000 1 ∅).
    let r := eval vm_compute in
               (DoCreateChannel_prepare (Ext := ex_Ext) "bob*bob.example" 1000
                  "alice.example" "GPRIMARY" "GBOB" "https://bob.example/"
                  (mem g) (store g)) in
    match r with inr ?p0 => pose (p := p0) end.
    assert (Hreach : reaches_funding (Ext := ex_Ext) g "bob*bob.example" 1000
                       "alice.example" p).
    { split; [discriminate | split; [discriminate |]].
      exists "GBOB", "https://bob.example/".
      split; [reflexivity | split; [discriminate | split]]; vm_compute; reflexivity. }
    destruct (DoCreateChannel_insufficient_balance (Ext := ex_Ext) g "bob*bob.example"
                1000 "alice.example" p Hreach) as [_ Heq].
    pose (root' :=
            (doUpdateChannel_Cmd (Externals := ex_Ext) (funded_root p 0)
               (fsm.ID (prep_ch p))
               (fsm.mkCommand fsm.CreateChannel (fsm.HostAmount (prep_ch p))
                              "bob*bob.example" 0)).1).
    exists (mkAgentSt (mem g) root'), (prep_ch p). split.
    + exact (Heq ltac:(vm_compute; reflexivity) root' None eq_refl).
    + vm_compute. reflexivity.
Defined.

(** C5 fails as stated on a wallet whose balance has gone negative, which
    the overflowing payment of 9223372036854775807 stroops brings about:
    the balance is then far below the reserve of 50001000, but the
    difference wraps around in [int64] to a positive number, and the
    channel is created. *)
Lemma DoCreateChannel_insufficient_balance_counterexample :
  exists g1 p g2,
    DoWalletPay (Ext := ex_Ext) (ex_agent 1000 1 ∅) "GCAROL" 9223372036854775807
      = (g1, None) /\
    reaches_funding (Ext := ex_Ext) g1 "bob*bob.example" 1000 "alice.example" p /\
    fsm.Balance (db.Wallet (db.Agent_ (store g1))) = -9223372036854774907 /\
    SetupAndFundingReserveAmount (Externals := ex_Ext) (prep_ch p) = 50001000 /\
    DoCreateChannel (Ext := ex_Ext) g1 "bob*bob.example" 1000 "alice.example"
      = (g2, Some (prep_ch p), None) /\
    fsm.Balance (db.Wallet (db.Agent_ (store g2))) = 9223372036804775709 /\
    db.Channels (db.Agent_ (store g2)) !! "GKEY1" = Some (prep_ch p).
Proof.
  eexists _, _, _. split; [vm_compute; reflexivity |].
  split.
  - split; [discriminate | split; [discriminate |]].
    exists "GBOB", "https://bob.example/".
    split; [reflexivity | split; [discriminate | split]]; vm_compute; reflexivity.
  - split; [reflexivity | split; [reflexivity | split; [vm_compute; reflexivity |]]].
    split; vm_compute; reflexivity.
Qed.

(** C9 fails at the end of the counter's range: with the stored next key
    index at [2^32 - 1] the call succeeds, derives the two ratchet accounts
    at the indices 0 and 1, and stores 2 as the next key index, below the
    index it read. *)
Lemma DoCreateChannel_key_indices_counterexample :
  let g := ex_agent 100000000000 4294967295 ∅ in
  exists g' c,
    DoCreateChannel (Ext := ex_Ext) g "bob*bob.example" 1000 "alice.example"
      = (g', Some c, None) /\
    db.NextKeypathIndex (db.Agent_ (store g)) = 4294967295 /\
    fsm.EscrowAcct c = DeriveAccount (Externals := ex_Ext) (Some ex_seed) 4294967295 /\
    fsm.HostRatchetAcct c = DeriveAccount (Externals := ex_Ext) (Some ex_seed) 0 /\
    fsm.GuestRatchetAcct c = DeriveAccount (Externals := ex_Ext) (Some ex_seed) 1 /\
    db.NextKeypathIndex (db.Agent_ (store g')) = 2 /\
    db.NextKeypathIndex (db.Agent_ (store g')) < db.NextKeypathIndex (db.Agent_ (store g)).
Proof.
  cbv zeta. eexists _, _. split; [vm_compute; reflexivity |].
  repeat split.
Qed.

(** A first channel on the agent of alice: keys 1, 2, 3, next index 4. *)
Lemma DoCreateChannel_key_indices_witness :
  let g := ex_agent 100000000000 1 ∅ in
  exists g' c,
    DoCreateChannel (Ext := ex_Ext) g "bob*bob.example" 1000 "alice.example"
      = (g', Some c, None) /\
    fsm.KeyIndex c = 1 /\
    fsm.EscrowAcct c = "GKEY1" /\
    fsm.HostRatchetAcct c = "GKEY2" /\
    fsm.GuestRatchetAcct c = "GKEY3" /\
    db.NextKeypathIndex (db.Agent_ (store g')) = 4.
Proof.
  cbv zeta. set (g := ex_agent 100000000000 1 ∅).
  let r := eval vm_compute in
             (DoCreateChannel (Ext := ex_Ext) g "bob*bob.example" 1000 "alice.example") in
  match r with
  | (?g0, ?ch0, None) =>
    assert (Hcall : DoCreateChannel (Ext := ex_Ext) g "bob*bob.example" 1000
                      "alice.example" = (g0, ch0, None))
      by (vm_compute; reflexivity);
    destruct (DoCreateChannel_key_indices (Ext := ex_Ext) g g0 "bob*bob.example" 1000
                "alice.example" ch0 ex_doUpdateChannel_frame Hcall
                ltac:(vm_compute; discriminate) ltac:(vm_compute; reflexivity))
      as (c & Hch & Hkey & Hesc & Hhr & Hgr & Hnext & _);
    exists g0, c
  end.
  split; [rewrite <- Hch; exact Hcall |].
  repeat split; assumption.
Defined.

(** ** Wallet payment *)

(** Arithmetic in [int64] is arithmetic modulo [2^64]. *)
Lemma int64_add_idemp (x y : Z) : int64 (int64 x + y) = int64 (x + y).
Proof.
  unfold int64, wrap_signed. f_equal.
  replace ((x + 2 ^ (64 - 1)) mod 2 ^ 64 - 2 ^ (64 - 1) + y + 2 ^ (64 - 1))
    with ((x + 2 ^ (64 - 1)) mod 2 ^ 64 + y) by ring.
  rewrite Zplus_mod_idemp_l. f_equal. ring.
Qed.

(** Converting an [int64] to [uint64] keeps the number modulo [2^64]. *)
Lemma uint64_int64 (x : Z) : uint64 (int64 x) = uint64 x.
Proof.
  unfold uint64, int64, wrap_unsigned, wrap_signed.
  rewrite Zminus_mod_idemp_l. f_equal. ring.
Qed.

Section WalletPayProps.

Context `{Ext : Externals}.

(** [DoWalletPay] in the arithmetic of the code: every sum and difference
    is taken in [int64]. *)
Lemma DoWalletPay_int64 (g : AgentSt) (dest : string) (amount : Z) :
  dest <> "" ->
  amount <> 0 ->
  let w := db.Wallet (db.Agent_ (store g)) in
  let fee := db.HostFeerate (db.Config_ (db.Agent_ (store g))) in
  let hostAcct := db.PrimaryAcct (db.Agent_ (store g)) in
  (fsm.Balance w <= int64 (amount + fee) ->
   DoWalletPay g dest amount = (g, Some (New "insufficient funds"))) /\
  (forall g',
      DoWalletPay g dest amount = (g', None) ->
      int64 (amount + fee) < fsm.Balance w /\
      db.Wallet (db.Agent_ (store g'))
      = fsm.mkWalletAcct (int64 (int64 (fsm.Balance w - amount) - fee))
                         (int64 (fsm.Seqnum w + 1)) (fsm.Cursor w) (fsm.Address w) /\
      exists btx env,
        b_Transaction TestNetworkPassphrase hostAcct
                      (uint64 (int64 (fsm.Seqnum w + 1))) dest amount = inr btx /\
        Sign (seed (mem g)) btx = inr env /\
        db.Tasks (store g') = (db.Tasks (store g) ++ [TbTx walletBucket env])%list).
Proof.
  intros Hdest Hamt w fee hostAcct. unfold DoWalletPay.
  rewrite (String_eqb_false _ _ Hdest), (proj2 (Z.eqb_neq _ _) Hamt).
  unfold db_Update, DoWalletPay_body. fold w fee. split.
  - intros Hle. rewrite (proj2 (Z.leb_le _ _) Hle). destruct g; reflexivity.
  - intros g'. destruct (Z.leb_spec (fsm.Balance w) (int64 (amount + fee))) as [Hle | Hgt].
    + discriminate.
    + simpl. fold hostAcct. unfold passphrase.
      destruct (b_Transaction TestNetworkPassphrase hostAcct
                  (uint64 (int64 (fsm.Seqnum w + 1))) dest amount) as [err | btx];
        [discriminate |].
      destruct (Sign (seed (mem g)) btx) as [err | env] eqn:Hsign; [discriminate |].
      simpl. intros H. inversion H; subst g'. simpl.
      split; [exact Hgt | split; [reflexivity |]].
      exists btx, env. repeat split. exact Hsign.
Qed.

(** When the funds suffice and the transaction can be built and signed,
    the call does succeed. *)
Lemma DoWalletPay_succeeds (g : AgentSt) (dest : string) (amount : Z)
    (btx env : Envelope) :
  dest <> "" ->
  amount <> 0 ->
  let w := db.Wallet (db.Agent_ (store g)) in
  let fee := db.HostFeerate (db.Config_ (db.Agent_ (store g))) in
  int64 (amount + fee) < fsm.Balance w ->
  b_Transaction TestNetworkPassphrase (db.PrimaryAcct (db.Agent_ (store g)))
                (uint64 (int64 (fsm.Seqnum w + 1))) dest amount = inr btx ->
  Sign (seed (mem g)) btx = inr env ->
  exists g', DoWalletPay g dest amount = (g', None).
Proof.
  intros Hdest Hamt w fee Hgt Hbuild Hsign. unfold DoWalletPay.
  rewrite (String_eqb_false _ _ Hdest), (proj2 (Z.eqb_neq _ _) Hamt).
  unfold db_Update, DoWalletPay_body. fold w fee.
  rewrite (proj2 (Z.leb_gt _ _) Hgt). simpl. unfold passphrase.
  rewrite Hbuild, Hsign. simpl. eexists. reflexivity.
Qed.

(** C10, where the sums stay within [int64]: for a non-zero amount of
    either sign whose sum with the fee rate does not overflow,
    [DoWalletPay] fails with the insufficient-funds error unless the
    balance is strictly greater than amount plus fee rate; on success the
    task basket has one more task, the signed payment, the balance is
    lowered by amount plus fee rate when the new balance fits in [int64],
    and the sequence number is one higher when it can still be
    incremented. *)
Theorem DoWalletPay_within_int64 (g : AgentSt) (dest : string) (amount : Z) :
  dest <> "" ->
  amount <> 0 ->
  let w := db.Wallet (db.Agent_ (store g)) in
  let fee := db.HostFeerate (db.Config_ (db.Agent_ (store g))) in
  let hostAcct := db.PrimaryAcct (db.Agent_ (store g)) in
  (in_int64 (amount + fee) ->
   fsm.Balance w <= amount + fee ->
   DoWalletPay g dest amount = (g, Some (New "insufficient funds"))) /\
  (forall g',
      DoWalletPay g dest amount = (g', None) ->
      (in_int64 (amount + fee) -> amount + fee < fsm.Balance w) /\
      (in_int64 (fsm.Balance w - (amount + fee)) ->
       fsm.Balance (db.Wallet (db.Agent_ (store g'))) = fsm.Balance w - (amount + fee)) /\
      (in_int64 (fsm.Seqnum w + 1) ->
       fsm.Seqnum (db.Wallet (db.Agent_ (store g'))) = fsm.Seqnum w + 1) /\
      exists btx env,
        b_Transaction TestNetworkPassphrase hostAcct
                      (uint64 (fsm.Seqnum w + 1)) dest amount = inr btx /\
        Sign (seed (mem g)) btx = inr env /\
        db.Tasks (store g') = (db.Tasks (store g) ++ [TbTx walletBucket env])%list).
Proof.
  intros Hdest Hamt w fee hostAcct.
  destruct (DoWalletPay_int64 g dest amount Hdest Hamt) as [Hlow Hok].
  fold w fee hostAcct in Hlow, Hok. split.
  - intros Hsum Hle. apply Hlow. rewrite (int64_id _ Hsum). exact Hle.
  - intros g' Hcall.
    destruct (Hok g' Hcall) as (Hgt & Hw' & btx & env & Hbuild & Hsign & Htasks).
    rewrite uint64_int64 in Hbuild.
    replace (int64 (fsm.Balance w - amount) - fee)
      with (int64 (fsm.Balance w - amount) + - fee) in Hw' by ring.
    rewrite int64_add_idemp in Hw'.
    replace (fsm.Balance w - amount + - fee)
      with (fsm.Balance w - (amount + fee)) in Hw' by ring.
    rewrite Hw'. simpl.
    split; [intros Hsum; rewrite (int64_id _ Hsum) in Hgt; exact Hgt |].
    split; [intros Hnew; apply int64_id; exact Hnew |].
    split; [intros Hseq; apply int64_id; exact Hseq |].
    exists btx, env. repeat split; assumption.
Qed.

End WalletPayProps.

(** C10 fails as stated when amount plus fee rate overflows: with 1000
    stroops in the wallet and a fee rate of 100, a payment of
    9223372036854775807 stroops is not refused; it leaves a negative
    balance and enqueues the payment. *)
Lemma DoWalletPay_overflow_counterexample :
  let g := ex_agent 1000 1 ∅ in
  let amount := 9223372036854775807 in
  let fee := db.HostFeerate (db.Config_ (db.Agent_ (store g))) in
  fee = 100 /\
  ~ (amount + fee < fsm.Balance (db.Wallet (db.Agent_ (store g)))) /\
  exists g',
    DoWalletPay (Ext := ex_Ext) g "GCAROL" amount = (g', None) /\
    fsm.Balance (db.Wallet (db.Agent_ (store g'))) = -9223372036854774907 /\
    db.Tasks (store g')
    = [TbTx walletBucket (mkEnvelope "GPRIMARY" 21474836481 "GCAROL" amount true)].
Proof.
  cbv zeta. split; [reflexivity | split; [vm_compute; discriminate |]].
  eexists. split; [vm_compute; reflexivity | split; reflexivity].
Qed.

(** A payment of 500 stroops from a wallet of 1000 at fee rate 100, one
    of 900 stroops, which the same wallet cannot cover, and one of -5000
    stroops, which the code accepts and which raises the balance. *)
Lemma DoWalletPay_within_int64_witness :
  let g := ex_agent 1000 1 ∅ in
  DoWalletPay (Ext := ex_Ext) g "GCAROL" 900 = (g, Some (New "insufficient funds")) /\
  (exists g',
    DoWalletPay (Ext := ex_Ext) g "GCAROL" 500 = (g', None) /\
    fsm.Balance (db.Wallet (db.Agent_ (store g'))) = 400 /\
    fsm.Seqnum (db.Wallet (db.Agent_ (store g'))) = 21474836481 /\
    db.Tasks (store g')
    = [TbTx walletBucket (mkEnvelope "GPRIMARY" 21474836481 "GCAROL" 500 true)]) /\
  (exists g',
    DoWalletPay (Ext := ex_Ext) g "GCAROL" (-5000) = (g', None) /\
    fsm.Balance (db.Wallet (db.Agent_ (store g'))) = 5900 /\
    fsm.Seqnum (db.Wallet (db.Agent_ (store g'))) = 21474836481 /\
    db.Tasks (store g')
    = [TbTx walletBucket (mkEnvelope "GPRIMARY" 21474836481 "GCAROL" (-5000) true)]).
Proof.
  cbv zeta. set (g := ex_agent 1000 1 ∅).
  assert (Hin : forall x, (- 2 ^ 63 <=? x) && (x <? 2 ^ 63) = true -> in_int64 x).
  { intros x Hx. apply andb_prop in Hx. destruct Hx as [Hlo Hhi].
    split; [apply Z.leb_le; exact Hlo | apply Z.ltb_lt; exact Hhi]. }
  split; [| split].
  - apply (proj1 (DoWalletPay_within_int64 (Ext := ex_Ext) g "GCAROL" 900
                    ltac:(discriminate) ltac:(discriminate))).
    + apply Hin. vm_compute. reflexivity.
    + vm_compute. discriminate.
  - destruct (DoWalletPay_succeeds (Ext := ex_Ext) g "GCAROL" 500
                (mkEnvelope "GPRIMARY" 21474836481 "GCAROL" 500 false)
                (mkEnvelope "GPRIMARY" 21474836481 "GCAROL" 500 true)
                ltac:(discriminate) ltac:(discriminate)
                ltac:(vm_compute; reflexivity) eq_refl eq_refl) as [g' Hcall].
    destruct (proj2 (DoWalletPay_within_int64 (Ext := ex_Ext) g "GCAROL" 500
                       ltac:(discriminate) ltac:(discriminate)) g' Hcall)
      as (_ & Hbal & Hseq & btx & env & Hbuild & Hsign & Htasks).
    exists g'. split; [exact Hcall |].
    split; [apply Hbal, Hin; vm_compute; reflexivity |].
    split; [apply Hseq, Hin; vm_compute; reflexivity |].
    rewrite Htasks. simpl in Hbuild, Hsign.
    inversion Hbuild; subst btx. inversion Hsign; subst env. reflexivity.
  - destruct (DoWalletPay_succeeds (Ext := ex_Ext) g "GCAROL" (-5000)
                (mkEnvelope "GPRIMARY" 21474836481 "GCAROL" (-5000) false)
                (mkEnvelope "GPRIMARY" 21474836481 "GCAROL" (-5000) true)
                ltac:(discriminate) ltac:(discriminate)
                ltac:(vm_compute; reflexivity) eq_refl eq_refl) as [g' Hcall].
    destruct (proj2 (DoWalletPay_within_int64 (Ext := ex_Ext) g "GCAROL" (-5000)
                       ltac:(discriminate) ltac:(discriminate)) g' Hcall)
      as (_ & Hbal & Hseq & btx & env & Hbuild & Hsign & Htasks).
    exists g'. split; [exact Hcall |].
    split; [apply Hbal, Hin; vm_compute; reflexivity |].
    split; [apply Hseq, Hin; vm_compute; reflexivity |].
    rewrite Htasks. simpl in Hbuild, Hsign.
    inversion Hbuild; subst btx. inversion Hsign; subst env. reflexivity.
Defined.

(** ** The peer message endpoint *)

Section MessageProps.

Context `{Ext : Externals}.

(** The status the dispatch answers with, by the error's root. *)
Lemma handleMsg_dispatch_status (g : AgentSt) (m : fsm.Message)
    (pre : option ProposePrefetch) :
  (forall g',
      updateChannel_Msg g m pre = (g', None) ->
      handleMsg_dispatch g m pre = (g', mkResponse StatusOK NoBody)) /\
  (forall g' e,
      updateChannel_Msg g m pre = (g', Some e) ->
      (handleMsg_dispatch g m pre).1 = g' /\
      (Root e = Sentinel ErrExists \/ Root e = Sentinel fsm_ErrChannelExists ->
       StatusCode (handleMsg_dispatch g m pre).2 = StatusResetContent) /\
      (Root e <> Sentinel ErrExists -> Root e <> Sentinel fsm_ErrChannelExists ->
       StatusCode (handleMsg_dispatch g m pre).2 = StatusInternalServerError)).
Proof.
  unfold handleMsg_dispatch. split.
  - intros g' H. rewrite H. reflexivity.
  - intros g' e H. rewrite H. unfold is_sentinel.
    split; [| split].
    + destruct (_ || _); reflexivity.
    + intros [Hr | Hr]; rewrite Hr; reflexivity.
    + intros H1 H2. destruct (Root e) as [s | | |]; try reflexivity.
      destruct s; try reflexivity; congruence.
Qed.

(** C2, as the code has it.  A body that does not decode, or an empty
    channel id: 400.  A propose between two accounts that already have a
    channel: 205.  A propose, with no such channel, that fails one of the
    checks before the dispatch (channel id, sequence numbers, federation
    lookup, host account against the federated account): 400.  In all
    these cases the agent is untouched.  Every other message is
    dispatched into its channel: 200 when that succeeds, 205 when it
    fails with a channel-exists error, 500 when it fails otherwise. *)
Theorem handleMsg_status (g : AgentSt) (req : Request) :
  (json_Decode (Body req) = None ->
   handleMsg g req = (g, http_Error "bad request" StatusBadRequest)) /\
  (forall m,
      json_Decode (Body req) = Some m ->
      (fsm.ChannelID m = "" ->
       handleMsg g req = (g, http_Error "bad request" StatusBadRequest)) /\
      (fsm.ChannelID m <> "" ->
       (forall propose,
           fsm.ChannelProposeMsg_ m = Some propose ->
           (channel_between (store g) (fsm.pHostAcct propose) (fsm.pGuestAcct propose) ->
            handleMsg g req
            = (g, http_Error "channel exists between parties" StatusResetContent)) /\
           (~ channel_between (store g) (fsm.pHostAcct propose) (fsm.pGuestAcct propose) ->
            (propose_precheck_fails m propose ->
             (handleMsg g req).1 = g /\
             StatusCode (handleMsg g req).2 = StatusBadRequest) /\
            (forall pre,
                propose_precheck_passes m propose pre ->
                handleMsg g req = handleMsg_dispatch g m (Some pre)))) /\
       (fsm.ChannelProposeMsg_ m = None ->
        handleMsg g req = handleMsg_dispatch g m None))) /\
  (forall m pre,
      (forall g',
          updateChannel_Msg g m pre = (g', None) ->
          StatusCode (handleMsg_dispatch g m pre).2 = StatusOK) /\
      (forall g' e,
          updateChannel_Msg g m pre = (g', Some e) ->
          (Root e = Sentinel ErrExists \/ Root e = Sentinel fsm_ErrChannelExists ->
           StatusCode (handleMsg_dispatch g m pre).2 = StatusResetContent) /\
          (Root e <> Sentinel ErrExists -> Root e <> Sentinel fsm_ErrChannelExists ->
           StatusCode (handleMsg_dispatch g m pre).2 = StatusInternalServerError))).
Proof.
  split; [| split].
  - intros Hdec. unfold handleMsg. rewrite Hdec. reflexivity.
  - intros m Hdec. unfold handleMsg. rewrite Hdec. split.
    + intros Hid. rewrite Hid. reflexivity.
    + intros Hid. rewrite (String_eqb_false _ _ Hid). split.
      * intros propose Hprop. rewrite Hprop. split.
        { intros Hbetween.
          destruct (checkChannelUnique_exists g _ _ Hbetween) as (e & Hcheck & _).
          rewrite Hcheck. reflexivity. }
        intros Huniq. rewrite (checkChannelUnique_unique g _ _ Huniq). split.
        { unfold propose_precheck_fails.
          destruct (valid_address (fsm.ChannelID m)) eqn:Hvalid; simpl;
            [| intros _; split; reflexivity].
          destruct (getSequenceNumbers (fsm.ChannelID m) (fsm.pGuestRatchetAcct propose)
                      (fsm.pHostRatchetAcct propose)) as [[[b gs] hs] [e |]];
            [intros _; split; reflexivity |].
          destruct (FindAccount (fsm.pCounterpartyAddress propose))
            as [[hostAccount url] err].
          destruct (String.eqb_spec url "") as [Hurl | Hurl];
            [intros _; split; reflexivity |].
          destruct err as [e |]; [intros _; split; reflexivity |].
          destruct (String.eqb_spec hostAccount (fsm.pHostAcct propose)) as [Hhost | Hhost];
            [| intros _; split; reflexivity].
          simpl. intros [H | [H | [H | [H | H]]]]; congruence. }
        intros pre (Hvalid & Hseq & Hfind & Hurl).
        rewrite Hvalid, Hseq, Hfind. simpl.
        rewrite (String_eqb_false _ _ Hurl), String.eqb_refl. simpl.
        destruct pre; reflexivity.
      * intros Hprop. rewrite Hprop. reflexivity.
  - intros m pre.
    destruct (handleMsg_dispatch_status g m pre) as [Hok Herr]. split.
    + intros g' H. rewrite (Hok g' H). reflexivity.
    + intros g' e H. destruct (Herr g' e H) as (_ & H205 & H500).
      split; assumption.
Qed.

End MessageProps.

(** C2 fails as stated on a propose that is well formed, names two accounts
    with no channel between them and a host account that agrees with the
    federation lookup, but whose escrow account Horizon does not know: the
    error met is not a channel-exists error, and the answer is 400, not
    500. *)
Lemma handleMsg_status_counterexample :
  let g := ex_agent 100000000000 1 ∅ in
  let req := mkRequest [] "alice.example" "propose" in
  exists m propose,
    json_Decode (Externals := ex_Ext) (Body req) = Some m /\
    fsm.ChannelID m <> "" /\
    fsm.ChannelProposeMsg_ m = Some propose /\
    checkChannelUnique g (fsm.pHostAcct propose) (fsm.pGuestAcct propose) = None /\
    FindAccount (Externals := ex_Ext) (fsm.pCounterpartyAddress propose)
    = (fsm.pHostAcct propose, "https://bob.example/", None) /\
    getSequenceNumbers (Ext := ex_Ext) (fsm.ChannelID m) (fsm.pGuestRatchetAcct propose)
                       (fsm.pHostRatchetAcct propose)
    = (0, 0, 0, Some (External "account not found")) /\
    is_sentinel ErrExists (External "account not found") = false /\
    is_sentinel fsm_ErrChannelExists (External "account not found") = false /\
    handleMsg (Ext := ex_Ext) g req
    = (g, http_Error "error fetching accounts" StatusBadRequest) /\
    StatusBadRequest <> StatusInternalServerError.
Proof.
  cbv zeta. exists (ex_propose "GNEWESCROW").
  eexists. split; [reflexivity |].
  split; [discriminate |].
  split; [reflexivity |].
  split; [vm_compute; reflexivity |].
  repeat split; discriminate.
Qed.

(** The same propose through the general statement (a failed check before
    the dispatch: 400), and a message of another kind, which is
    dispatched and answered with 200. *)
Lemma handleMsg_status_witness :
  let g := ex_agent 100000000000 1 ∅ in
  StatusCode (handleMsg (Ext := ex_Ext) g (mkRequest [] "alice.example" "propose")).2
    = StatusBadRequest /\
  StatusCode (handleMsg (Ext := ex_Ext) g (mkRequest [] "alice.example" "complete")).2
    = StatusOK /\
  handleMsg (Ext := ex_Ext) g (mkRequest [] "alice.example" "{")
    = (g, http_Error "bad request" StatusBadRequest).
Proof.
  cbv zeta. set (g := ex_agent 100000000000 1 ∅).
  split; [| split].
  - destruct (handleMsg_status (Ext := ex_Ext) g (mkRequest [] "alice.example" "propose"))
      as (_ & Hdecoded & _).
    destruct (Hdecoded (ex_propose "GNEWESCROW") eq_refl) as (_ & Hid).
    destruct (Hid ltac:(discriminate)) as (Hpropose & _).
    destruct (Hpropose _ eq_refl) as (_ & Huniq).
    refine (proj2 (proj1 (Huniq _) _)).
    + intros (chanID & c & Hlook & _). vm_compute in Hlook. discriminate Hlook.
    + right. left. vm_compute. discriminate.
  - destruct (handleMsg_status (Ext := ex_Ext) g (mkRequest [] "alice.example" "complete"))
      as (_ & Hdecoded & Hdispatch).
    destruct (Hdecoded (fsm.mkMessage "GESCROW" None "complete") eq_refl) as (_ & Hid).
    destruct (Hid ltac:(discriminate)) as (_ & Hother).
    rewrite (Hother eq_refl).
    exact (proj1 (Hdispatch (fsm.mkMessage "GESCROW" None "complete") None) g eq_refl).
  - exact (proj1 (handleMsg_status (Ext := ex_Ext) g (mkRequest [] "alice.example" "{"))
                 eq_refl).
Defined.

(** * Further properties *)

(** ** Key indices and channel uniqueness *)

Lemma uint32_add_idemp (x y : Z) : uint32 (uint32 x + y) = uint32 (x + y).
Proof. unfold uint32, wrap_unsigned. apply Zplus_mod_idemp_l. Qed.

Lemma uint32_range (x : Z) : in_uint32 (uint32 x).
Proof. unfold in_uint32, uint32, wrap_unsigned. apply Z.mod_pos_bound. reflexivity. Qed.

(** X1: two draws from the key counter, of [a] and then [b] indices, hand
    out the stored index and the index [a] further (modulo [2^32]) and
    leave the agent bucket as one draw of [a + b] indices does; the
    stored counter is then a [uint32] again. *)
Theorem nextChannelKeyIndex_compose (agent : db.Agent) (a b : Z) :
  let first := nextChannelKeyIndex agent a in
  let second := nextChannelKeyIndex first.2 b in
  first.1 = db.NextKeypathIndex agent /\
  second.1 = uint32 (db.NextKeypathIndex agent + a) /\
  second.2 = (nextChannelKeyIndex agent (a + b)).2 /\
  in_uint32 (db.NextKeypathIndex second.2).
Proof.
  unfold nextChannelKeyIndex. simpl. split; [reflexivity | split; [reflexivity |]].
  split.
  - unfold db.PutNextKeypathIndex. simpl.
    rewrite uint32_add_idemp, Z.add_assoc. reflexivity.
  - apply uint32_range.
Qed.

Lemma ForEach_Some_inv {A} (f : A -> option error) (l : list A) (e : error) :
  ForEach f l = Some e -> exists x, x ∈ l /\ f x = Some e.
Proof.
  induction l as [| y l IH]; simpl; [discriminate |].
  destruct (f y) as [e' |] eqn:Hfy.
  - intros H. inversion H; subst. exists y. split; [left | exact Hfy].
  - intros H. destruct (IH H) as (x & Hin & Hfx). exists x. split; [right |]; assumption.
Qed.

Lemma unordered_pair_eq_swap (a b p q : string) :
  unordered_pair_eq a b p q -> unordered_pair_eq b a p q.
Proof. unfold unordered_pair_eq. tauto. Qed.

Lemma unordered_pair_eq_sym (a b p q : string) :
  unordered_pair_eq a b p q -> unordered_pair_eq p q a b.
Proof. unfold unordered_pair_eq. intros [[-> ->] | [-> ->]]; tauto. Qed.

Lemma channel_between_swap (root : db.Root) (a b : string) :
  channel_between root a b -> channel_between root b a.
Proof.
  intros (chanID & c & Hlook & Hpair). exists chanID, c.
  split; [exact Hlook | apply unordered_pair_eq_swap; exact Hpair].
Qed.

Lemma checkChannelUnique_None_iff (g : AgentSt) (a b : string) :
  checkChannelUnique g a b = None <-> ~ channel_between (store g) a b.
Proof.
  split.
  - intros Hnone Hbetween.
    destruct (checkChannelUnique_exists g a b Hbetween) as (e & He & _). congruence.
  - apply checkChannelUnique_unique.
Qed.

(** X2: [checkChannelUnique] returns nil exactly when no stored channel is
    between the two accounts; every error it returns has [ErrExists] as
    its root; and the order of its two arguments does not matter. *)
Theorem checkChannelUnique_spec (g : AgentSt) (a b : string) :
  (checkChannelUnique g a b = None <-> ~ channel_between (store g) a b) /\
  (forall e, checkChannelUnique g a b = Some e -> Root e = Sentinel ErrExists) /\
  (checkChannelUnique g a b = None <-> checkChannelUnique g b a = None).
Proof.
  split; [apply checkChannelUnique_None_iff | split].
  - intros e He. unfold checkChannelUnique in He.
    apply ForEach_Some_inv in He. destruct He as ([chanID c] & _ & Hf).
    destruct (same_pair a b c); inversion Hf. reflexivity.
  - rewrite !checkChannelUnique_None_iff.
    split; intros Hno Hbetween; apply Hno; apply channel_between_swap; exact Hbetween.
Qed.

Section MoreChannelProps.

Context `{Ext : Externals}.

(** The record the update has built when it reaches the balance check. *)
Lemma DoCreateChannel_prepare_record (guestFedAddr : string) (hostAmount : Z)
    (hostURL hostAcctStr guestAcctStr starlightURL : string)
    (m : Mem) (root : db.Root) (p : Prepared) :
  DoCreateChannel_prepare guestFedAddr hostAmount hostURL hostAcctStr guestAcctStr
                          starlightURL m root = inr p ->
  isReadyFunded root = true /\
  fsm.HostAcct (prep_ch p) = hostAcctStr /\
  fsm.GuestAcct (prep_ch p) = guestAcctStr /\
  fsm.State_ (prep_ch p) = fsm.Start /\
  fsm.Role_ (prep_ch p) = fsm.Host /\
  fsm.RoundNumber (prep_ch p) = 1 /\
  fsm.HostAmount (prep_ch p) = hostAmount /\
  fsm.CounterpartyAddress (prep_ch p) = guestFedAddr /\
  fsm.RemoteURL (prep_ch p) = starlightURL /\
  fsm.ID (prep_ch p) = fsm.EscrowAcct (prep_ch p) /\
  db.Channels (db.Agent_ (prep_root p)) = db.Channels (db.Agent_ root) /\
  fsm.Seqnum (prep_w p) = int64 (fsm.Seqnum (db.Wallet (db.Agent_ root)) + 3) /\
  fsm.Address (prep_w p) = db.Username (db.Config_ (db.Agent_ root)) +:+ "*" +:+ hostURL.
Proof.
  unfold DoCreateChannel_prepare, nextChannelKeyIndex.
  destruct (isReadyFunded root); simpl; [| discriminate].
  repeat match goal with
         | |- context [if ?b then _ else _] => destruct b
         end;
    intros H; inversion H; subst; simpl; repeat split; reflexivity.
Qed.

(** X3: whatever error [DoCreateChannel] returns, from its argument checks,
    from federation, from the uniqueness check, from the update or from
    the state machine, the agent afterwards is the agent before: the bump
    of the key counter and the wallet edits are rolled back with it. *)
Theorem DoCreateChannel_error_unchanged (g g' : AgentSt) (guestFedAddr : string)
    (hostAmount : Z) (hostURL : string) (ch : option fsm.Channel) (e : error) :
  DoCreateChannel g guestFedAddr hostAmount hostURL = (g', ch, Some e) -> g' = g.
Proof.
  unfold DoCreateChannel.
  destruct (String.eqb guestFedAddr ""); [intros H; inversion H; reflexivity |].
  destruct (hostAmount =? 0); [intros H; inversion H; reflexivity |].
  destruct (FindAccount guestFedAddr) as [[guestAcctStr starlightURL] [err |]];
    [intros H; inversion H; reflexivity |].
  destruct (String.eqb guestAcctStr _); [intros H; inversion H; reflexivity |].
  destruct (checkChannelUnique g _ guestAcctStr); [intros H; inversion H; reflexivity |].
  unfold db_Update, DoCreateChannel_body.
  destruct (DoCreateChannel_prepare _ _ _ _ _ _ _ _) as [[err c] | p]; simpl.
  - intros H; inversion H. destruct g; reflexivity.
  - destruct (DoCreateChannel_fund guestFedAddr p) as [root' [err |]]; simpl;
      intros H; inversion H. destruct g; reflexivity.
Qed.

(** X4: the store that a call reaching the funding step hands to the state
    machine holds the new channel under its escrow address, in state
    [Start] with the host role, between the primary account and a
    different guest account; and if no two channels of the store were
    between the same two accounts before, that is still so. *)
Theorem DoCreateChannel_keeps_pairs_unique (g : AgentSt) (guestFedAddr : string)
    (hostAmount : Z) (hostURL : string) (p : Prepared) (newBalance : Z) :
  reaches_funding g guestFedAddr hostAmount hostURL p ->
  let ch := prep_ch p in
  db.Channels (db.Agent_ (funded_root p newBalance)) !! fsm.EscrowAcct ch = Some ch /\
  fsm.State_ ch = fsm.Start /\ fsm.Role_ ch = fsm.Host /\
  fsm.HostAcct ch = db.PrimaryAcct (db.Agent_ (store g)) /\
  fsm.GuestAcct ch <> fsm.HostAcct ch /\
  (unique_pairs (store g) -> unique_pairs (funded_root p newBalance)).
Proof.
  intros (_ & _ & guestAcctStr & starlightURL & _ & Hdiff & Huniq & Hprep) ch.
  destruct (DoCreateChannel_prepare_record _ _ _ _ _ _ _ _ _ Hprep)
    as (_ & Hhost & Hguest & Hstate & Hrole & _ & _ & _ & _ & Hid & Hchans & _).
  fold ch in Hhost, Hguest, Hstate, Hrole, Hid.
  assert (Hmap : db.Channels (db.Agent_ (funded_root p newBalance))
                 = <[fsm.ID ch := ch]> (db.Channels (db.Agent_ (store g)))).
  { unfold funded_root, putChannel. simpl. rewrite Hchans. reflexivity. }
  split; [rewrite Hmap, <- Hid; apply lookup_insert_eq |].
  split; [exact Hstate | split; [exact Hrole | split; [exact Hhost |]]].
  split; [rewrite Hhost, Hguest; exact Hdiff |].
  intros Hpairs id1 id2 c1 c2 H1 H2 Hpair. rewrite Hmap in H1, H2.
  apply checkChannelUnique_None_iff in Huniq.
  destruct (decide (fsm.ID ch = id1)) as [E1 | N1];
    destruct (decide (fsm.ID ch = id2)) as [E2 | N2].
  - congruence.
  - exfalso. subst id1. rewrite lookup_insert_eq in H1. inversion H1; subst c1.
    rewrite lookup_insert_ne in H2 by exact N2.
    apply Huniq. exists id2, c2. split; [exact H2 |].
    rewrite <- Hhost, <- Hguest. exact Hpair.
  - exfalso. subst id2. rewrite lookup_insert_eq in H2. inversion H2; subst c2.
    rewrite lookup_insert_ne in H1 by exact N1.
    apply Huniq. exists id1, c1. split; [exact H1 |].
    rewrite <- Hhost, <- Hguest. apply unordered_pair_eq_sym. exact Hpair.
  - rewrite lookup_insert_ne in H1 by exact N1.
    rewrite lookup_insert_ne in H2 by exact N2.
    exact (Hpairs id1 id2 c1 c2 H1 H2 Hpair).
Qed.

(** X5: once the record of a call that reached the funding step is in the
    store of an agent with the same primary account, a further
    [DoCreateChannel] for the same federation address is refused with a
    channel-exists error, whatever its amount, and changes nothing. *)
Theorem DoCreateChannel_again_refused (g g2 : AgentSt) (guestFedAddr : string)
    (hostAmount hostAmount2 : Z) (hostURL hostURL2 : string) (p : Prepared)
    (chanID : string) :
  reaches_funding g guestFedAddr hostAmount hostURL p ->
  db.PrimaryAcct (db.Agent_ (store g2)) = db.PrimaryAcct (db.Agent_ (store g)) ->
  db.Channels (db.Agent_ (store g2)) !! chanID = Some (prep_ch p) ->
  hostAmount2 <> 0 ->
  exists e,
    DoCreateChannel g2 guestFedAddr hostAmount2 hostURL2 = (g2, None, Some e) /\
    Root e = Sentinel ErrExists.
Proof.
  intros (Haddr & _ & guestAcctStr & starlightURL & Hfind & Hdiff & _ & Hprep)
         Hprimary Hlook Hamt2.
  destruct (DoCreateChannel_prepare_record _ _ _ _ _ _ _ _ _ Hprep)
    as (_ & Hhost & Hguest & _).
  unfold DoCreateChannel.
  rewrite (String_eqb_false _ _ Haddr), (proj2 (Z.eqb_neq _ _) Hamt2), Hfind, Hprimary.
  rewrite (String_eqb_false _ _ Hdiff).
  destruct (checkChannelUnique_exists g2 (db.PrimaryAcct (db.Agent_ (store g)))
              guestAcctStr) as (e & Hcheck & Hroot).
  - exists chanID, (prep_ch p). split; [exact Hlook |].
    left. split; [symmetry; exact Hhost | symmetry; exact Hguest].
  - rewrite Hcheck. exists e. split; [reflexivity | exact Hroot].
Qed.

End MoreChannelProps.

(** The call refused for want of funds gives back the agent it got. *)
Lemma DoCreateChannel_error_unchanged_witness :
  let g := ex_agent 1000 1 ∅ in
  (DoCreateChannel (Ext := ex_Ext) g "bob*bob.example" 1000 "alice.example").1.1 = g /\
  (DoCreateChannel (Ext := ex_Ext) g "bob*bob.example" 1000 "alice.example").2 <> None.
Proof.
  cbv zeta. set (g := ex_agent 1000 1 ∅).
  let r := eval vm_compute in
             (DoCreateChannel (Ext := ex_Ext) g "bob*bob.example" 1000 "alice.example") in
  match r with
  | (?g0, ?ch0, Some ?e0) =>
    assert (Hcall : DoCreateChannel (Ext := ex_Ext) g "bob*bob.example" 1000
                      "alice.example" = (g0, ch0, Some e0))
      by (vm_compute; reflexivity);
    pose proof (DoCreateChannel_error_unchanged (Ext := ex_Ext) g g0 "bob*bob.example"
                  1000 "alice.example" ch0 e0 Hcall) as Hsame
  end.
  rewrite Hcall. simpl. split; [exact Hsame | discriminate].
Defined.

(** The first channel of alice, to GBOB: its record is stored under GKEY1
    and the pairs stay unique; a second call for GBOB on the agent that
    holds the record is refused. *)
Lemma DoCreateChannel_keeps_pairs_unique_witness :
  let g := ex_agent 100000000000 1 ∅ in
  exists p,
    reaches_funding (Ext := ex_Ext) g "bob*bob.example" 1000 "alice.example" p /\
    db.Channels (db.Agent_ (funded_root p 99949999000)) !! "GKEY1" = Some (prep_ch p) /\
    fsm.GuestAcct (prep_ch p) = "GBOB" /\
    unique_pairs (funded_root p 99949999000).
Proof.
  cbv zeta. set (g := ex_agent 100000000000 1 ∅).
  let r := eval vm_compute in
             (DoCreateChannel_prepare (Ext := ex_Ext) "bob*bob.example" 1000
                "alice.example" "GPRIMARY" "GBOB" "https://bob.example/"
                (mem g) (store g)) in
  match r with inr ?p0 => pose (p := p0) end.
  assert (Hreach : reaches_funding (Ext := ex_Ext) g "bob*bob.example" 1000
                     "alice.example" p).
  { split; [discriminate | split; [discriminate |]].
    exists "GBOB", "https://bob.example/".
    split; [reflexivity | split; [discriminate | split]]; vm_compute; reflexivity. }
  destruct (DoCreateChannel_keeps_pairs_unique (Ext := ex_Ext) g "bob*bob.example" 1000
              "alice.example" p 99949999000 Hreach)
    as (Hlook & _ & _ & _ & _ & Hpairs).
  exists p. split; [exact Hreach | split; [exact Hlook | split; [reflexivity |]]].
  apply Hpairs. intros id1 id2 c1 c2 H1. vm_compute in H1. discriminate H1.
Defined.

Lemma DoCreateChannel_again_refused_witness :
  let g := ex_agent 100000000000 1 ∅ in
  exists p e,
    reaches_funding (Ext := ex_Ext) g "bob*bob.example" 1000 "alice.example" p /\
    DoCreateChannel (Ext := ex_Ext) (mkAgentSt (mem g) (funded_root p 99949999000))
                    "bob*bob.example" 5 "alice.example"
    = (mkAgentSt (mem g) (funded_root p 99949999000), None, Some e) /\
    Root e = Sentinel ErrExists.
Proof.
  cbv zeta. set (g := ex_agent 100000000000 1 ∅).
  let r := eval vm_compute in
             (DoCreateChannel_prepare (Ext := ex_Ext) "bob*bob.example" 1000
                "alice.example" "GPRIMARY" "GBOB" "https://bob.example/"
                (mem g) (store g)) in
  match r with inr ?p0 => pose (p := p0) end.
  assert (Hreach : reaches_funding (Ext := ex_Ext) g "bob*bob.example" 1000
                     "alice.example" p).
  { split; [discriminate | split; [discriminate |]].
    exists "GBOB", "https://bob.example/".
    split; [reflexivity | split; [discriminate | split]]; vm_compute; reflexivity. }
  destruct (DoCreateChannel_again_refused (Ext := ex_Ext) g
              (mkAgentSt (mem g) (funded_root p 99949999000))
              "bob*bob.example" 1000 5 "alice.example" "alice.example" p "GKEY1"
              Hreach eq_refl ltac:(vm_compute; reflexivity) ltac:(discriminate))
    as (e & Hcall & Hroot).
  exists p, e. split; [exact Hreach | split; [exact Hcall | exact Hroot]].
Defined.

(** ** Wallet payment, continued *)

Section MoreWalletPayProps.

Context `{Ext : Externals}.

(** X6: whatever error [DoWalletPay] returns (an empty destination, a zero
    amount, insufficient funds, a transaction that cannot be built or
    signed) the agent afterwards is the agent before: the deduction made
    before the transaction is built is rolled back. *)
Theorem DoWalletPay_error_unchanged (g g' : AgentSt) (dest : string) (amount : Z)
    (e : error) :
  DoWalletPay g dest amount = (g', Some e) -> g' = g.
Proof.
  unfold DoWalletPay.
  destruct (String.eqb dest ""); [intros H; inversion H; reflexivity |].
  destruct (amount =? 0); [intros H; inversion H; reflexivity |].
  unfold db_Update, DoWalletPay_body.
  destruct (_ <=? _); [intros H; inversion H; destruct g; reflexivity |].
  destruct (b_Transaction _ _ _ _ _) as [err | btx];
    [intros H; inversion H; destruct g; reflexivity |].
  destruct (Sign _ btx) as [err | env];
    [intros H; inversion H; destruct g; reflexivity |].
  simpl. discriminate.
Qed.

(** X7: a successful [DoWalletPay] leaves the agent's memory, the
    configuration, the sealed seed, the key counter, the primary account,
    the channels and the wallet's cursor and address as they were, and
    appends exactly one update: an account update that carries the new
    balance, the pay command and the new sequence number in decimal as
    pending sequence. *)
Theorem DoWalletPay_frame (g g' : AgentSt) (dest : string) (amount : Z) :
  DoWalletPay g dest amount = (g', None) ->
  let a := db.Agent_ (store g) in
  let a' := db.Agent_ (store g') in
  mem g' = mem g /\
  db.Config_ a' = db.Config_ a /\
  db.EncryptedSeed a' = db.EncryptedSeed a /\
  db.NextKeypathIndex a' = db.NextKeypathIndex a /\
  db.PrimaryAcct a' = db.PrimaryAcct a /\
  db.Channels a' = db.Channels a /\
  fsm.Cursor (db.Wallet a') = fsm.Cursor (db.Wallet a) /\
  fsm.Address (db.Wallet a') = fsm.Address (db.Wallet a) /\
  db.Updates (store g')
  = (db.Updates (store g) ++
     [mkUpdate update.AccountType None
               (Some (update.mkAccount (db.PrimaryAcct a)
                                       (uint64 (fsm.Balance (db.Wallet a')))))
               (Some (fsm.mkCommand fsm.Pay amount dest Now))
               None None 0 Now (FormatInt (fsm.Seqnum (db.Wallet a'))) ""])%list.
Proof.
  unfold DoWalletPay.
  destruct (String.eqb dest ""); [discriminate |].
  destruct (amount =? 0); [discriminate |].
  unfold db_Update, DoWalletPay_body.
  destruct (_ <=? _); [discriminate |].
  destruct (b_Transaction _ _ _ _ _) as [err | btx]; [discriminate |].
  destruct (Sign _ btx) as [err | env]; [discriminate |].
  simpl. intros H. inversion H; subst g'. simpl. repeat split.
Qed.

End MoreWalletPayProps.

(** A payment that cannot be covered, and one of 500 stroops. *)
Lemma DoWalletPay_error_unchanged_witness :
  let g := ex_agent 1000 1 ∅ in
  (DoWalletPay (Ext := ex_Ext) g "GCAROL" 900).1 = g /\
  (DoWalletPay (Ext := ex_Ext) g "GCAROL" 900).2 <> None.
Proof.
  cbv zeta. set (g := ex_agent 1000 1 ∅).
  assert (Hcall : DoWalletPay (Ext := ex_Ext) g "GCAROL" 900
                  = (g, Some (New "insufficient funds"))) by (vm_compute; reflexivity).
  pose proof (DoWalletPay_error_unchanged (Ext := ex_Ext) g g "GCAROL" 900 _ Hcall) as Hsame.
  rewrite Hcall. simpl. split; [exact Hsame | discriminate].
Defined.

Lemma DoWalletPay_frame_witness :
  let g := ex_agent 1000 1 ∅ in
  exists g' u,
    DoWalletPay (Ext := ex_Ext) g "GCAROL" 500 = (g', None) /\
    db.Updates (store g') = [u] /\
    PendingSequence u = "21474836481" /\
    Account u = Some (update.mkAccount "GPRIMARY" 400) /\
    db.Channels (db.Agent_ (store g')) = ∅.
Proof.
  cbv zeta. set (g := ex_agent 1000 1 ∅).
  let r := eval vm_compute in (DoWalletPay (Ext := ex_Ext) g "GCAROL" 500) in
  match r with
  | (?g0, None) =>
    assert (Hcall : DoWalletPay (Ext := ex_Ext) g "GCAROL" 500 = (g0, None))
      by (vm_compute; reflexivity);
    destruct (DoWalletPay_frame (Ext := ex_Ext) g g0 "GCAROL" 500 Hcall)
      as (_ & _ & _ & _ & _ & Hchans & _ & _ & Hupdates);
    exists g0
  end.
  eexists. split; [exact Hcall | split; [exact Hupdates |]].
  split; [vm_compute; reflexivity | split; [vm_compute; reflexivity | exact Hchans]].
Defined.

(** ** The wallet watcher, continued *)

(** Adding amounts one by one in [int64] is adding their sum. *)
Lemma fold_credits_sum (l : list Z) :
  forall b, in_int64 b ->
            fold_left (fun b a => int64 (b + a)) l b = int64 (b + sum_amounts l).
Proof.
  induction l as [| a l IH]; intros b Hb; simpl.
  - rewrite Z.add_0_r. symmetry. apply int64_id. exact Hb.
  - rewrite IH by apply int64_range. rewrite int64_add_idemp. f_equal. ring.
Qed.

Lemma only_wallet_and_log_refl (root : db.Root) : only_wallet_and_log root root.
Proof. repeat split. exists []. rewrite app_nil_r. reflexivity. Qed.

Lemma only_wallet_and_log_trans (r1 r2 r3 : db.Root) :
  only_wallet_and_log r1 r2 -> only_wallet_and_log r2 r3 -> only_wallet_and_log r1 r3.
Proof.
  intros (A1 & A2 & A3 & A4 & A5 & A6 & us1 & A7) (B1 & B2 & B3 & B4 & B5 & B6 & us2 & B7).
  repeat split; try congruence.
  exists (us1 ++ us2)%list. rewrite B7, A7, app_assoc. reflexivity.
Qed.

Lemma only_wallet_and_log_put (w : fsm.WalletAcct) (u : Update) (root : db.Root) :
  only_wallet_and_log root (putUpdate u (db.onAgent (db.PutWallet w) root)).
Proof. repeat split. exists [u]. reflexivity. Qed.

Section MoreWatcherProps.

Variables (acctID : string) (htx : HTx) (InputTx : Tx).

Lemma process_op_frame (index : nat) (op : xdr.Operation) (root root' : db.Root) :
  process_op acctID htx InputTx index op root = Some root' ->
  only_wallet_and_log root root'.
Proof.
  destruct op as [d sb | d a amt | d | t]; simpl.
  - destruct (negb (String.eqb d acctID)); intros H; inversion H; subst.
    + apply only_wallet_and_log_refl.
    + apply only_wallet_and_log_put.
  - destruct (negb (String.eqb d acctID)); [intros H; inversion H; subst;
                                             apply only_wallet_and_log_refl |].
    destruct a; intros H; inversion H; subst;
      [apply only_wallet_and_log_put | apply only_wallet_and_log_refl
       | apply only_wallet_and_log_refl].
  - destruct (negb (String.eqb d acctID)); [intros H; inversion H; subst;
                                             apply only_wallet_and_log_refl |].
    destruct (Results InputTx !! index) as [[amt |] |]; intros H; inversion H; subst.
    apply only_wallet_and_log_put.
  - intros H; inversion H; subst. apply only_wallet_and_log_refl.
Qed.

Lemma process_ops_frame (ops : list xdr.Operation) :
  forall (index : nat) (root root' : db.Root),
    process_ops acctID htx InputTx index ops root = Some root' ->
    only_wallet_and_log root root'.
Proof.
  induction ops as [| op ops IH]; intros index root root'; simpl.
  - intros H; inversion H; subst. apply only_wallet_and_log_refl.
  - destruct (process_op acctID htx InputTx index op root) as [root1 |] eqn:Hop;
      [| discriminate].
    intros H. eapply only_wallet_and_log_trans.
    + eapply process_op_frame. exact Hop.
    + eapply IH. exact H.
Qed.

Lemma log_sent_frame (root : db.Root) :
  only_wallet_and_log root (log_sent acctID htx InputTx root).
Proof.
  unfold log_sent. destruct (String.eqb _ _).
  - apply only_wallet_and_log_put.
  - apply only_wallet_and_log_refl.
Qed.

(** X8: whatever transaction the watcher's update processes, it writes
    nothing but the wallet record and the update log: the configuration,
    the sealed seed, the key counter, the primary account, the channels
    and the task basket stay as they are, and the log keeps all its old
    entries in place. *)
Theorem watch_update_frame (root root' : db.Root) :
  watch_update acctID htx InputTx root = Some root' ->
  only_wallet_and_log root root'.
Proof.
  unfold watch_update. intros H.
  eapply only_wallet_and_log_trans; [apply log_sent_frame |].
  eapply process_ops_frame. exact H.
Qed.

(** The loop adds the credits one by one and appends one update for each. *)
Lemma process_ops_credits (ops : list xdr.Operation) :
  forall (index : nat) (root root' : db.Root),
    no_create acctID ops ->
    process_ops acctID htx InputTx index ops root = Some root' ->
    let cs := credits acctID InputTx index ops in
    fsm.Balance (db.Wallet (db.Agent_ root'))
    = fold_left (fun b a => int64 (b + a)) cs (fsm.Balance (db.Wallet (db.Agent_ root))) /\
    fsm.Seqnum (db.Wallet (db.Agent_ root')) = fsm.Seqnum (db.Wallet (db.Agent_ root)) /\
    length (db.Updates root') = (length (db.Updates root) + length cs)%nat /\
    (cs <> [] -> fsm.Cursor (db.Wallet (db.Agent_ root')) = PT htx) /\
    (cs = [] -> root' = root).
Proof.
  induction ops as [| op ops IH]; intros index root root' Hnc; simpl.
  - intros H; inversion H; subst. simpl.
    repeat split; [lia | congruence].
  - assert (Hnc' : no_create acctID ops).
    { intros d sb Hin. apply (Hnc d sb). right. exact Hin. }
    destruct op as [d sb | d a amt | d | t]; simpl.
    + destruct (String.eqb_spec d acctID) as [Heq | Hne]; simpl.
      * exfalso. apply (Hnc d sb); [left | exact Heq].
      * apply IH. exact Hnc'.
    + destruct a; simpl; try (destruct (negb (String.eqb d acctID)); apply IH; exact Hnc').
      destruct (String.eqb d acctID); simpl; [| apply IH; exact Hnc'].
      intros H. destruct (IH _ _ _ Hnc' H) as (Hb & Hs & Hu & Hc & _). simpl in *.
      rewrite Hb, Hs, Hu. rewrite length_app. simpl.
      repeat split; [lia | | discriminate].
      intros _. destruct (credits acctID InputTx (S index) ops) eqn:Hcs.
      * destruct (IH _ _ _ Hnc' H) as (_ & _ & _ & _ & Hsame).
        rewrite Hcs in Hsame. rewrite (Hsame eq_refl). reflexivity.
      * apply Hc. discriminate.
    + destruct (String.eqb d acctID); simpl; [| apply IH; exact Hnc'].
      destruct (Results InputTx !! index) as [[amt |] |]; try discriminate.
      intros H. destruct (IH _ _ _ Hnc' H) as (Hb & Hs & Hu & Hc & _). simpl in *.
      rewrite Hb, Hs, Hu. rewrite length_app. simpl.
      repeat split; [lia | | discriminate].
      intros _. destruct (credits acctID InputTx (S index) ops) eqn:Hcs.
      * destruct (IH _ _ _ Hnc' H) as (_ & _ & _ & _ & Hsame).
        rewrite Hcs in Hsame. rewrite (Hsame eq_refl). reflexivity.
      * apply Hc. discriminate.
    + apply IH. exact Hnc'.
Qed.

(** The indexed credits are the credits. *)
Lemma credited_amounts (ops : list xdr.Operation) :
  forall index, (credited acctID InputTx index ops).*2 = credits acctID InputTx index ops.
Proof.
  induction ops as [| op ops IH]; intros index; simpl; [reflexivity |].
  destruct (credit acctID InputTx index op); simpl; rewrite IH; reflexivity.
Qed.

(** The loop appends to the log, in the order of the operations, one
    account entry for each credit, with the balance that credit led to. *)
Lemma process_ops_log (ops : list xdr.Operation) :
  forall (index : nat) (root root' : db.Root),
    no_create acctID ops ->
    process_ops acctID htx InputTx index ops root = Some root' ->
    db.Updates root'
    = (db.Updates root
       ++ map (account_entry acctID InputTx)
              (running (fsm.Balance (db.Wallet (db.Agent_ root)))
                       (credited acctID InputTx index ops)))%list.
Proof.
  induction ops as [| op ops IH]; intros index root root' Hnc.
  - simpl. intros H. inversion H; subst. rewrite app_nil_r. reflexivity.
  - assert (Hnc' : no_create acctID ops).
    { intros d sb Hin. apply (Hnc d sb). right. exact Hin. }
    cbn [process_ops credited].
    destruct op as [d sb | d a amt | d | t]; cbn [process_op credit].
    + destruct (String.eqb_spec d acctID) as [Heq | Hne]; cbn [negb].
      * exfalso. apply (Hnc d sb); [left | exact Heq].
      * apply IH. exact Hnc'.
    + destruct (String.eqb d acctID); cbn [negb];
        [| destruct a; apply IH; exact Hnc'].
      destruct a; try (apply IH; exact Hnc').
      intros H. rewrite (IH _ _ _ Hnc' H). simpl.
      rewrite <- app_assoc. reflexivity.
    + destruct (String.eqb d acctID); cbn [negb]; [| apply IH; exact Hnc'].
      destruct (Results InputTx !! index) as [[amt |] |]; try discriminate.
      intros H. rewrite (IH _ _ _ Hnc' H). simpl.
      rewrite <- app_assoc. reflexivity.
    + apply IH. exact Hnc'.
Qed.

(** X9: for a transaction that does not create the account, the watcher's
    update leaves the sequence number alone and makes the balance the old
    balance plus the sum of the native payments to the account and of the
    balances merged into it, reduced to [int64]; the log afterwards is the
    old log, then the tx-success entry when the account sent the
    transaction itself, then one account entry per crediting operation, in
    the order of the operations, each with the operation's index and the
    balance reached at that operation; when there is at least one such
    operation the cursor is the transaction's paging token. *)
Theorem watch_update_credits (root root' : db.Root) :
  no_create acctID (Operations InputTx) ->
  in_int64 (fsm.Balance (db.Wallet (db.Agent_ root))) ->
  watch_update acctID htx InputTx root = Some root' ->
  let cs := credits acctID InputTx 0 (Operations InputTx) in
  fsm.Balance (db.Wallet (db.Agent_ root'))
  = int64 (fsm.Balance (db.Wallet (db.Agent_ root)) + sum_amounts cs) /\
  fsm.Seqnum (db.Wallet (db.Agent_ root')) = fsm.Seqnum (db.Wallet (db.Agent_ root)) /\
  length (db.Updates root')
  = (length (db.Updates root)
     + (if String.eqb (SourceAccount InputTx) acctID then 1 else 0) + length cs)%nat /\
  (cs <> [] -> fsm.Cursor (db.Wallet (db.Agent_ root')) = PT htx) /\
  db.Updates root'
  = (db.Updates root
     ++ (if String.eqb (SourceAccount InputTx) acctID then [tx_success_entry InputTx] else [])
     ++ map (account_entry acctID InputTx)
            (running (fsm.Balance (db.Wallet (db.Agent_ root)))
                     (credited acctID InputTx 0 (Operations InputTx))))%list /\
  (credited acctID InputTx 0 (Operations InputTx)).*2 = cs.
Proof.
  intros Hnc Hbal H cs. unfold watch_update in H.
  pose proof (process_ops_log _ _ _ _ Hnc H) as Hlist.
  destruct (process_ops_credits _ _ _ _ Hnc H) as (Hb & Hs & Hu & Hc & _).
  fold cs in Hb, Hu, Hc.
  assert (Hlog : fsm.Balance (db.Wallet (db.Agent_ (log_sent acctID htx InputTx root)))
                 = fsm.Balance (db.Wallet (db.Agent_ root)) /\
                 fsm.Seqnum (db.Wallet (db.Agent_ (log_sent acctID htx InputTx root)))
                 = fsm.Seqnum (db.Wallet (db.Agent_ root)) /\
                 length (db.Updates (log_sent acctID htx InputTx root))
                 = (length (db.Updates root)
                    + (if String.eqb (SourceAccount InputTx) acctID then 1 else 0))%nat).
  { unfold log_sent. destruct (String.eqb _ _); simpl.
    - rewrite length_app. simpl. repeat split.
    - repeat split. lia. }
  destruct Hlog as (Hlb & Hls & Hlu).
  rewrite Hb, Hs, Hu, Hlb, Hls, Hlu.
  rewrite (fold_credits_sum cs _ Hbal).
  split; [reflexivity | split; [reflexivity | split; [reflexivity | split; [exact Hc |]]]].
  split; [| apply credited_amounts].
  rewrite Hlist, Hlb. unfold log_sent, tx_success_entry, putUpdate.
  destruct (String.eqb (SourceAccount InputTx) acctID); simpl.
  - rewrite <- app_assoc. reflexivity.
  - reflexivity.
Qed.

(** X10: an account merge into the account whose entry in the transaction
    result is missing or is no merge result makes the update panic:
    nothing of the transaction is committed, not even what the operations
    before the merge did. *)
Theorem watch_update_merge_panics (pre post : list xdr.Operation) (root : db.Root) :
  Operations InputTx = (pre ++ xdr.AccountMerge acctID :: post)%list ->
  (forall mergeAmount, Results InputTx !! length pre <> Some (Some mergeAmount)) ->
  watch_update acctID htx InputTx root = None.
Proof.
  intros Hops Hres. unfold watch_update. rewrite Hops, process_ops_app.
  destruct (process_ops acctID htx InputTx 0 pre _) as [root1 |]; [| reflexivity].
  simpl. rewrite String.eqb_refl. simpl.
  destruct (Results InputTx !! length pre) as [[amt |] |]; try reflexivity.
  exfalso. exact (Hres amt eq_refl).
Qed.

(** X11: after the turn of the loop on a create-account operation for the
    account, the agent counts as funded exactly when the transaction's
    ledger number is positive. *)
Theorem create_account_funded_iff (index : nat) (StartingBalance : Z) (root : db.Root) :
  in_int32 (Ledger htx) ->
  exists root',
    process_op acctID htx InputTx index (xdr.CreateAccount acctID StartingBalance) root
    = Some root' /\
    isReadyFunded root' = (0 <? Ledger htx).
Proof.
  intros Hledger. simpl. rewrite String.eqb_refl. simpl.
  eexists. split; [reflexivity |].
  unfold isReadyFunded. simpl. rewrite (seqnum_of_ledger_shiftl _ Hledger).
  rewrite Z.shiftl_mul_pow2 by lia.
  destruct (Z.ltb_spec 0 (Ledger htx)) as [Hpos | Hneg].
  - apply Z.ltb_lt. lia.
  - apply Z.ltb_ge. lia.
Qed.

End MoreWatcherProps.

(** Two payments and a merge into the primary account, in one
    transaction of GBOB. *)
Lemma watch_update_frame_witness :
  let root := store (ex_agent 1000 1 {[ "GESCROW" := ex_channel ]}) in
  exists root',
    watch_update "GPRIMARY" (mkHTx "pt-9" 9 "" "") ex_credit_tx root = Some root' /\
    only_wallet_and_log root root'.
Proof.
  cbv zeta. set (root := store (ex_agent 1000 1 {[ "GESCROW" := ex_channel ]})).
  let r := eval vm_compute in
             (watch_update "GPRIMARY" (mkHTx "pt-9" 9 "" "") ex_credit_tx root) in
  match r with
  | Some ?r0 =>
    assert (Hrun : watch_update "GPRIMARY" (mkHTx "pt-9" 9 "" "") ex_credit_tx root
                   = Some r0) by (vm_compute; reflexivity);
    exists r0; split; [exact Hrun |];
    exact (watch_update_frame "GPRIMARY" (mkHTx "pt-9" 9 "" "") ex_credit_tx root r0 Hrun)
  end.
Defined.

Lemma watch_update_credits_witness :
  let root := store (ex_agent 1000 1 ∅) in
  exists root',
    watch_update "GPRIMARY" (mkHTx "pt-9" 9 "" "") ex_credit_tx root = Some root' /\
    fsm.Balance (db.Wallet (db.Agent_ root')) = 1046 /\
    fsm.Seqnum (db.Wallet (db.Agent_ root')) = 21474836480 /\
    length (db.Updates root') = 3%nat /\
    fsm.Cursor (db.Wallet (db.Agent_ root')) = "pt-9" /\
    db.Updates root'
    = map (account_entry "GPRIMARY" ex_credit_tx) [(0%nat, 1005); (2%nat, 1035); (3%nat, 1046)].
Proof.
  cbv zeta. set (root := store (ex_agent 1000 1 ∅)).
  let r := eval vm_compute in
             (watch_update "GPRIMARY" (mkHTx "pt-9" 9 "" "") ex_credit_tx root) in
  match r with
  | Some ?r0 =>
    assert (Hrun : watch_update "GPRIMARY" (mkHTx "pt-9" 9 "" "") ex_credit_tx root
                   = Some r0) by (vm_compute; reflexivity);
    exists r0; split; [exact Hrun |];
    destruct (watch_update_credits "GPRIMARY" (mkHTx "pt-9" 9 "" "") ex_credit_tx root r0)
      as (Hb & Hs & Hu & Hc & Hlog & _)
  end.
  - intros d sb Hin. unfold ex_credit_tx, Operations in Hin.
    repeat (apply elem_of_cons in Hin; destruct Hin as [Hin | Hin]; [discriminate Hin |]).
    inversion Hin.
  - vm_compute. split; [discriminate | reflexivity].
  - exact Hrun.
  - split; [exact Hb | split; [exact Hs | split; [exact Hu |]]].
    split; [apply Hc; discriminate | exact Hlog].
Defined.

Lemma watch_update_merge_panics_witness :
  watch_update "GPRIMARY" (mkHTx "pt-9" 9 "" "") ex_broken_merge_tx
               (store (ex_agent 1000 1 ∅)) = None.
Proof.
  apply (watch_update_merge_panics "GPRIMARY" (mkHTx "pt-9" 9 "" "") ex_broken_merge_tx
           [xdr.Payment "GPRIMARY" xdr.AssetTypeNative 5] []).
  - reflexivity.
  - intros amt. discriminate.
Defined.

(** A create-account seen at ledger 5 funds the agent, one at ledger 0
    does not. *)
Lemma create_account_funded_iff_witness :
  let root := store (ex_agent 0 1 ∅) in
  (exists root',
      process_op "GPRIMARY" (mkHTx "pt-1" 5 "" "") ex_create_tx 0
                 (xdr.CreateAccount "GPRIMARY" 100000000000) root = Some root' /\
      isReadyFunded root' = true) /\
  (exists root',
      process_op "GPRIMARY" (mkHTx "pt-1" 0 "" "") ex_create_tx 0
                 (xdr.CreateAccount "GPRIMARY" 100000000000) root = Some root' /\
      isReadyFunded root' = false).
Proof.
  cbv zeta. split.
  - exact (create_account_funded_iff "GPRIMARY" (mkHTx "pt-1" 5 "" "") ex_create_tx 0
             100000000000 (store (ex_agent 0 1 ∅))
             ltac:(unfold in_int32; simpl; lia)).
  - exact (create_account_funded_iff "GPRIMARY" (mkHTx "pt-1" 0 "" "") ex_create_tx 0
             100000000000 (store (ex_agent 0 1 ∅))
             ltac:(unfold in_int32; simpl; lia)).
Defined.

(** ** Configuration, continued *)

Section MoreConfigProps.

Context `{Ext : Externals}.

(** [start] never writes the store; when it returns nil on a configured
    store the Horizon client has the stored URL. *)
Lemma start_nil (m m' : Mem) (root root' : db.Root) :
  start m root = (m', root', None) ->
  root' = root /\
  m' = (if isReadyConfigured root
        then mkMem (seed m) (db.HorizonURL (db.Config_ (db.Agent_ root)))
        else m).
Proof.
  unfold start. destruct (isReadyConfigured root); simpl.
  - destruct (ForEach _ _); intros H; inversion H. split; reflexivity.
  - intros H; inversion H. split; reflexivity.
Qed.

(** What a call of [ConfigInit] that returns nil has checked and written. *)
Lemma ConfigInit_success_inv (rnd : bytes) (g g' : AgentSt) (c : Config) :
  ConfigInit rnd g c = (g', None) ->
  ValidateTestnetURL (HorizonURL c) = None /\
  isReadyConfigured (store g) = false /\
  Password c <> "" /\
  (String.length (Password c) <= 72)%nat /\
  validateUsername (Username c) = true /\
  exists digest,
    bcrypt_GenerateFromPassword (Password c) = inr digest /\
    mem g' = mkMem (Some rnd) (HorizonURL c) /\
    db.Agent_ (store g')
    = db.mkAgent
        (db.mkConfig (Username c) "bcrypt" digest (HorizonURL c)
           (if MaxRoundDurMin c =? 0 then defaultMaxRoundDurMin else MaxRoundDurMin c)
           (if FinalityDelayMin c =? 0 then defaultFinalityDelayMin else FinalityDelayMin c)
           (if ChannelFeerate c =? 0 then defaultChannelFeerate else ChannelFeerate c)
           (if HostFeerate c =? 0 then defaultHostFeerate else HostFeerate c)
           (match KeepAlive c with None => true | Some b => b end))
        (sealBox (Some rnd) (Password c)) 1 (DeriveAccountPrimary (Some rnd))
        (fsm.mkWalletAcct 0 0 "" "") (db.Channels (db.Agent_ (store g))) /\
    db.Tasks (store g') = db.Tasks (store g) /\
    db.Updates (store g')
    = (db.Updates (store g) ++
       [mkUpdate update.InitType
                 (Some (update.mkConfig (Username c) "[redacted]" (HorizonURL c)))
                 (Some (update.mkAccount (DeriveAccountPrimary (Some rnd)) 0))
                 None None None 0 0 "" ""])%list.
Proof.
  unfold ConfigInit.
  destruct (ValidateTestnetURL (HorizonURL c)) eqn:Hurl; [discriminate |].
  unfold db_Update.
  destruct (ConfigInit_body rnd c (mem g) (store g)) as [[m' r'] [e |]] eqn:Hbody;
    [discriminate |].
  intros H. inversion H; subst g'. clear H. simpl.
  unfold ConfigInit_body in Hbody.
  destruct (isReadyConfigured (store g)) eqn:Hconf; [discriminate |].
  destruct (72 <? Z.of_nat (String.length (Password c))) eqn:Hlen; [discriminate |].
  destruct (String.eqb_spec (Password c) "") as [| Hpw]; [discriminate |].
  destruct (validateUsername (Username c)) eqn:Huser; simpl in Hbody; [| discriminate].
  destruct (bcrypt_GenerateFromPassword (Password c)) as [err | digest] eqn:Hgen;
    [discriminate |].
  apply Z.ltb_ge in Hlen.
  split; [reflexivity | split; [reflexivity | split; [exact Hpw | split; [lia |]]]].
  split; [reflexivity |]. exists digest. split; [reflexivity |].
  cbv zeta in Hbody. apply start_nil in Hbody. destruct Hbody as [Hroot Hmem].
  subst r'. split; [| split; [reflexivity | split; reflexivity]].
  rewrite Hmem. unfold isReadyConfigured. cbn.
  destruct (negb (String.eqb (HorizonURL c) "")); reflexivity.
Qed.

(** X12: a [ConfigInit] that returns nil has stored the username, the
    bcrypt digest of the password, the Horizon URL, the seed it drew sealed
    with the password, the primary account derived from that seed, a next
    key index of 1 and an empty wallet; each timing or fee option left at
    zero has its default and KeepAlive, when unset, is true; the channels
    and the task basket are untouched and one init update, with the
    password redacted, is appended. *)
Theorem ConfigInit_success (rnd : bytes) (g g' : AgentSt) (c : Config) :
  ConfigInit rnd g c = (g', None) ->
  let a := db.Agent_ (store g') in
  seed (mem g') = Some rnd /\
  db.Username (db.Config_ a) = Username c /\
  db.PwType (db.Config_ a) = "bcrypt" /\
  bcrypt_GenerateFromPassword (Password c) = inr (db.PwHash (db.Config_ a)) /\
  db.HorizonURL (db.Config_ a) = HorizonURL c /\
  db.MaxRoundDurMin (db.Config_ a)
  = (if MaxRoundDurMin c =? 0 then 24 * 60 else MaxRoundDurMin c) /\
  db.FinalityDelayMin (db.Config_ a)
  = (if FinalityDelayMin c =? 0 then 4 * 60 else FinalityDelayMin c) /\
  db.ChannelFeerate (db.Config_ a)
  = (if ChannelFeerate c =? 0 then 10 * xlm_Millilumen else ChannelFeerate c) /\
  db.HostFeerate (db.Config_ a)
  = (if HostFeerate c =? 0 then 100 * xlm_Stroop else HostFeerate c) /\
  db.KeepAlive (db.Config_ a) = default true (KeepAlive c) /\
  db.EncryptedSeed a = sealBox (Some rnd) (Password c) /\
  db.NextKeypathIndex a = 1 /\
  db.PrimaryAcct a = DeriveAccountPrimary (Some rnd) /\
  db.Wallet a = fsm.mkWalletAcct 0 0 "" "" /\
  db.Channels a = db.Channels (db.Agent_ (store g)) /\
  db.Tasks (store g') = db.Tasks (store g) /\
  exists u,
    db.Updates (store g') = (db.Updates (store g) ++ [u])%list /\
    Type_ u = update.InitType /\
    UConfig u = Some (update.mkConfig (Username c) "[redacted]" (HorizonURL c)).
Proof.
  intros Hcall a.
  destruct (ConfigInit_success_inv _ _ _ _ Hcall)
    as (_ & _ & _ & _ & _ & digest & Hgen & Hmem & Hagent & Htasks & Hupd).
  subst a. split; [rewrite Hmem; reflexivity |].
  rewrite Hagent. cbn [db.Config_ db.Username db.PwType db.PwHash db.HorizonURL
                       db.MaxRoundDurMin db.FinalityDelayMin db.ChannelFeerate
                       db.HostFeerate db.KeepAlive db.EncryptedSeed db.NextKeypathIndex
                       db.PrimaryAcct db.Wallet db.Channels].
  repeat (split; [first [reflexivity | assumption] |]).
  eexists. split; [exact Hupd | split; reflexivity].
Qed.

(** X13: a [ConfigInit] that returned nil for a non-empty Horizon URL
    leaves the agent configured, and every later [ConfigInit] whose URL
    passes the validation is refused as already configured and changes
    nothing, whatever its other fields and whatever bytes it would draw. *)
Theorem ConfigInit_once (rnd rnd2 : bytes) (g g' : AgentSt) (c c2 : Config) :
  ConfigInit rnd g c = (g', None) ->
  HorizonURL c <> "" ->
  ValidateTestnetURL (HorizonURL c2) = None ->
  Configured g' = true /\
  ConfigInit rnd2 g' c2 = (g', Some (Sentinel errAlreadyConfigured)).
Proof.
  intros Hcall Hurl Hvalid2.
  destruct (ConfigInit_success_inv _ _ _ _ Hcall)
    as (_ & _ & _ & _ & _ & digest & _ & _ & Hagent & _).
  assert (Hconf : isReadyConfigured (store g') = true).
  { unfold isReadyConfigured. rewrite Hagent. simpl.
    rewrite (String_eqb_false _ _ Hurl). reflexivity. }
  split; [exact Hconf |].
  unfold ConfigInit. rewrite Hvalid2. unfold db_Update, ConfigInit_body.
  rewrite Hconf. destruct g'; reflexivity.
Qed.



End MoreConfigProps.

Section MoreConfigEditProps.

Context `{Ext : Externals}.

(** What the update of [ConfigEdit] can write: the password digest and
    type, the sealed seed, the Horizon URL and the log. *)
Lemma ConfigEdit_body_frame (c : Config) (m m' : Mem) (root root' : db.Root)
    (err : option error) :
  ConfigEdit_body c m root = (m', root', err) ->
  seed m' = seed m /\
  (err <> None -> m' = m) /\
  db.Username (db.Config_ (db.Agent_ root')) = db.Username (db.Config_ (db.Agent_ root)) /\
  db.MaxRoundDurMin (db.Config_ (db.Agent_ root'))
  = db.MaxRoundDurMin (db.Config_ (db.Agent_ root)) /\
  db.FinalityDelayMin (db.Config_ (db.Agent_ root'))
  = db.FinalityDelayMin (db.Config_ (db.Agent_ root)) /\
  db.ChannelFeerate (db.Config_ (db.Agent_ root'))
  = db.ChannelFeerate (db.Config_ (db.Agent_ root)) /\
  db.HostFeerate (db.Config_ (db.Agent_ root'))
  = db.HostFeerate (db.Config_ (db.Agent_ root)) /\
  db.KeepAlive (db.Config_ (db.Agent_ root')) = db.KeepAlive (db.Config_ (db.Agent_ root)) /\
  db.NextKeypathIndex (db.Agent_ root') = db.NextKeypathIndex (db.Agent_ root) /\
  db.PrimaryAcct (db.Agent_ root') = db.PrimaryAcct (db.Agent_ root) /\
  db.Wallet (db.Agent_ root') = db.Wallet (db.Agent_ root) /\
  db.Channels (db.Agent_ root') = db.Channels (db.Agent_ root) /\
  db.Tasks root' = db.Tasks root /\
  (isReadyConfigured root = true -> isReadyConfigured root' = true).
Proof.
  unfold ConfigEdit_body. cbv zeta.
  destruct (isReadyConfigured root) eqn:Hconf; simpl;
    [| intros H; inversion H; subst; repeat split; congruence].
  destruct (String.eqb (Password c) ""); simpl.
  - destruct (String.eqb (HorizonURL c) "") eqn:Hurl; simpl;
      intros H; inversion H; subst; simpl; repeat split; try congruence;
      intros _; first [exact Hconf | unfold isReadyConfigured; simpl; rewrite Hurl;
                                     reflexivity].
  - destruct (String.eqb (db.PwType (db.Config_ (db.Agent_ root))) "bcrypt"); simpl;
      [| intros H; inversion H; subst; repeat split; congruence].
    destruct (bcrypt_CompareHashAndPassword _ _);
      [intros H; inversion H; subst; repeat split; congruence |].
    destruct (bcrypt_GenerateFromPassword _) as [e | digest];
      [intros H; inversion H; subst; repeat split; congruence |].
    destruct (String.eqb (HorizonURL c) "") eqn:Hurl; simpl;
      intros H; inversion H; subst; simpl; repeat split; try congruence;
      intros _; first [exact Hconf | unfold isReadyConfigured; simpl; rewrite Hurl;
                                     reflexivity].
Qed.

(** X15: a [ConfigEdit] that returns an error (a forbidden field, a
    password that is too long, a URL that does not validate, an agent not
    configured, an old password that does not match, a bcrypt failure)
    leaves the agent, store and memory, as it was. *)
Theorem ConfigEdit_error_unchanged (g g' : AgentSt) (c : Config) (e : error) :
  ConfigEdit g c = (g', Some e) -> g' = g.
Proof.
  unfold ConfigEdit.
  destruct (negb (String.eqb (Username c) "")); [intros H; inversion H; reflexivity |].
  destruct (72 <? _); [intros H; inversion H; reflexivity |].
  destruct (String.eqb (Password c) "" && String.eqb (HorizonURL c) ""); [discriminate |].
  destruct (if negb (String.eqb (HorizonURL c) "") then _ else _);
    [intros H; inversion H; reflexivity |].
  unfold db_Update.
  destruct (ConfigEdit_body c (mem g) (store g)) as [[m' r'] [e' |]] eqn:Hbody;
    [| discriminate].
  intros H. inversion H; subst.
  destruct (ConfigEdit_body_frame _ _ _ _ _ _ Hbody) as (_ & Hm & _).
  rewrite Hm by discriminate. destruct g; reflexivity.
Qed.

(** X16: whatever it is given and whatever it returns, [ConfigEdit] never
    touches the seed in memory, the username, the timing and fee options,
    the key counter, the primary account, the wallet, the channels or the
    task basket, and a configured agent stays configured. *)
Theorem ConfigEdit_frame (g g' : AgentSt) (c : Config) (err : option error) :
  ConfigEdit g c = (g', err) ->
  let cfg := db.Config_ (db.Agent_ (store g)) in
  let cfg' := db.Config_ (db.Agent_ (store g')) in
  seed (mem g') = seed (mem g) /\
  db.Username cfg' = db.Username cfg /\
  db.MaxRoundDurMin cfg' = db.MaxRoundDurMin cfg /\
  db.FinalityDelayMin cfg' = db.FinalityDelayMin cfg /\
  db.ChannelFeerate cfg' = db.ChannelFeerate cfg /\
  db.HostFeerate cfg' = db.HostFeerate cfg /\
  db.KeepAlive cfg' = db.KeepAlive cfg /\
  db.NextKeypathIndex (db.Agent_ (store g')) = db.NextKeypathIndex (db.Agent_ (store g)) /\
  db.PrimaryAcct (db.Agent_ (store g')) = db.PrimaryAcct (db.Agent_ (store g)) /\
  db.Wallet (db.Agent_ (store g')) = db.Wallet (db.Agent_ (store g)) /\
  db.Channels (db.Agent_ (store g')) = db.Channels (db.Agent_ (store g)) /\
  db.Tasks (store g') = db.Tasks (store g) /\
  (isReadyConfigured (store g) = true -> isReadyConfigured (store g') = true).
Proof.
  unfold ConfigEdit.
  destruct (negb (String.eqb (Username c) ""));
    [intros H; inversion H; subst; simpl; repeat split; congruence |].
  destruct (72 <? _); [intros H; inversion H; subst; simpl; repeat split; congruence |].
  destruct (String.eqb (Password c) "" && String.eqb (HorizonURL c) "");
    [intros H; inversion H; subst; simpl; repeat split; congruence |].
  destruct (if negb (String.eqb (HorizonURL c) "") then _ else _);
    [intros H; inversion H; subst; simpl; repeat split; congruence |].
  unfold db_Update.
  destruct (ConfigEdit_body c (mem g) (store g)) as [[m' r'] [e' |]] eqn:Hbody;
    intros H; inversion H; subst; simpl.
  - destruct (ConfigEdit_body_frame _ _ _ _ _ _ Hbody) as (Hseed & _).
    repeat split; congruence.
  - destruct (ConfigEdit_body_frame _ _ _ _ _ _ Hbody)
      as (H1 & _ & H2 & H3 & H4 & H5 & H6 & H7 & H8 & H9 & H10 & H11 & H12 & H13).
    repeat split; assumption.
Qed.

(** A [ConfigEdit] with a new password that returns nil has run its
    update, and the update returned nil. *)
Lemma ConfigEdit_nil_body (g g' : AgentSt) (c : Config) :
  ConfigEdit g c = (g', None) ->
  Password c <> "" ->
  exists m', ConfigEdit_body c (mem g) (store g) = (m', store g', None).
Proof.
  intros Hcall Hpw. revert Hcall. unfold ConfigEdit.
  destruct (negb (String.eqb (Username c) "")); [discriminate |].
  destruct (72 <? _); [discriminate |].
  rewrite (String_eqb_false _ _ Hpw). simpl.
  destruct (if negb (String.eqb (HorizonURL c) "") then _ else _); [discriminate |].
  unfold db_Update.
  destruct (ConfigEdit_body c (mem g) (store g)) as [[m' r'] [e |]]; [discriminate |].
  intros H. inversion H; subst. exists m'. reflexivity.
Qed.

(** What the update has checked and written when it returns nil for a
    new password on a bcrypt agent. *)
Lemma ConfigEdit_body_password (c : Config) (m m' : Mem) (root root' : db.Root) :
  ConfigEdit_body c m root = (m', root', None) ->
  Password c <> "" ->
  db.PwType (db.Config_ (db.Agent_ root)) = "bcrypt" ->
  isReadyConfigured root = true /\
  bcrypt_CompareHashAndPassword (db.PwHash (db.Config_ (db.Agent_ root)))
                                (OldPassword c) = None /\
  bcrypt_GenerateFromPassword (Password c)
  = inr (db.PwHash (db.Config_ (db.Agent_ root'))) /\
  db.PwType (db.Config_ (db.Agent_ root')) = "bcrypt" /\
  db.EncryptedSeed (db.Agent_ root') = sealBox (seed m) (Password c).
Proof.
  intros Hbody Hpw Htype. revert Hbody. unfold ConfigEdit_body. cbv zeta.
  destruct (isReadyConfigured root); simpl; [| discriminate].
  rewrite (String_eqb_false _ _ Hpw), Htype. simpl.
  destruct (bcrypt_CompareHashAndPassword _ _); [discriminate |].
  destruct (bcrypt_GenerateFromPassword _) as [e | digest]; [discriminate |].
  destruct (String.eqb (HorizonURL c) ""); simpl;
    intros H; inversion H; subst; simpl; repeat split.
Qed.

(** X17: a [ConfigEdit] with a new password that returns nil on an agent
    whose password type is bcrypt can only have done so on a configured
    agent, after the old password matched the stored digest; the stored
    digest is then the one bcrypt made of the new password and the sealed
    seed is the seed in memory (present or not) sealed with the new
    password. *)
Theorem ConfigEdit_password_needs_old (g g' : AgentSt) (c : Config) :
  ConfigEdit g c = (g', None) ->
  Password c <> "" ->
  db.PwType (db.Config_ (db.Agent_ (store g))) = "bcrypt" ->
  isReadyConfigured (store g) = true /\
  bcrypt_CompareHashAndPassword (db.PwHash (db.Config_ (db.Agent_ (store g))))
                                (OldPassword c) = None /\
  bcrypt_GenerateFromPassword (Password c)
  = inr (db.PwHash (db.Config_ (db.Agent_ (store g')))) /\
  db.PwType (db.Config_ (db.Agent_ (store g'))) = "bcrypt" /\
  db.EncryptedSeed (db.Agent_ (store g')) = sealBox (seed (mem g)) (Password c).
Proof.
  intros Hcall Hpw Htype.
  destruct (ConfigEdit_nil_body _ _ _ Hcall Hpw) as [m' Hbody].
  exact (ConfigEdit_body_password _ _ _ _ _ Hbody Hpw Htype).
Qed.

(** X18: on an agent whose stored password type is not bcrypt, a
    [ConfigEdit] that asks for a new password returns nil and changes
    nothing at all: the password is not changed, and a new Horizon URL
    given in the same call is dropped as well. *)
Theorem ConfigEdit_not_bcrypt_drops_edit (g : AgentSt) (c : Config) :
  Username c = "" ->
  Password c <> "" ->
  (String.length (Password c) <= 72)%nat ->
  HorizonURL c = "" \/ ValidateTestnetURL (HorizonURL c) = None ->
  isReadyConfigured (store g) = true ->
  db.PwType (db.Config_ (db.Agent_ (store g))) <> "bcrypt" ->
  ConfigEdit g c = (g, None).
Proof.
  intros Huser Hpw Hlen Hurl Hconf Htype. unfold ConfigEdit.
  rewrite Huser. simpl.
  rewrite (proj2 (Z.ltb_ge _ _)) by lia.
  rewrite (String_eqb_false _ _ Hpw). simpl.
  assert (Hvalid : (if negb (String.eqb (HorizonURL c) "")
                    then ValidateTestnetURL (HorizonURL c) else None) = None).
  { destruct Hurl as [-> | ->]; [reflexivity |].
    destruct (negb _); reflexivity. }
  rewrite Hvalid. unfold db_Update, ConfigEdit_body. cbv zeta.
  rewrite Hconf. simpl. rewrite (String_eqb_false _ _ Hpw). simpl.
  rewrite (String_eqb_false _ _ Htype). simpl. destruct g; reflexivity.
Qed.

End MoreConfigEditProps.

(** ** Authentication and restart *)

Section AuthenticateProps.

Context `{Ext : Externals}.

Variable openBox : bytes -> string -> option bytes.
Variable taskbasket_New : db.Root -> option error.

(** X19: [Authenticate] never writes the store or the Horizon client; when
    it returns false, or when the seed is already in memory, the agent is
    exactly as before; the only thing it ever writes is an absent seed,
    which, when it returns true, becomes what [openBox] makes of the sealed
    seed and the password. *)
Theorem Authenticate_frame (g : AgentSt) (name password : string) :
  let r := Authenticate openBox g name password in
  store r.1 = store g /\
  wclientURL (mem r.1) = wclientURL (mem g) /\
  (r.2 = false -> r.1 = g) /\
  (forall s, seed (mem g) = Some s -> r.1 = g) /\
  (r.2 = true -> seed (mem g) = None ->
   seed (mem r.1) = openBox (db.EncryptedSeed (db.Agent_ (store g))) password).
Proof.
  unfold Authenticate.
  destruct (negb (validateUsername name)); simpl;
    [repeat split; congruence |].
  destruct (Authenticate_view g name password) as [ok sd] eqn:Hview.
  assert (Hsd : ok = true -> sd = seed (mem g)).
  { revert Hview. unfold Authenticate_view.
    repeat match goal with
           | |- context [if ?b then _ else _] => destruct b
           end; intros H; inversion H; subst; congruence. }
  destruct ok; simpl.
  - specialize (Hsd eq_refl). destruct sd as [s |]; simpl.
    + repeat split; congruence.
    + unfold db_Update, Authenticate_body.
      rewrite <- Hsd. simpl.
      repeat split; congruence.
  - repeat split; congruence.
Qed.

(** The view finds name and password valid on a configured bcrypt agent
    whose digest the password matches. *)
Lemma Authenticate_view_ok (g : AgentSt) (name password : string) :
  isReadyConfigured (store g) = true ->
  name = db.Username (db.Config_ (db.Agent_ (store g))) ->
  db.PwType (db.Config_ (db.Agent_ (store g))) = "bcrypt" ->
  bcrypt_CompareHashAndPassword (db.PwHash (db.Config_ (db.Agent_ (store g)))) password
  = None ->
  Authenticate_view g name password = (true, seed (mem g)).
Proof.
  intros Hconf Hname Htype Hcmp. unfold Authenticate_view.
  rewrite Hconf, <- Hname, String.eqb_refl, Htype, Hcmp. reflexivity.
Qed.

(** X20: after a [ConfigInit] that returned nil for a non-empty Horizon
    URL, and with a bcrypt that accepts a password against its own digest,
    [Authenticate] with the configured name and password returns true and
    leaves the agent as it is (the seed is in memory already); with any
    other name it returns false. *)
Theorem ConfigInit_then_Authenticate (rnd : bytes) (g g' : AgentSt) (c : Config) :
  ConfigInit rnd g c = (g', None) ->
  HorizonURL c <> "" ->
  (forall pw digest,
      bcrypt_GenerateFromPassword pw = inr digest ->
      bcrypt_CompareHashAndPassword digest pw = None) ->
  Authenticate openBox g' (Username c) (Password c) = (g', true) /\
  (forall name,
      name <> Username c -> Authenticate openBox g' name (Password c) = (g', false)).
Proof.
  intros Hcall Hurl Hbcrypt.
  destruct (ConfigInit_success_inv _ _ _ _ Hcall)
    as (_ & _ & _ & _ & Huser & digest & Hgen & Hmem & Hagent & _).
  assert (Hconf : isReadyConfigured (store g') = true).
  { unfold isReadyConfigured. rewrite Hagent. simpl.
    rewrite (String_eqb_false _ _ Hurl). reflexivity. }
  split.
  - unfold Authenticate. rewrite Huser. simpl.
    rewrite (Authenticate_view_ok g' (Username c) (Password c)); try assumption.
    + rewrite Hmem. reflexivity.
    + rewrite Hagent. reflexivity.
    + rewrite Hagent. reflexivity.
    + rewrite Hagent. simpl. apply Hbcrypt. exact Hgen.
  - intros name Hname. unfold Authenticate.
    destruct (negb (validateUsername name)); [reflexivity |].
    unfold Authenticate_view. rewrite Hconf, Hagent. simpl.
    rewrite (String_eqb_false _ _ Hname). reflexivity.
Qed.

(** X21: [StartAgent] never changes the database it is given: the agent it
    returns holds that database, has no seed in memory, and has its
    Horizon client at the stored URL when the database is configured; on
    a database that is not configured it fails only if the task basket
    does. *)
Theorem StartAgent_store (boltDB : db.Root) :
  (forall g,
      StartAgent taskbasket_New boltDB = inr g ->
      store g = boltDB /\
      seed (mem g) = None /\
      wclientURL (mem g)
      = (if isReadyConfigured boltDB
         then db.HorizonURL (db.Config_ (db.Agent_ boltDB)) else "")) /\
  (isReadyConfigured boltDB = false ->
   StartAgent taskbasket_New boltDB
   = match taskbasket_New boltDB with
     | Some err => inl err
     | None => inr (mkAgentSt (mkMem None "") boltDB)
     end).
Proof.
  unfold StartAgent, db_Update. simpl. split.
  - intros g.
    destruct (start (mkMem None "") boltDB) as [[m' r'] [e |]] eqn:Hstart; [discriminate |].
    apply start_nil in Hstart. destruct Hstart as [-> ->]. simpl.
    destruct (taskbasket_New boltDB); [discriminate |].
    intros H. inversion H; subst. simpl.
    destruct (isReadyConfigured boltDB); repeat split.
  - intros Hconf. unfold start. rewrite Hconf. reflexivity.
Qed.

(** X22: the round trip over a restart.  After a [ConfigInit] that returned
    nil for a non-empty Horizon URL, an agent started again on the stored
    database has no seed; with a bcrypt that accepts a password against
    its own digest and a box that opens with the password it was sealed
    with, [Authenticate] with the configured name and password returns
    true and gives back, seed included, the agent [ConfigInit] left. *)
Theorem restart_then_Authenticate (rnd : bytes) (g g' g2 : AgentSt) (c : Config) :
  ConfigInit rnd g c = (g', None) ->
  HorizonURL c <> "" ->
  (forall pw digest,
      bcrypt_GenerateFromPassword pw = inr digest ->
      bcrypt_CompareHashAndPassword digest pw = None) ->
  openBox (sealBox (Some rnd) (Password c)) (Password c) = Some rnd ->
  StartAgent taskbasket_New (store g') = inr g2 ->
  seed (mem g2) = None /\
  Authenticate openBox g2 (Username c) (Password c) = (g', true).
Proof.
  intros Hcall Hurl Hbcrypt Hbox Hstart.
  destruct (ConfigInit_success_inv _ _ _ _ Hcall)
    as (_ & _ & _ & _ & Huser & digest & Hgen & Hmem & Hagent & _).
  assert (Hconf : isReadyConfigured (store g') = true).
  { unfold isReadyConfigured. rewrite Hagent. simpl.
    rewrite (String_eqb_false _ _ Hurl). reflexivity. }
  assert (Hg2 : g2 = mkAgentSt (mkMem None (HorizonURL c)) (store g')).
  { revert Hstart. unfold StartAgent, db_Update. simpl.
    destruct (start (mkMem None "") (store g')) as [[m2 r2] [e |]] eqn:Hs; [discriminate |].
    apply start_nil in Hs. destruct Hs as [-> ->]. simpl.
    destruct (taskbasket_New (store g')); [discriminate |].
    intros H. inversion H; subst. rewrite Hconf, Hagent. reflexivity. }
  assert (Hstore : store g2 = store g') by (rewrite Hg2; reflexivity).
  assert (Hseed : seed (mem g2) = None) by (rewrite Hg2; reflexivity).
  assert (Hclient : wclientURL (mem g2) = HorizonURL c) by (rewrite Hg2; reflexivity).
  split; [exact Hseed |].
  unfold Authenticate. rewrite Huser. simpl.
  rewrite (Authenticate_view_ok g2 (Username c) (Password c)).
  - rewrite Hseed. simpl. unfold db_Update, Authenticate_body.
    rewrite Hseed, Hstore, Hagent. simpl. rewrite Hbox, Hclient.
    destruct g' as [m' r']. simpl in *. rewrite Hmem. reflexivity.
  - rewrite Hstore. exact Hconf.
  - rewrite Hstore, Hagent. reflexivity.
  - rewrite Hstore, Hagent. reflexivity.
  - rewrite Hstore, Hagent. simpl. apply Hbcrypt. exact Hgen.
Qed.

(** X23: after a [ConfigEdit] that changed the password of a configured
    bcrypt agent, and with a bcrypt that accepts a password against its
    own digest, [Authenticate] with the stored username (a valid one) and
    the new password returns true. *)
Theorem ConfigEdit_then_Authenticate (g g' : AgentSt) (c : Config) :
  ConfigEdit g c = (g', None) ->
  Password c <> "" ->
  db.PwType (db.Config_ (db.Agent_ (store g))) = "bcrypt" ->
  validateUsername (db.Username (db.Config_ (db.Agent_ (store g)))) = true ->
  (forall pw digest,
      bcrypt_GenerateFromPassword pw = inr digest ->
      bcrypt_CompareHashAndPassword digest pw = None) ->
  (Authenticate openBox g' (db.Username (db.Config_ (db.Agent_ (store g)))) (Password c)).2
  = true.
Proof.
  intros Hcall Hpw Htype Huser Hbcrypt.
  destruct (ConfigEdit_nil_body _ _ _ Hcall Hpw) as [m' Hbody].
  destruct (ConfigEdit_body_password _ _ _ _ _ Hbody Hpw Htype)
    as (Hconf & _ & Hgen & Htype' & _).
  destruct (ConfigEdit_body_frame _ _ _ _ _ _ Hbody)
    as (_ & _ & Hname & _ & _ & _ & _ & _ & _ & _ & _ & _ & _ & H).
  assert (Hconf' : isReadyConfigured (store g') = true).
  { apply H. exact Hconf. }
  unfold Authenticate. rewrite Huser. simpl.
  rewrite (Authenticate_view_ok g' _ (Password c) Hconf' (eq_sym Hname) Htype'
             (Hbcrypt _ _ Hgen)).
  simpl. destruct (seed (mem g')); reflexivity.
Qed.

(** X24: an agent that [ConfigInit] has just configured cannot open a
    channel yet: a [DoCreateChannel] whose arguments are set and whose
    guest resolves to another account with no channel to it fails with
    the not-funded error, the wallet's sequence number still being zero. *)
Theorem ConfigInit_then_DoCreateChannel (rnd : bytes) (g g' : AgentSt) (c : Config)
    (guestFedAddr : string) (hostAmount : Z) (hostURL guestAcctStr starlightURL : string) :
  ConfigInit rnd g c = (g', None) ->
  guestFedAddr <> "" ->
  hostAmount <> 0 ->
  FindAccount guestFedAddr = (guestAcctStr, starlightURL, None) ->
  guestAcctStr <> DeriveAccountPrimary (Some rnd) ->
  ~ channel_between (store g') (DeriveAccountPrimary (Some rnd)) guestAcctStr ->
  DoCreateChannel g' guestFedAddr hostAmount hostURL
  = (g', None, Some (Sentinel errNotFunded)).
Proof.
  intros Hcall Haddr Hamt Hfind Hdiff Hnone.
  destruct (ConfigInit_success_inv _ _ _ _ Hcall)
    as (_ & _ & _ & _ & _ & digest & _ & _ & Hagent & _).
  unfold DoCreateChannel.
  rewrite (String_eqb_false _ _ Haddr), (proj2 (Z.eqb_neq _ _) Hamt), Hfind.
  rewrite Hagent. simpl db.PrimaryAcct.
  rewrite (String_eqb_false _ _ Hdiff).
  rewrite (checkChannelUnique_unique g' _ _ Hnone).
  unfold db_Update, DoCreateChannel_body, DoCreateChannel_prepare, isReadyFunded.
  rewrite Hagent. simpl. destruct g'; reflexivity.
Qed.

End AuthenticateProps.

(** ** The faucet request *)

Section FaucetProps.

Variable httpclient_Get : string -> nat -> FaucetReply.

Lemma put_warning_log (warning : string) (g : AgentSt) :
  mem (put_warning warning g) = mem g /\
  db.Agent_ (store (put_warning warning g)) = db.Agent_ (store g) /\
  db.Tasks (store (put_warning warning g)) = db.Tasks (store g) /\
  db.Updates (store (put_warning warning g))
  = (db.Updates (store g) ++
     [mkUpdate update.WarningType None None None None None 0 0 "" warning])%list.
Proof. repeat split. Qed.

(** The loop only appends warnings, at most one per attempt. *)
Lemma faucet_loop_log (url : string) (left : nat) :
  forall (i : nat) (g g' : AgentSt) (returned : bool),
    faucet_loop httpclient_Get url i left g = (g', returned) ->
    mem g' = mem g /\
    db.Agent_ (store g') = db.Agent_ (store g) /\
    db.Tasks (store g') = db.Tasks (store g) /\
    exists us,
      db.Updates (store g') = (db.Updates (store g) ++ us)%list /\
      Forall (fun u => Type_ u = update.WarningType) us /\
      (length us <= left)%nat.
Proof.
  induction left as [| left IH]; intros i g g' returned; simpl.
  - intros H. inversion H; subst. repeat split.
    exists []. rewrite app_nil_r. repeat split; [apply List.Forall_nil | simpl; lia].
  - destruct (httpclient_Get url i) as [err | code status body].
    + intros H. destruct (IH _ _ _ _ H) as (Hm & Ha & Ht & us & Hu & Hall & Hlen).
      repeat split; try assumption. exists us. repeat split; [assumption .. | lia].
    + destruct (negb (Z.quot code 100 =? 2)).
      * intros H. destruct (IH _ _ _ _ H) as (Hm & Ha & Ht & us & Hu & Hall & Hlen).
        destruct (put_warning_log (faucet_warning status body) g) as (Pm & Pa & Pt & Pu).
        repeat split; try congruence.
        exists (mkUpdate update.WarningType None None None None None 0 0 ""
                         (faucet_warning status body) :: us).
        split; [rewrite Hu, Pu, <- app_assoc; reflexivity |].
        split; [apply List.Forall_cons; [reflexivity | exact Hall] | simpl; lia].
      * intros H. inversion H; subst. repeat split.
        exists []. rewrite app_nil_r. repeat split; [apply List.Forall_nil | simpl; lia].
Qed.

(** Without a 2xx answer in its range the loop runs to its end. *)
Lemma faucet_loop_exhausted (url : string) (left : nat) :
  forall (i : nat) (g : AgentSt),
    (forall n code status body,
        (i <= n < i + left)%nat ->
        httpclient_Get url n = Replied code status body -> Z.quot code 100 <> 2) ->
    (faucet_loop httpclient_Get url i left g).2 = false.
Proof.
  induction left as [| left IH]; intros i g Hbad; simpl; [reflexivity |].
  destruct (httpclient_Get url i) as [err | code status body] eqn:Hget.
  - apply IH. intros n code status body Hn. apply Hbad. lia.
  - rewrite (proj2 (Z.eqb_neq _ _) (Hbad i code status body ltac:(lia) Hget)). simpl.
    apply IH. intros n code' status' body' Hn. apply Hbad. lia.
Qed.

(** While the calls fail the loop goes on silently; a 2xx answer ends it. *)
Lemma faucet_loop_quiet (url : string) (k : nat) :
  forall (i left : nat) (g : AgentSt) (code : Z) (status : string)
         (body : string + string * string),
    (k < left)%nat ->
    (forall n, (i <= n < i + k)%nat -> exists err, httpclient_Get url n = GetFailed err) ->
    httpclient_Get url (i + k) = Replied code status body ->
    Z.quot code 100 = 2 ->
    faucet_loop httpclient_Get url i left g = (g, true).
Proof.
  induction k as [| k IH]; intros i left g code status body Hk Hfail Hget Hcode.
  - destruct left as [| left]; [lia |]. simpl.
    rewrite Nat.add_0_r in Hget. rewrite Hget, Hcode. reflexivity.
  - destruct left as [| left]; [lia |]. simpl.
    destruct (Hfail i ltac:(lia)) as [err Herr]. rewrite Herr.
    apply (IH (S i) left g code status body); [lia | | | exact Hcode].
    + intros n Hn. apply Hfail. lia.
    + replace (S i + k)%nat with (i + S k)%nat by lia. exact Hget.
Qed.

(** X25: the faucet request never touches the agent's memory, the agent
    bucket or the task basket; all it leaves behind is warnings appended
    to the update log, at most six of them (one per attempt answered with
    a status that is not a 2xx, and one when all five attempts are
    spent). *)
Theorem getTestnetFaucetFunds_only_warns (acctID : fsm.AccountId) (g : AgentSt) :
  let g' := getTestnetFaucetFunds httpclient_Get acctID g in
  mem g' = mem g /\
  db.Agent_ (store g') = db.Agent_ (store g) /\
  db.Tasks (store g') = db.Tasks (store g) /\
  exists us,
    db.Updates (store g') = (db.Updates (store g) ++ us)%list /\
    Forall (fun u => Type_ u = update.WarningType) us /\
    (length us <= 6)%nat.
Proof.
  unfold getTestnetFaucetFunds.
  destruct (faucet_loop httpclient_Get _ 0 5 g) as [g1 returned] eqn:Hloop.
  destruct (faucet_loop_log _ _ _ _ _ _ Hloop) as (Hm & Ha & Ht & us & Hu & Hall & Hlen).
  destruct returned.
  - repeat split; try assumption. exists us. repeat split; [assumption .. | lia].
  - destruct (put_warning_log "could not retrieve testnet faucet funds" g1)
      as (Pm & Pa & Pt & Pu).
    repeat split; try congruence.
    exists (us ++ [mkUpdate update.WarningType None None None None None 0 0 ""
                            "could not retrieve testnet faucet funds"])%list.
    split; [rewrite Pu, Hu, <- app_assoc; reflexivity |].
    split; [apply Forall_app; split;
             [exact Hall | apply List.Forall_cons; [reflexivity | apply List.Forall_nil]] |].
    rewrite length_app. simpl. lia.
Qed.

(** X26: when none of the five attempts is answered with a 2xx status, the
    last entry of the update log afterwards is the warning that the
    faucet funds could not be retrieved. *)
Theorem getTestnetFaucetFunds_gives_up (acctID : fsm.AccountId) (g : AgentSt) :
  (forall n code status body,
      (n < 5)%nat ->
      httpclient_Get ("https://friendbot.stellar.org/?addr=" +:+ acctID) n
      = Replied code status body ->
      Z.quot code 100 <> 2) ->
  exists us,
    db.Updates (store (getTestnetFaucetFunds httpclient_Get acctID g))
    = (db.Updates (store g) ++ us ++
       [mkUpdate update.WarningType None None None None None 0 0 ""
                 "could not retrieve testnet faucet funds"])%list.
Proof.
  intros Hbad. unfold getTestnetFaucetFunds.
  pose proof (faucet_loop_exhausted ("https://friendbot.stellar.org/?addr=" +:+ acctID)
                5 0 g) as Hexh.
  destruct (faucet_loop httpclient_Get _ 0 5 g) as [g1 returned] eqn:Hloop.
  simpl in Hexh. rewrite Hexh.
  - destruct (faucet_loop_log _ _ _ _ _ _ Hloop) as (_ & _ & _ & us & Hu & _).
    exists us. simpl. rewrite Hu, <- app_assoc. reflexivity.
  - intros n code status body Hn. apply Hbad. lia.
Qed.

(** X27: when the calls of the first attempts fail outright and then, within
    the five attempts, one is answered with a 2xx status, the request
    returns at once and leaves the agent exactly as it was: failed calls
    are retried without a trace in the update log. *)
Theorem getTestnetFaucetFunds_quiet_success (acctID : fsm.AccountId) (g : AgentSt)
    (k : nat) (code : Z) (status : string) (body : string + string * string) :
  (k < 5)%nat ->
  (forall n, (n < k)%nat ->
             exists err,
               httpclient_Get ("https://friendbot.stellar.org/?addr=" +:+ acctID) n
               = GetFailed err) ->
  httpclient_Get ("https://friendbot.stellar.org/?addr=" +:+ acctID) k
  = Replied code status body ->
  Z.quot code 100 = 2 ->
  getTestnetFaucetFunds httpclient_Get acctID g = g.
Proof.
  intros Hk Hfail Hget Hcode. unfold getTestnetFaucetFunds.
  rewrite (faucet_loop_quiet _ k 0 5 g code status body Hk); try assumption.
  - reflexivity.
  - intros n Hn. apply Hfail. lia.
Qed.

End FaucetProps.

(** ** Sequence numbers *)

Section SequenceProps.

Context `{Ext : Externals}.

(** X28: [getSequenceNumbers] returns either an error with three zeros or
    no error with the three sequence numbers Horizon gives for the channel
    id, the guest ratchet account and the host ratchet account, in that
    order; it returns no error only for a channel id that is an account
    address and when all three lookups succeed. *)
Theorem getSequenceNumbers_spec (chanID : string)
    (guestRatchetAcct hostRatchetAcct : fsm.AccountId) :
  let r := getSequenceNumbers chanID guestRatchetAcct hostRatchetAcct in
  (r.2 <> None -> r.1 = (0, 0, 0)) /\
  (r.2 = None ->
   valid_address chanID = true /\
   SequenceForAccount chanID = (r.1.1.1, None) /\
   SequenceForAccount guestRatchetAcct = (r.1.1.2, None) /\
   SequenceForAccount hostRatchetAcct = (r.1.2, None)) /\
  (valid_address chanID = true ->
   forall base guest host,
     SequenceForAccount chanID = (base, None) ->
     SequenceForAccount guestRatchetAcct = (guest, None) ->
     SequenceForAccount hostRatchetAcct = (host, None) ->
     r = (base, guest, host, None)).
Proof.
  unfold getSequenceNumbers.
  destruct (valid_address chanID); simpl.
  - destruct (SequenceForAccount chanID) as [base [e |]]; simpl;
      [repeat split; try congruence; intros; discriminate |].
    destruct (SequenceForAccount guestRatchetAcct) as [guest [e |]]; simpl;
      [repeat split; try congruence; intros; discriminate |].
    destruct (SequenceForAccount hostRatchetAcct) as [host [e |]]; simpl;
      [repeat split; try congruence; intros; discriminate |].
    repeat split; congruence.
  - repeat split; try congruence; discriminate.
Qed.

End SequenceProps.

(** ** The further statements on the concrete world *)

(** The concrete bcrypt accepts a password against its own digest. *)
Lemma ex_bcrypt_accepts (pw : string) (digest : bytes) :
  bcrypt_GenerateFromPassword (Externals := ex_Ext) pw = inr digest ->
  bcrypt_CompareHashAndPassword (Externals := ex_Ext) digest pw = None.
Proof.
  simpl. intros H. inversion H; subst.
  rewrite bool_decide_eq_true_2 by reflexivity. reflexivity.
Qed.

(** Alice configures a fresh agent. *)
Lemma ConfigInit_success_witness :
  exists g',
    ConfigInit (Ext := ex_Ext) [1; 2; 3] ex_fresh ex_config = (g', None) /\
    db.Username (db.Config_ (db.Agent_ (store g'))) = "alice" /\
    db.HostFeerate (db.Config_ (db.Agent_ (store g'))) = 100 /\
    db.MaxRoundDurMin (db.Config_ (db.Agent_ (store g'))) = 1440 /\
    db.KeepAlive (db.Config_ (db.Agent_ (store g'))) = true /\
    db.NextKeypathIndex (db.Agent_ (store g')) = 1 /\
    db.Wallet (db.Agent_ (store g')) = fsm.mkWalletAcct 0 0 "" "" /\
    seed (mem g') = Some [1; 2; 3].
Proof.
  let r := eval vm_compute in (ConfigInit (Ext := ex_Ext) [1; 2; 3] ex_fresh ex_config) in
  match r with
  | (?g0, None) =>
    assert (Hcall : ConfigInit (Ext := ex_Ext) [1; 2; 3] ex_fresh ex_config = (g0, None))
      by (vm_compute; reflexivity);
    destruct (ConfigInit_success (Ext := ex_Ext) [1; 2; 3] ex_fresh g0 ex_config Hcall)
      as (Hseed & Huser & _ & _ & _ & Hmax & _ & _ & Hfee & Hkeep & _ & Hidx & _ & Hw & _);
    exists g0
  end.
  split; [exact Hcall |].
  split; [exact Huser | split; [exact Hfee | split; [exact Hmax | split; [exact Hkeep |]]]].
  split; [exact Hidx | split; [exact Hw | exact Hseed]].
Defined.

Lemma ConfigInit_once_witness :
  exists g',
    ConfigInit (Ext := ex_Ext) [1; 2; 3] ex_fresh ex_config = (g', None) /\
    Configured g' = true /\
    ConfigInit (Ext := ex_Ext) [4; 5; 6] g'
               (mkConfig "mallory" "other" ex_testnet "" 0 0 0 0 None)
    = (g', Some (Sentinel errAlreadyConfigured)).
Proof.
  let r := eval vm_compute in (ConfigInit (Ext := ex_Ext) [1; 2; 3] ex_fresh ex_config) in
  match r with
  | (?g0, None) =>
    assert (Hcall : ConfigInit (Ext := ex_Ext) [1; 2; 3] ex_fresh ex_config = (g0, None))
      by (vm_compute; reflexivity);
    exists g0; split; [exact Hcall |];
    exact (ConfigInit_once (Ext := ex_Ext) [1; 2; 3] [4; 5; 6] ex_fresh g0 ex_config
             (mkConfig "mallory" "other" ex_testnet "" 0 0 0 0 None)
             Hcall ltac:(discriminate) eq_refl)
  end.
Defined.


(** Alice changes her password: refused with a wrong old password, done
    with the right one. *)
Lemma ConfigEdit_error_unchanged_witness :
  let g := ex_agent 1000 1 ∅ in
  let c := mkConfig "" "new" "" "guess" 0 0 0 0 None in
  (ConfigEdit (Ext := ex_Ext) g c).1 = g /\
  (ConfigEdit (Ext := ex_Ext) g c).2 = Some (Sentinel errPasswordsDontMatch).
Proof.
  cbv zeta. set (g := ex_agent 1000 1 ∅).
  assert (Hcall : ConfigEdit (Ext := ex_Ext) g (mkConfig "" "new" "" "guess" 0 0 0 0 None)
                  = (g, Some (Sentinel errPasswordsDontMatch))) by (vm_compute; reflexivity).
  pose proof (ConfigEdit_error_unchanged (Ext := ex_Ext) g g _ _ Hcall) as H.
  rewrite Hcall. simpl. split; [exact H | reflexivity].
Defined.

Lemma ConfigEdit_frame_witness :
  let g := ex_agent 1000 1 {[ "GESCROW" := ex_channel ]} in
  let c := mkConfig "" "new" "" "pw" 0 0 0 0 None in
  exists g',
    ConfigEdit (Ext := ex_Ext) g c = (g', None) /\
    db.Wallet (db.Agent_ (store g')) = db.Wallet (db.Agent_ (store g)) /\
    db.Channels (db.Agent_ (store g')) = db.Channels (db.Agent_ (store g)) /\
    isReadyConfigured (store g') = true.
Proof.
  cbv zeta. set (g := ex_agent 1000 1 {[ "GESCROW" := ex_channel ]}).
  let r := eval vm_compute in
             (ConfigEdit (Ext := ex_Ext) g (mkConfig "" "new" "" "pw" 0 0 0 0 None)) in
  match r with
  | (?g0, None) =>
    assert (Hcall : ConfigEdit (Ext := ex_Ext) g (mkConfig "" "new" "" "pw" 0 0 0 0 None)
                    = (g0, None)) by (vm_compute; reflexivity);
    destruct (ConfigEdit_frame (Ext := ex_Ext) g g0 _ _ Hcall)
      as (_ & _ & _ & _ & _ & _ & _ & _ & _ & Hw & Hc & _ & Hconf);
    exists g0
  end.
  split; [exact Hcall | split; [exact Hw | split; [exact Hc |]]].
  apply Hconf. reflexivity.
Defined.

Lemma ConfigEdit_password_needs_old_witness :
  let g := ex_agent 1000 1 ∅ in
  let c := mkConfig "" "new" "" "pw" 0 0 0 0 None in
  exists g',
    ConfigEdit (Ext := ex_Ext) g c = (g', None) /\
    db.PwHash (db.Config_ (db.Agent_ (store g'))) = ex_hash "new" /\
    db.EncryptedSeed (db.Agent_ (store g')) = (ex_seed ++ ex_hash "new")%list.
Proof.
  cbv zeta. set (g := ex_agent 1000 1 ∅).
  let r := eval vm_compute in
             (ConfigEdit (Ext := ex_Ext) g (mkConfig "" "new" "" "pw" 0 0 0 0 None)) in
  match r with
  | (?g0, None) =>
    assert (Hcall : ConfigEdit (Ext := ex_Ext) g (mkConfig "" "new" "" "pw" 0 0 0 0 None)
                    = (g0, None)) by (vm_compute; reflexivity);
    destruct (ConfigEdit_password_needs_old (Ext := ex_Ext) g g0 _ Hcall
                ltac:(discriminate) eq_refl)
      as (_ & _ & Hgen & _ & Hseal);
    exists g0
  end.
  split; [exact Hcall | split; [| exact Hseal]].
  simpl in Hgen. inversion Hgen. reflexivity.
Defined.

Lemma ConfigEdit_not_bcrypt_drops_edit_witness :
  ConfigEdit (Ext := ex_Ext) ex_agent_scrypt (mkConfig "" "new" ex_testnet "" 0 0 0 0 None)
  = (ex_agent_scrypt, None).
Proof.
  apply (ConfigEdit_not_bcrypt_drops_edit (Ext := ex_Ext)).
  - reflexivity.
  - discriminate.
  - simpl. lia.
  - right. reflexivity.
  - reflexivity.
  - discriminate.
Defined.

(** Alice authenticates: right after the configuration, and after a
    restart on the stored database. *)
Lemma ConfigInit_then_Authenticate_witness :
  exists g',
    ConfigInit (Ext := ex_Ext) [1; 2; 3] ex_fresh ex_config = (g', None) /\
    Authenticate (Ext := ex_Ext) ex_openBox g' "alice" "pw" = (g', true) /\
    Authenticate (Ext := ex_Ext) ex_openBox g' "bob" "pw" = (g', false).
Proof.
  let r := eval vm_compute in (ConfigInit (Ext := ex_Ext) [1; 2; 3] ex_fresh ex_config) in
  match r with
  | (?g0, None) =>
    assert (Hcall : ConfigInit (Ext := ex_Ext) [1; 2; 3] ex_fresh ex_config = (g0, None))
      by (vm_compute; reflexivity);
    destruct (ConfigInit_then_Authenticate (Ext := ex_Ext) ex_openBox [1; 2; 3] ex_fresh g0
                ex_config Hcall ltac:(discriminate) ex_bcrypt_accepts) as [Hok Hother];
    exists g0
  end.
  split; [exact Hcall | split; [exact Hok |]].
  apply Hother. discriminate.
Defined.

Lemma restart_then_Authenticate_witness :
  exists g' g2,
    ConfigInit (Ext := ex_Ext) [1; 2; 3] ex_fresh ex_config = (g', None) /\
    StartAgent (Ext := ex_Ext) ex_taskbasket_New (store g') = inr g2 /\
    seed (mem g2) = None /\
    Authenticate (Ext := ex_Ext) ex_openBox g2 "alice" "pw" = (g', true) /\
    seed (mem g') = Some [1; 2; 3].
Proof.
  let r := eval vm_compute in (ConfigInit (Ext := ex_Ext) [1; 2; 3] ex_fresh ex_config) in
  match r with
  | (?g0, None) =>
    assert (Hcall : ConfigInit (Ext := ex_Ext) [1; 2; 3] ex_fresh ex_config = (g0, None))
      by (vm_compute; reflexivity);
    let r2 := eval vm_compute in
                (StartAgent (Ext := ex_Ext) ex_taskbasket_New (store g0)) in
    match r2 with
    | inr ?g20 =>
      assert (Hstart : StartAgent (Ext := ex_Ext) ex_taskbasket_New (store g0) = inr g20)
        by (vm_compute; reflexivity);
      destruct (restart_then_Authenticate (Ext := ex_Ext) ex_openBox ex_taskbasket_New
                  [1; 2; 3] ex_fresh g0 g20 ex_config Hcall ltac:(discriminate)
                  ex_bcrypt_accepts ltac:(vm_compute; reflexivity) Hstart)
        as [Hseed Hauth];
      exists g0, g20
    end
  end.
  split; [exact Hcall | split; [exact Hstart | split; [exact Hseed | split; [exact Hauth |]]]].
  reflexivity.
Defined.

Lemma ConfigEdit_then_Authenticate_witness :
  let g := ex_agent 1000 1 ∅ in
  exists g',
    ConfigEdit (Ext := ex_Ext) g (mkConfig "" "new" "" "pw" 0 0 0 0 None) = (g', None) /\
    (Authenticate (Ext := ex_Ext) ex_openBox g' "alice" "new").2 = true /\
    (Authenticate (Ext := ex_Ext) ex_openBox g' "alice" "pw").2 = false.
Proof.
  cbv zeta. set (g := ex_agent 1000 1 ∅).
  let r := eval vm_compute in
             (ConfigEdit (Ext := ex_Ext) g (mkConfig "" "new" "" "pw" 0 0 0 0 None)) in
  match r with
  | (?g0, None) =>
    assert (Hcall : ConfigEdit (Ext := ex_Ext) g (mkConfig "" "new" "" "pw" 0 0 0 0 None)
                    = (g0, None)) by (vm_compute; reflexivity);
    pose proof (ConfigEdit_then_Authenticate (Ext := ex_Ext) ex_openBox g g0 _ Hcall
                  ltac:(discriminate) eq_refl eq_refl ex_bcrypt_accepts) as Hnew;
    exists g0
  end.
  split; [exact Hcall | split; [exact Hnew |]].
  vm_compute. reflexivity.
Defined.

Lemma ConfigInit_then_DoCreateChannel_witness :
  exists g',
    ConfigInit (Ext := ex_Ext) [1; 2; 3] ex_fresh ex_config = (g', None) /\
    DoCreateChannel (Ext := ex_Ext) g' "bob*bob.example" 1000 "alice.example"
    = (g', None, Some (Sentinel errNotFunded)).
Proof.
  let r := eval vm_compute in (ConfigInit (Ext := ex_Ext) [1; 2; 3] ex_fresh ex_config) in
  match r with
  | (?g0, None) =>
    assert (Hcall : ConfigInit (Ext := ex_Ext) [1; 2; 3] ex_fresh ex_config = (g0, None))
      by (vm_compute; reflexivity);
    exists g0; split; [exact Hcall |];
    apply (ConfigInit_then_DoCreateChannel (Ext := ex_Ext) [1; 2; 3] ex_fresh g0 ex_config
             "bob*bob.example" 1000 "alice.example" "GBOB" "https://bob.example/" Hcall)
  end.
  - discriminate.
  - discriminate.
  - reflexivity.
  - discriminate.
  - intros (chanID & ch & Hlook & _). vm_compute in Hlook. discriminate Hlook.
Defined.

(** A faucet that is down for all five attempts, and one that answers at
    the third. *)
Lemma getTestnetFaucetFunds_gives_up_witness :
  let g := ex_agent 0 1 ∅ in
  exists us,
    db.Updates (store (getTestnetFaucetFunds ex_faucet_down "GPRIMARY" g))
    = (us ++ [mkUpdate update.WarningType None None None None None 0 0 ""
                       "could not retrieve testnet faucet funds"])%list /\
    length us = 4%nat.
Proof.
  cbv zeta.
  destruct (getTestnetFaucetFunds_gives_up ex_faucet_down "GPRIMARY" (ex_agent 0 1 ∅))
    as [us Hus].
  - intros n code status body Hn. destruct n as [| n]; simpl; [discriminate |].
    intros H. inversion H; subst. vm_compute. discriminate.
  - exists us. split; [exact Hus |].
    assert (Hlen : length (db.Updates (store (getTestnetFaucetFunds ex_faucet_down
                                                "GPRIMARY" (ex_agent 0 1 ∅)))) = 5%nat)
      by (vm_compute; reflexivity).
    rewrite Hus in Hlen. rewrite !length_app in Hlen. simpl in Hlen. lia.
Defined.

Lemma getTestnetFaucetFunds_quiet_success_witness :
  getTestnetFaucetFunds ex_faucet "GPRIMARY" (ex_agent 0 1 ∅) = ex_agent 0 1 ∅.
Proof.
  apply (getTestnetFaucetFunds_quiet_success ex_faucet "GPRIMARY" (ex_agent 0 1 ∅)
           2 200 "200 OK" (inl "")).
  - lia.
  - intros n Hn. exists "timeout".
    destruct n as [| [| n]]; [reflexivity | reflexivity | lia].
  - reflexivity.
  - reflexivity.
Defined.
